(** * Network address codec (INET / CIDR / MACADDR): a shallow embedding
      of [src/network_address.cc] and the properties of its parsers, codecs,
      mask arithmetic, comparators and record operations.

    Conventions of the embedding.
    - A byte ([uint8_t], [unsigned char]) is a [Z] in [0, 256); a
      [uint32_t] is a [Z] in [0, 2^32) with wrap-around written out.
    - A C string is a [list ascii]; [c_str] cuts at the first NUL.
    - Pointers are taken to be non-null; the size arguments that travel
      with them are kept.
    - C operations whose behaviour is undefined (a shift by the full width
      of the operand) return [None].
    - The record structs are laid out as a compiler for the LP64 ABI lays
      them out, the [uint32_t] address field in host byte order
      (little-endian). [struct IPv6Network] has alignment 1 and 19 bytes.
      [struct IPv4Network] has the alignment of its [uint32_t]: the three
      [uint8_t] fields are at offsets 4, 5 and 6 and a byte of padding at
      offset 7 brings [sizeof(IPv4Network)] to 8 (the comment "7 bytes
      total" in the source is not what [sizeof] gives; nothing under [src/]
      packs the struct).
    - No code initialises the padding byte of a local [IPv4Network], and
      [memcpy(buffer, &net, sizeof(IPv4Network))] copies it out. A function
      that builds an IPv4 record in a local takes the value that byte
      happens to hold as its first parameter, [pad]; statements hold for
      every [pad]. *)

From Stdlib Require Import ZArith Zbitwise List Ascii String Bool Lia.
Import ListNotations.
Open Scope Z_scope.
Open Scope list_scope.

(* ================================================================= *)
(** ** Machine integers *)

Definition u8 (x : Z) : Z := x mod 256.
Definition u32 (x : Z) : Z := x mod 2 ^ 32.
Definition ULONG_MAX : Z := 2 ^ 64 - 1.
Definition LONG_MAX : Z := 2 ^ 63 - 1.
Definition LONG_MIN : Z := - 2 ^ 63.

(** Narrowing of a [long] to [int] (two's complement). *)
Definition to_int (x : Z) : Z := (x + 2 ^ 31) mod 2 ^ 32 - 2 ^ 31.

(** [x << n] on [unsigned int]: undefined when [n] is not below the width. *)
Definition shl_u32 (x n : Z) : option Z :=
  if (0 <=? n) && (n <? 32) then Some (u32 (Z.shiftl x n)) else None.

(** [x << n] on [int], for the non-negative small operands the source uses. *)
Definition shl_int (x n : Z) : option Z :=
  if (0 <=? n) && (n <? 32) then Some (Z.shiftl x n) else None.

(** [~x] on [unsigned int]. *)
Definition not_u32 (x : Z) : Z := u32 (Z.lnot x).

(** [~x] on [int], stored into a [uint8_t]. *)
Definition not_u8 (x : Z) : Z := u8 (Z.lnot x).

Definition bind {A B : Type} (m : option A) (f : A -> option B) : option B :=
  match m with
  | Some a => f a
  | None => None
  end.

Notation "x <- m ;; k" := (bind m (fun x => k))
  (at level 61, m at next level, right associativity).

(* ================================================================= *)
(** ** C strings and the library functions the source calls *)

Definition cstring := list ascii.

Definition NUL : ascii := Ascii.zero.

(** [std::string::c_str()] read as a C string: the characters before the
    first NUL. *)
Fixpoint c_str (s : list ascii) : cstring :=
  match s with
  | [] => []
  | c :: r => if Ascii.eqb c NUL then [] else c :: c_str r
  end.

(** [std::string from_str(from, from_len)] followed by [.c_str()]. *)
Definition from_c_str (from : string) : cstring :=
  c_str (list_ascii_of_string from).

Definition code (c : ascii) : Z := Z.of_N (N_of_ascii c).

(** [isspace] in the C locale. *)
Definition isspace (c : ascii) : bool :=
  let n := code c in (n =? 32) || ((9 <=? n) && (n <=? 13)).

Definition digit_val (c : ascii) : option Z :=
  let n := code c in
  if (48 <=? n) && (n <=? 57) then Some (n - 48) else None.

Definition xdigit_val (c : ascii) : option Z :=
  let n := code c in
  if (48 <=? n) && (n <=? 57) then Some (n - 48)
  else if (97 <=? n) && (n <=? 102) then Some (n - 87)
  else if (65 <=? n) && (n <=? 70) then Some (n - 55)
  else None.

Definition digit_of (base : Z) (c : ascii) : option Z :=
  if base =? 16 then xdigit_val c else digit_val c.

Fixpoint skip_space (s : cstring) : cstring :=
  match s with
  | c :: r => if isspace c then skip_space r else s
  | [] => []
  end.

(** The run of digits at the head of [s], accumulated in [acc]:
    the value read and the rest of the string. *)
Fixpoint scan_digits (base : Z) (s : cstring) (acc : Z) : Z * cstring :=
  match s with
  | c :: r =>
      match digit_of base c with
      | Some d => scan_digits base r (acc * base + d)
      | None => (acc, s)
      end
  | [] => (acc, [])
  end.

Definition starts_with_digit (base : Z) (s : cstring) : bool :=
  match s with
  | c :: _ => match digit_of base c with Some _ => true | None => false end
  | [] => false
  end.

(** An optional sign: whether it is a minus, and the rest. *)
Definition scan_sign (s : cstring) : bool * cstring :=
  match s with
  | c :: r =>
      if Ascii.eqb c "-"%char then (true, r)
      else if Ascii.eqb c "+"%char then (false, r)
      else (false, s)
  | [] => (false, [])
  end.

(** The optional [0x] / [0X] of base 16, taken only before a hex digit. *)
Definition skip_0x (s : cstring) : cstring :=
  match s with
  | z :: x :: r =>
      if Ascii.eqb z "0"%char
         && (Ascii.eqb x "x"%char || Ascii.eqb x "X"%char)
         && starts_with_digit 16 r
      then r else s
  | _ => s
  end.

(** [strtoul(p, &end, base)] on LP64: [None] when no conversion is
    performed ([end == p]); otherwise the value (saturated at [ULONG_MAX], a
    minus sign negating modulo 2^64) and [end]. *)
Definition strtoul (p : cstring) (base : Z) : option (Z * cstring) :=
  let (neg, s1) := scan_sign (skip_space p) in
  let s2 := if base =? 16 then skip_0x s1 else s1 in
  if starts_with_digit base s2 then
    let (v, e) := scan_digits base s2 0 in
    let r := if v >? ULONG_MAX then ULONG_MAX
             else if neg then (- v) mod 2 ^ 64 else v in
    Some (r, e)
  else None.

(** [strtol], base 10, on LP64. *)
Definition strtol10 (p : cstring) : option (Z * cstring) :=
  let (neg, s1) := scan_sign (skip_space p) in
  if starts_with_digit 10 s1 then
    let (v, e) := scan_digits 10 s1 0 in
    let r := if neg then Z.max LONG_MIN (- v) else Z.min LONG_MAX v in
    Some (r, e)
  else None.

(** The [%u] directive of [sscanf]: the subject of [strtoul] in base 10,
    stored into an [unsigned int]. *)
Definition scan_u (s : cstring) : option (Z * cstring) :=
  match strtoul s 10 with
  | Some (v, e) => Some (u32 v, e)
  | None => None
  end.

(** The [%d] directive of [sscanf], stored into an [int]. *)
Definition scan_d (s : cstring) : option (Z * cstring) :=
  match strtol10 s with
  | Some (v, e) => Some (to_int v, e)
  | None => None
  end.

(** An ordinary character of a [sscanf] format. *)
Definition scan_lit (c : ascii) (s : cstring) : option cstring :=
  match s with
  | x :: r => if Ascii.eqb x c then Some r else None
  | [] => None
  end.

(** The [%N[^/]] directive: the longest run of at most [width] characters
    other than '/', which must not be empty. *)
Fixpoint scan_not_slash (width : nat) (s : cstring) : cstring * cstring :=
  match width, s with
  | S w, c :: r =>
      if Ascii.eqb c "/"%char then ([], s)
      else let (a, e) := scan_not_slash w r in (c :: a, e)
  | _, _ => ([], s)
  end.

(** [strstr(s, "::")]: the text before the first "::" and the text after. *)
Fixpoint strstr_double_colon (s : cstring) : option (cstring * cstring) :=
  match s with
  | c :: r =>
      match r with
      | d :: r' =>
          if Ascii.eqb c ":"%char && Ascii.eqb d ":"%char then Some ([], r')
          else
            match strstr_double_colon r with
            | Some (l, t) => Some (c :: l, t)
            | None => None
            end
      | [] => None
      end
  | [] => None
  end.

(** [%u] of [snprintf]. *)
Fixpoint fmt_u_aux (fuel : nat) (n : Z) (acc : cstring) : cstring :=
  match fuel with
  | O => acc
  | S f =>
      let acc' := ascii_of_N (Z.to_N (48 + n mod 10)) :: acc in
      if n <? 10 then acc' else fmt_u_aux f (n / 10) acc'
  end.

Definition fmt_u (n : Z) : cstring := fmt_u_aux 20 n [].

Definition hex_digit (d : Z) : ascii :=
  ascii_of_N (Z.to_N (if d <? 10 then 48 + d else 87 + d)).

(** [%02x] of [snprintf] for a byte. *)
Definition fmt_02x (b : Z) : cstring := [hex_digit (b / 16); hex_digit (b mod 16)].

(** [snprintf(buffer, size, ...)]: at most [size - 1] characters are kept. *)
Definition snprintf (size : Z) (s : cstring) : cstring :=
  firstn (Z.to_nat (size - 1)) s.

Definition strlen (s : cstring) : Z := Z.of_nat (List.length s).

(* ================================================================= *)
(** ** Data structures and constants *)

(** [struct IPv4Network]: the four fields; in memory 8 bytes, the last one
    padding. *)
Record IPv4Network := mkIPv4Network {
  v4_address : Z;   (* uint32_t address *)
  v4_netmask : Z;   (* uint8_t netmask: prefix length *)
  v4_family : Z;    (* uint8_t family *)
  v4_flags : Z      (* uint8_t flags *)
}.

(** [struct IPv6Network]: 19 bytes. *)
Record IPv6Network := mkIPv6Network {
  v6_address : list Z;  (* uint8_t address[16] *)
  v6_netmask : Z;
  v6_family : Z;
  v6_flags : Z
}.

Definition ADDR_FLAG_CIDR : Z := 1.
Definition ADDR_FLAG_INET : Z := 2.
Definition AF_INET_VAL : Z := 2.
Definition AF_INET6_VAL : Z := 10.
Definition IPV4_MAX_PREFIXLEN : Z := 32.
Definition IPV6_MAX_PREFIXLEN : Z := 128.
Definition kMaxIPv4String : Z := 18.
Definition kMaxIPv6String : Z := 44.

Definition sizeof_IPv4Network : Z := 8.
Definition sizeof_IPv6Network : Z := 19.

(** [p[i]] on a byte buffer. *)
Definition byte_at (buffer : list Z) (i : nat) : Z := nth i buffer 0.

(** [a[i] = v] on an array. *)
Fixpoint upd (i : nat) (v : Z) (a : list Z) : list Z :=
  match a, i with
  | [], _ => []
  | _ :: t, O => v :: t
  | h :: t, S j => h :: upd j v t
  end.

(** The object representation of a [uint32_t]. *)
Definition bytes_of_u32 (x : Z) : list Z :=
  [Z.land x 255; Z.land (Z.shiftr x 8) 255;
   Z.land (Z.shiftr x 16) 255; Z.land (Z.shiftr x 24) 255].

Definition u32_of_bytes (b : list Z) : Z :=
  byte_at b 0 + 256 * byte_at b 1 + 65536 * byte_at b 2 + 16777216 * byte_at b 3.

(** [memcpy(buffer, &net4, sizeof(IPv4Network))]: the object representation
    of the local, whose padding byte holds [pad]. *)
Definition bytes_of_IPv4Network (n : IPv4Network) (pad : Z) : list Z :=
  bytes_of_u32 (v4_address n) ++ [v4_netmask n; v4_family n; v4_flags n; pad].

(** [memcpy(&net, buffer, sizeof(IPv4Network))]: the fields of the copy (its
    padding byte, [buffer[7]], is never read). *)
Definition IPv4Network_of_bytes (b : list Z) : IPv4Network :=
  mkIPv4Network (u32_of_bytes b) (byte_at b 4) (byte_at b 5) (byte_at b 6).

(** [memcpy(buffer, &net6, sizeof(IPv6Network))]. *)
Definition bytes_of_IPv6Network (n : IPv6Network) : list Z :=
  firstn 16 (v6_address n) ++ [v6_netmask n; v6_family n; v6_flags n].

(** [memcpy(&net, buffer, sizeof(IPv6Network))]. *)
Definition IPv6Network_of_bytes (b : list Z) : IPv6Network :=
  mkIPv6Network (firstn 16 b) (byte_at b 16) (byte_at b 17) (byte_at b 18).

(** What an operation that fills a result buffer does. *)
Inductive outcome :=
  | Written (bytes : list Z)  (* returns false; the bytes written, [*length] their number *)
  | Invalid                   (* [MarkInvalid]: [*length = 0], returns true *)
  | Error                     (* returns true, nothing written *)
  | Undefined.                (* the call runs into undefined behaviour *)

(* ================================================================= *)
(** ** Parsing *)

(** [sscanf(addr_str, "%u.%u.%u.%u", &a, &b, &c, &d)]: the values assigned,
    in order; the call returns their number (or [EOF], which the source does
    not tell from 0). *)
Definition sscanf_u_dot4 (s : cstring) : list Z :=
  match scan_u s with
  | None => []
  | Some (a, s1) =>
  match scan_lit "."%char s1 with
  | None => [a]
  | Some s2 =>
  match scan_u s2 with
  | None => [a]
  | Some (b, s3) =>
  match scan_lit "."%char s3 with
  | None => [a; b]
  | Some s4 =>
  match scan_u s4 with
  | None => [a; b]
  | Some (c, s5) =>
  match scan_lit "."%char s5 with
  | None => [a; b; c]
  | Some s6 =>
  match scan_u s6 with
  | None => [a; b; c]
  | Some (d, _) => [a; b; c; d]
  end end end end end end end.

(** [parse_ipv4_address]: [Some address] when it returns true. *)
Definition parse_ipv4_address (addr_str : cstring) : option Z :=
  match sscanf_u_dot4 addr_str with
  | [a; b; c; d] =>
      if (a >? 255) || (b >? 255) || (c >? 255) || (d >? 255) then None
      else
        match shl_u32 a 24, shl_u32 b 16, shl_u32 c 8 with
        | Some a', Some b', Some c' => Some (Z.lor (Z.lor (Z.lor a' b') c') d)
        | _, _, _ => None
        end
  | _ => None
  end.

(** [format_ipv4_address]. *)
Definition format_ipv4_address (address buffer_size : Z) : cstring :=
  snprintf buffer_size
    (fmt_u (Z.land (Z.shiftr address 24) 255) ++ ["."%char] ++
     fmt_u (Z.land (Z.shiftr address 16) 255) ++ ["."%char] ++
     fmt_u (Z.land (Z.shiftr address 8) 255) ++ ["."%char] ++
     fmt_u (Z.land address 255)).

(** One of the three group loops of [parse_ipv6_address]
    (while [p] is not at the end of the string and [parts < 8]): [room] is
    [8 - parts], [vals] the groups stored so far. [None] is [return false]. *)
Fixpoint parse_groups (room : nat) (p : cstring) (vals : list Z) : option (list Z) :=
  match room with
  | O => Some vals
  | S room' =>
      match p with
      | [] => Some vals
      | _ :: _ =>
          match strtoul p 16 with
          | None => None
          | Some (val, e) =>
              if val >? 65535 then None
              else
                let vals' := vals ++ [val mod 65536] in
                match e with
                | [] => Some vals'
                | c :: r =>
                    if Ascii.eqb c ":"%char then parse_groups room' r vals'
                    else None
                end
          end
      end
  end.

(** The loops storing groups [vals] into [address] from group index [i]. *)
Fixpoint store_groups (address : list Z) (i : nat) (vals : list Z) : list Z :=
  match vals with
  | [] => address
  | v :: r =>
      let a1 := upd (i * 2) (Z.land (Z.shiftr v 8) 255) address in
      let a2 := upd (i * 2 + 1) (Z.land v 255) a1 in
      store_groups a2 (S i) r
  end.

(** [parse_ipv6_address]: [Some address] (16 bytes) when it returns true. *)
Definition parse_ipv6_address (addr_str : cstring) : option (list Z) :=
  let address := repeat 0 16 in
  match strstr_double_colon addr_str with
  | Some (left_str, right_start) =>
      left_values <-
        (match left_str with
         | [] => Some []
         | _ :: _ => parse_groups 8 left_str []
         end) ;;
      right_values <-
        (match right_start with
         | [] => Some []
         | _ :: _ => parse_groups 8 right_start []
         end) ;;
      let left_parts := List.length left_values in
      let right_parts := List.length right_values in
      if (7 <? left_parts + right_parts)%nat then None
      else
        let a := store_groups address 0 left_values in
        Some (store_groups a (8 - right_parts) right_values)
  | None =>
      parts <- parse_groups 8 addr_str [] ;;
      if negb (List.length parts =? 8)%nat then None
      else Some (store_groups address 0 parts)
  end.

(** [format_ipv6_address]. *)
Definition format_ipv6_address (address : list Z) (buffer_size : Z) : cstring :=
  let g i := fmt_02x (byte_at address (2 * i)) ++ fmt_02x (byte_at address (2 * i + 1)) in
  snprintf buffer_size
    (g 0%nat ++ [":"%char] ++ g 1%nat ++ [":"%char] ++ g 2%nat ++ [":"%char] ++
     g 3%nat ++ [":"%char] ++ g 4%nat ++ [":"%char] ++ g 5%nat ++ [":"%char] ++
     g 6%nat ++ [":"%char] ++ g 7%nat).

(* ================================================================= *)
(** ** Strict validation *)

(** [validate_cidr_network]. *)
Definition validate_cidr_network (address netmask : Z) : option bool :=
  if netmask >? IPV4_MAX_PREFIXLEN then Some false
  else if netmask =? 0 then Some true
  else
    s <- shl_u32 1 (IPV4_MAX_PREFIXLEN - netmask) ;;
    let mask := not_u32 (u32 (s - 1)) in
    Some (Z.land address (not_u32 mask) =? 0).

(** The loop [for (int i = full_bytes; i < 16; i++)] of
    [validate_cidr_network_ipv6]: whether the bytes from [full_bytes] on are
    all zero. *)
Definition remaining_bytes_zero (address : list Z) (full_bytes : nat) : bool :=
  forallb (fun i => byte_at address i =? 0) (seq full_bytes (16 - full_bytes)).

(** [validate_cidr_network_ipv6]. *)
Definition validate_cidr_network_ipv6 (address : list Z) (netmask : Z) : option bool :=
  if netmask >? IPV6_MAX_PREFIXLEN then Some false
  else if netmask =? 0 then Some true
  else
    let full_bytes := Z.to_nat (netmask / 8) in
    let remaining_bits := netmask mod 8 in
    if remaining_bits >? 0 then
      s <- shl_int 255 (8 - remaining_bits) ;;
      let mask := u8 s in
      if negb (Z.land (byte_at address full_bytes) (Z.lnot mask) =? 0)
      then Some false
      else Some (remaining_bytes_zero address (S full_bytes))
    else Some (remaining_bytes_zero address full_bytes).

(* ================================================================= *)
(** ** Mask arithmetic *)

(** [prefix_to_netmask_ipv4]. *)
Definition prefix_to_netmask_ipv4 (prefix_len : Z) : option Z :=
  if prefix_len =? 0 then Some 0
  else if prefix_len >=? 32 then Some 4294967295
  else
    s <- shl_u32 1 (32 - prefix_len) ;;
    Some (not_u32 (u32 (s - 1))).

(** [prefix_to_hostmask_ipv4]. *)
Definition prefix_to_hostmask_ipv4 (prefix_len : Z) : option Z :=
  if prefix_len >=? 32 then Some 0
  else
    s <- shl_u32 1 (32 - prefix_len) ;;
    Some (u32 (s - 1)).

(** [prefix_to_netmask_ipv6]: the 16 bytes written to [netmask]. *)
Definition prefix_to_netmask_ipv6 (prefix_len : Z) : option (list Z) :=
  let netmask := repeat 0 16 in
  let full_bytes := Z.to_nat (prefix_len / 8) in
  let remaining_bits := prefix_len mod 8 in
  let netmask :=
    fold_left (fun m i => upd i 255 m) (seq 0 (Nat.min full_bytes 16)) netmask in
  if (full_bytes <? 16)%nat && (remaining_bits >? 0) then
    s <- shl_int 255 (8 - remaining_bits) ;;
    Some (upd full_bytes (u8 s) netmask)
  else Some netmask.

(** [prefix_to_hostmask_ipv6]: the 16 bytes written to [hostmask]. *)
Definition prefix_to_hostmask_ipv6 (prefix_len : Z) : option (list Z) :=
  let hostmask := repeat 0 16 in
  let full_bytes := Z.to_nat (prefix_len / 8) in
  let remaining_bits := prefix_len mod 8 in
  let fill from m :=
    fold_left (fun m i => upd i 255 m) (seq from (16 - from)) m in
  if (full_bytes <? 16)%nat && (remaining_bits >? 0) then
    s <- shl_int 255 (8 - remaining_bits) ;;
    Some (fill (S full_bytes) (upd full_bytes (not_u8 s) hostmask))
  else Some (fill full_bytes hostmask).

(* ================================================================= *)
(** ** Binary codec *)

(** What [sscanf(from_str.c_str(), "%63[^/]/%d", addr_str, &netmask)]
    assigns; it returns 2 exactly in the last case. *)
Inductive scanned :=
  | Scanned0
  | Scanned1 (addr_str : cstring)
  | Scanned2 (addr_str : cstring) (netmask : Z).

Definition sscanf_addr_netmask (s : cstring) : scanned :=
  match scan_not_slash 63 s with
  | ([], _) => Scanned0
  | (addr_str, r) =>
      match scan_lit "/"%char r with
      | None => Scanned1 addr_str
      | Some r' =>
          match scan_d r' with
          | None => Scanned1 addr_str
          | Some (netmask, _) => Scanned2 addr_str netmask
          end
      end
  end.

(** [strncpy(addr_str, s, 63); addr_str[63] = 0]. *)
Definition strncpy63 (s : cstring) : cstring := firstn 63 s.

(** [encode_cidr]. *)
Definition encode_cidr (pad : Z) (buffer_size : Z) (from : string) : outcome :=
  if buffer_size <? sizeof_IPv4Network then Error
  else
    match sscanf_addr_netmask (from_c_str from) with
    | Scanned2 addr_str netmask =>
        match parse_ipv4_address addr_str with
        | Some address =>
            if (netmask <? 0) || (netmask >? IPV4_MAX_PREFIXLEN) then Invalid
            else
              let net4 := mkIPv4Network address (u8 netmask) AF_INET_VAL ADDR_FLAG_CIDR in
              match validate_cidr_network (v4_address net4) (v4_netmask net4) with
              | None => Undefined
              | Some false => Invalid
              | Some true => Written (bytes_of_IPv4Network net4 pad)
              end
        | None =>
            if buffer_size <? sizeof_IPv6Network then Error
            else
              match parse_ipv6_address addr_str with
              | Some address =>
                  if (netmask <? 0) || (netmask >? IPV6_MAX_PREFIXLEN) then Invalid
                  else
                    let net6 := mkIPv6Network address (u8 netmask) AF_INET6_VAL ADDR_FLAG_CIDR in
                    match validate_cidr_network_ipv6 (v6_address net6) (v6_netmask net6) with
                    | None => Undefined
                    | Some false => Invalid
                    | Some true => Written (bytes_of_IPv6Network net6)
                    end
              | None => Invalid
              end
        end
    | _ => Invalid
    end.

(** [encode_inet]. *)
Definition encode_inet (pad : Z) (buffer_size : Z) (from : string) : outcome :=
  if buffer_size <? sizeof_IPv4Network then Error
  else
    let from_str := from_c_str from in
    let '(addr_str, netmask) :=
      match sscanf_addr_netmask from_str with
      | Scanned2 addr_str netmask => (addr_str, netmask)
      | _ => (strncpy63 from_str, -1)
      end in
    match parse_ipv4_address addr_str with
    | Some address =>
        let netmask := if netmask =? -1 then IPV4_MAX_PREFIXLEN else netmask in
        if (netmask <? 0) || (netmask >? IPV4_MAX_PREFIXLEN) then Invalid
        else
          Written (bytes_of_IPv4Network
                     (mkIPv4Network address (u8 netmask) AF_INET_VAL ADDR_FLAG_INET) pad)
    | None =>
        if buffer_size <? sizeof_IPv6Network then Error
        else
          match parse_ipv6_address addr_str with
          | Some address =>
              let netmask := if netmask =? -1 then IPV6_MAX_PREFIXLEN else netmask in
              if (netmask <? 0) || (netmask >? IPV6_MAX_PREFIXLEN) then Invalid
              else
                Written (bytes_of_IPv6Network
                           (mkIPv6Network address (u8 netmask) AF_INET6_VAL ADDR_FLAG_INET))
          | None => Invalid
          end
    end.

(** The tail shared by the decoders: copy [result] to [to] if it fits. *)
Definition copy_out (result : cstring) (to_size : Z) : option cstring :=
  if strlen result + 1 >? to_size then None else Some result.

Definition slash : cstring := ["/"%char].

(** [decode_cidr]: [Some text] when it returns false. *)
Definition decode_cidr (buffer : list Z) (buffer_size to_size : Z) : option cstring :=
  if buffer_size <? sizeof_IPv4Network then None
  else
    let family := byte_at buffer 5 in
    if (family =? AF_INET_VAL) && (buffer_size >=? sizeof_IPv4Network) then
      let net := IPv4Network_of_bytes buffer in
      let addr_str := format_ipv4_address (v4_address net) 32 in
      let result := snprintf 64 (addr_str ++ slash ++ fmt_u (v4_netmask net)) in
      copy_out result to_size
    else if buffer_size >=? sizeof_IPv6Network then
      let ipv6_family := byte_at buffer 17 in
      if ipv6_family =? AF_INET6_VAL then
        let net := IPv6Network_of_bytes buffer in
        let addr_str := format_ipv6_address (v6_address net) kMaxIPv6String in
        let result :=
          snprintf kMaxIPv6String (addr_str ++ slash ++ fmt_u (v6_netmask net)) in
        copy_out result to_size
      else None
    else None.

(** [decode_inet]: [Some text] when it returns false. *)
Definition decode_inet (buffer : list Z) (buffer_size to_size : Z) : option cstring :=
  if buffer_size <? sizeof_IPv4Network then None
  else
    let family := byte_at buffer 5 in
    if (family =? AF_INET_VAL) && (buffer_size >=? sizeof_IPv4Network) then
      let net := IPv4Network_of_bytes buffer in
      let addr_str := format_ipv4_address (v4_address net) 32 in
      let result :=
        if v4_netmask net =? IPV4_MAX_PREFIXLEN then snprintf 64 addr_str
        else snprintf 64 (addr_str ++ slash ++ fmt_u (v4_netmask net)) in
      copy_out result to_size
    else if buffer_size >=? sizeof_IPv6Network then
      let ipv6_family := byte_at buffer 17 in
      if ipv6_family =? AF_INET6_VAL then
        let net := IPv6Network_of_bytes buffer in
        let addr_str := format_ipv6_address (v6_address net) kMaxIPv6String in
        let result :=
          if v6_netmask net =? IPV6_MAX_PREFIXLEN then snprintf kMaxIPv6String addr_str
          else snprintf kMaxIPv6String (addr_str ++ slash ++ fmt_u (v6_netmask net)) in
        copy_out result to_size
      else None
    else None.

(* ================================================================= *)
(** ** Comparator *)

(** [memcmp(s1, s2, n)]: zero, or the difference of the first pair of bytes
    that differ (only its sign is specified, and only its sign is used). *)
Fixpoint memcmp (s1 s2 : list Z) (n : nat) : Z :=
  match n with
  | O => 0
  | S n' =>
      let a := hd 0 s1 in
      let b := hd 0 s2 in
      if a =? b then memcmp (tl s1) (tl s2) n' else a - b
  end.

(** [cmp_cidr]. *)
Definition cmp_cidr (data1 : list Z) (len1 : Z) (data2 : list Z) (len2 : Z) : Z :=
  if negb (len1 =? len2) then
    if len1 <? len2 then -1 else 1
  else if len1 =? sizeof_IPv4Network then
    let net1 := IPv4Network_of_bytes data1 in
    let net2 := IPv4Network_of_bytes data2 in
    if negb (v4_address net1 =? v4_address net2) then
      if v4_address net1 <? v4_address net2 then -1 else 1
    else if negb (v4_netmask net1 =? v4_netmask net2) then
      if v4_netmask net1 <? v4_netmask net2 then -1 else 1
    else 0
  else if len1 =? sizeof_IPv6Network then
    let net1 := IPv6Network_of_bytes data1 in
    let net2 := IPv6Network_of_bytes data2 in
    let addr_cmp := memcmp (v6_address net1) (v6_address net2) 16 in
    if negb (addr_cmp =? 0) then
      if addr_cmp <? 0 then -1 else 1
    else if negb (v6_netmask net1 =? v6_netmask net2) then
      if v6_netmask net1 <? v6_netmask net2 then -1 else 1
    else 0
  else
    let result := memcmp data1 data2 (Z.to_nat len1) in
    if result =? 0 then 0
    else if result <? 0 then -1 else 1.

(** [cmp_inet]. *)
Definition cmp_inet (data1 : list Z) (len1 : Z) (data2 : list Z) (len2 : Z) : Z :=
  cmp_cidr data1 len1 data2 len2.

(* ================================================================= *)
(** ** Extractors and network arithmetic *)

(** [get_address_family]. *)
Definition get_address_family (buffer : list Z) (buffer_size : Z) : Z :=
  if buffer_size <? sizeof_IPv4Network then 0
  else
    let family := byte_at buffer 5 in
    if family =? AF_INET_VAL then AF_INET_VAL
    else if (buffer_size >=? sizeof_IPv6Network)
            && (byte_at buffer 17 =? AF_INET6_VAL)
    then AF_INET6_VAL
    else 0.

(** [inet_family]. *)
Definition inet_family (buffer : list Z) (buffer_size : Z) : Z :=
  let family := get_address_family buffer buffer_size in
  if family =? AF_INET_VAL then 4
  else if family =? AF_INET6_VAL then 6
  else -1.

(** [inet_masklen]. *)
Definition inet_masklen (buffer : list Z) (buffer_size : Z) : Z :=
  if buffer_size <? sizeof_IPv4Network then -1
  else
    let family := get_address_family buffer buffer_size in
    if family =? AF_INET_VAL then byte_at buffer 4
    else if family =? AF_INET6_VAL then byte_at buffer 16
    else -1.

(** The loops [result.address[i] = net.address[i] & netmask[i]]. *)
Definition and_bytes16 (address netmask : list Z) : list Z :=
  map (fun i => Z.land (byte_at address i) (byte_at netmask i)) (seq 0 16).

(** [inet_network]. *)
Definition inet_network (pad : Z) (buffer : list Z) (buffer_size : Z) : outcome :=
  if buffer_size <? sizeof_IPv4Network then Error
  else
    let family := get_address_family buffer buffer_size in
    if (family =? AF_INET_VAL) && (buffer_size >=? sizeof_IPv4Network) then
      let net := IPv4Network_of_bytes buffer in
      match prefix_to_netmask_ipv4 (v4_netmask net) with
      | None => Undefined
      | Some netmask =>
          let network_addr := Z.land (v4_address net) netmask in
          Written (bytes_of_IPv4Network
                     (mkIPv4Network network_addr (v4_netmask net) AF_INET_VAL ADDR_FLAG_CIDR) pad)
      end
    else if (family =? AF_INET6_VAL) && (buffer_size >=? sizeof_IPv6Network) then
      let net := IPv6Network_of_bytes buffer in
      match prefix_to_netmask_ipv6 (v6_netmask net) with
      | None => Undefined
      | Some netmask =>
          Written (bytes_of_IPv6Network
                     (mkIPv6Network (and_bytes16 (v6_address net) netmask)
                                    (v6_netmask net) AF_INET6_VAL ADDR_FLAG_CIDR))
      end
    else Error.

(** [cidr_set_masklen]. *)
Definition cidr_set_masklen (pad : Z) (buffer : list Z) (buffer_size new_masklen : Z) : outcome :=
  if buffer_size <? sizeof_IPv4Network then Error
  else
    let family := get_address_family buffer buffer_size in
    if (family =? AF_INET_VAL) && (buffer_size >=? sizeof_IPv4Network) then
      if (new_masklen <? 0) || (new_masklen >? 32) then Error
      else
        let net := IPv4Network_of_bytes buffer in
        match prefix_to_netmask_ipv4 (u8 new_masklen) with
        | None => Undefined
        | Some netmask =>
            let network_addr := Z.land (v4_address net) netmask in
            Written (bytes_of_IPv4Network
                       (mkIPv4Network network_addr (u8 new_masklen) AF_INET_VAL ADDR_FLAG_CIDR) pad)
        end
    else if (family =? AF_INET6_VAL) && (buffer_size >=? sizeof_IPv6Network) then
      if (new_masklen <? 0) || (new_masklen >? 128) then Error
      else
        let net := IPv6Network_of_bytes buffer in
        match prefix_to_netmask_ipv6 (u8 new_masklen) with
        | None => Undefined
        | Some netmask =>
            Written (bytes_of_IPv6Network
                       (mkIPv6Network (and_bytes16 (v6_address net) netmask)
                                      (u8 new_masklen) AF_INET6_VAL ADDR_FLAG_CIDR))
        end
    else Error.

(* ================================================================= *)
(** ** Text extractors and the remaining network arithmetic *)

(** [inet_host]: [Some text] when it returns false. *)
Definition inet_host (buffer : list Z) (buffer_size result_size : Z) : option cstring :=
  if buffer_size <? sizeof_IPv4Network then None
  else
    let family := get_address_family buffer buffer_size in
    if family =? AF_INET_VAL then
      let net := IPv4Network_of_bytes buffer in
      let addr_str := format_ipv4_address (v4_address net) kMaxIPv4String in
      copy_out addr_str result_size
    else if (family =? AF_INET6_VAL) && (buffer_size >=? sizeof_IPv6Network) then
      let net := IPv6Network_of_bytes buffer in
      let addr_str := format_ipv6_address (v6_address net) kMaxIPv6String in
      copy_out addr_str result_size
    else None.

(** [inet_text]: [Some text] when it returns false. *)
Definition inet_text (buffer : list Z) (buffer_size result_size : Z) : option cstring :=
  if buffer_size <? sizeof_IPv4Network then None
  else
    let family := get_address_family buffer buffer_size in
    if family =? AF_INET_VAL then
      let net := IPv4Network_of_bytes buffer in
      let addr_str := format_ipv4_address (v4_address net) kMaxIPv4String in
      let result_str :=
        snprintf kMaxIPv4String (addr_str ++ slash ++ fmt_u (v4_netmask net)) in
      copy_out result_str result_size
    else if (family =? AF_INET6_VAL) && (buffer_size >=? sizeof_IPv6Network) then
      let net := IPv6Network_of_bytes buffer in
      let addr_str := format_ipv6_address (v6_address net) kMaxIPv6String in
      let result_str :=
        snprintf kMaxIPv6String (addr_str ++ slash ++ fmt_u (v6_netmask net)) in
      copy_out result_str result_size
    else None.

(** [inet_netmask]. *)
Definition inet_netmask (pad : Z) (buffer : list Z) (buffer_size : Z) : outcome :=
  if buffer_size <? sizeof_IPv4Network then Error
  else
    let family := get_address_family buffer buffer_size in
    if (family =? AF_INET_VAL) && (buffer_size >=? sizeof_IPv4Network) then
      let net := IPv4Network_of_bytes buffer in
      match prefix_to_netmask_ipv4 (v4_netmask net) with
      | None => Undefined
      | Some netmask_addr =>
          Written (bytes_of_IPv4Network
                     (mkIPv4Network netmask_addr 32 AF_INET_VAL ADDR_FLAG_INET) pad)
      end
    else if (family =? AF_INET6_VAL) && (buffer_size >=? sizeof_IPv6Network) then
      let net := IPv6Network_of_bytes buffer in
      match prefix_to_netmask_ipv6 (v6_netmask net) with
      | None => Undefined
      | Some address =>
          Written (bytes_of_IPv6Network
                     (mkIPv6Network address 128 AF_INET6_VAL ADDR_FLAG_INET))
      end
    else Error.

(** [inet_hostmask]. *)
Definition inet_hostmask (pad : Z) (buffer : list Z) (buffer_size : Z) : outcome :=
  if buffer_size <? sizeof_IPv4Network then Error
  else
    let family := get_address_family buffer buffer_size in
    if (family =? AF_INET_VAL) && (buffer_size >=? sizeof_IPv4Network) then
      let net := IPv4Network_of_bytes buffer in
      match prefix_to_hostmask_ipv4 (v4_netmask net) with
      | None => Undefined
      | Some hostmask_addr =>
          Written (bytes_of_IPv4Network
                     (mkIPv4Network hostmask_addr 32 AF_INET_VAL ADDR_FLAG_INET) pad)
      end
    else if (family =? AF_INET6_VAL) && (buffer_size >=? sizeof_IPv6Network) then
      let net := IPv6Network_of_bytes buffer in
      match prefix_to_hostmask_ipv6 (v6_netmask net) with
      | None => Undefined
      | Some address =>
          Written (bytes_of_IPv6Network
                     (mkIPv6Network address 128 AF_INET6_VAL ADDR_FLAG_INET))
      end
    else Error.

(** The loop [result.address[i] = net.address[i] | hostmask[i]]. *)
Definition or_bytes16 (address hostmask : list Z) : list Z :=
  map (fun i => Z.lor (byte_at address i) (byte_at hostmask i)) (seq 0 16).

(** [inet_broadcast]. *)
Definition inet_broadcast (pad : Z) (buffer : list Z) (buffer_size : Z) : outcome :=
  if buffer_size <? sizeof_IPv4Network then Error
  else
    let family := get_address_family buffer buffer_size in
    if (family =? AF_INET_VAL) && (buffer_size >=? sizeof_IPv4Network) then
      let net := IPv4Network_of_bytes buffer in
      match prefix_to_hostmask_ipv4 (v4_netmask net) with
      | None => Undefined
      | Some hostmask =>
          let broadcast_addr := Z.lor (v4_address net) hostmask in
          Written (bytes_of_IPv4Network
                     (mkIPv4Network broadcast_addr (v4_netmask net)
                                    AF_INET_VAL ADDR_FLAG_INET) pad)
      end
    else if (family =? AF_INET6_VAL) && (buffer_size >=? sizeof_IPv6Network) then
      let net := IPv6Network_of_bytes buffer in
      match prefix_to_hostmask_ipv6 (v6_netmask net) with
      | None => Undefined
      | Some hostmask =>
          Written (bytes_of_IPv6Network
                     (mkIPv6Network (or_bytes16 (v6_address net) hostmask)
                                    (v6_netmask net) AF_INET6_VAL ADDR_FLAG_INET))
      end
    else Error.

(** [inet_set_masklen]. *)
Definition inet_set_masklen (pad : Z) (buffer : list Z) (buffer_size new_masklen : Z) : outcome :=
  if buffer_size <? sizeof_IPv4Network then Error
  else
    let family := get_address_family buffer buffer_size in
    if (family =? AF_INET_VAL) && (buffer_size >=? sizeof_IPv4Network) then
      if (new_masklen <? 0) || (new_masklen >? 32) then Error
      else
        let net := IPv4Network_of_bytes buffer in
        Written (bytes_of_IPv4Network
                   (mkIPv4Network (v4_address net) (u8 new_masklen)
                                  AF_INET_VAL ADDR_FLAG_INET) pad)
    else if (family =? AF_INET6_VAL) && (buffer_size >=? sizeof_IPv6Network) then
      if (new_masklen <? 0) || (new_masklen >? 128) then Error
      else
        let net := IPv6Network_of_bytes buffer in
        Written (bytes_of_IPv6Network
                   (mkIPv6Network (v6_address net) (u8 new_masklen)
                                  AF_INET6_VAL ADDR_FLAG_INET))
    else Error.

(** [inet_abbrev]: [Some text] when it returns false. *)
Definition inet_abbrev (buffer : list Z) (buffer_size result_size : Z) : option cstring :=
  if buffer_size <? sizeof_IPv4Network then None
  else
    let family := get_address_family buffer buffer_size in
    if (family =? AF_INET_VAL) && (buffer_size >=? sizeof_IPv4Network) then
      let net := IPv4Network_of_bytes buffer in
      let addr_str := format_ipv4_address (v4_address net) kMaxIPv4String in
      if v4_netmask net =? 32 then copy_out addr_str result_size
      else
        copy_out (snprintf kMaxIPv4String (addr_str ++ slash ++ fmt_u (v4_netmask net)))
                 result_size
    else if (family =? AF_INET6_VAL) && (buffer_size >=? sizeof_IPv6Network) then
      let net := IPv6Network_of_bytes buffer in
      let addr_str := format_ipv6_address (v6_address net) kMaxIPv6String in
      if v6_netmask net =? 128 then copy_out addr_str result_size
      else
        copy_out (snprintf kMaxIPv6String (addr_str ++ slash ++ fmt_u (v6_netmask net)))
                 result_size
    else None.

Definition dot : cstring := ["."%char].

(** [cidr_abbrev]: [Some text] when it returns false. *)
Definition cidr_abbrev (buffer : list Z) (buffer_size result_size : Z) : option cstring :=
  if buffer_size <? sizeof_IPv4Network then None
  else
    let family := get_address_family buffer buffer_size in
    if (family =? AF_INET_VAL) && (buffer_size >=? sizeof_IPv4Network) then
      let net := IPv4Network_of_bytes buffer in
      let significant_octets := (v4_netmask net + 7) / 8 in
      let significant_octets :=
        if significant_octets =? 0 then 1 else significant_octets in
      let o0 := Z.land (Z.shiftr (v4_address net) 24) 255 in
      let o1 := Z.land (Z.shiftr (v4_address net) 16) 255 in
      let o2 := Z.land (Z.shiftr (v4_address net) 8) 255 in
      let o3 := Z.land (v4_address net) 255 in
      let addr_str :=
        if significant_octets =? 1 then snprintf kMaxIPv4String (fmt_u o0)
        else if significant_octets =? 2 then
          snprintf kMaxIPv4String (fmt_u o0 ++ dot ++ fmt_u o1)
        else if significant_octets =? 3 then
          snprintf kMaxIPv4String (fmt_u o0 ++ dot ++ fmt_u o1 ++ dot ++ fmt_u o2)
        else
          snprintf kMaxIPv4String
            (fmt_u o0 ++ dot ++ fmt_u o1 ++ dot ++ fmt_u o2 ++ dot ++ fmt_u o3) in
      copy_out (snprintf kMaxIPv4String (addr_str ++ slash ++ fmt_u (v4_netmask net)))
               result_size
    else if (family =? AF_INET6_VAL) && (buffer_size >=? sizeof_IPv6Network) then
      let net := IPv6Network_of_bytes buffer in
      let addr_str := format_ipv6_address (v6_address net) kMaxIPv6String in
      copy_out (snprintf kMaxIPv6String (addr_str ++ slash ++ fmt_u (v6_netmask net)))
               result_size
    else None.

(* ================================================================= *)
(** ** Hardware addresses *)

Definition kMaxMacAddrString : Z := 17.
Definition kMaxMacAddr8String : Z := 23.
Definition sizeof_MacAddr : Z := 6.
Definition sizeof_MacAddr8 : Z := 8.

(** [std::isxdigit]. *)
Definition isxdigit (c : ascii) : bool :=
  match xdigit_val c with Some _ => true | None => false end.

(** [std::tolower] in the C locale. *)
Definition tolower (c : ascii) : ascii :=
  let n := code c in
  if (65 <=? n) && (n <=? 90) then ascii_of_N (Z.to_N (n + 32)) else c.

Definition is_mac_separator (c : ascii) : bool :=
  Ascii.eqb c ":"%char || Ascii.eqb c "-"%char || Ascii.eqb c "."%char.

(** The cleaning loop of [parse_mac_address]: the hex digits of [mac_str] in
    lower case, appended to [cleaned]; [None] is [return false]. *)
Fixpoint clean_mac (mac_str cleaned : cstring) : option cstring :=
  match mac_str with
  | [] => Some cleaned
  | ch :: r =>
      if isxdigit ch then clean_mac r (cleaned ++ [tolower ch])
      else if is_mac_separator ch then clean_mac r cleaned
      else None
  end.

(** [cleaned.substr(pos, 2)]. *)
Definition substr2 (s : cstring) (pos : nat) : cstring := firstn 2 (skipn pos s).

(** [sscanf(s, "%02x", &value)] on the text the source passes, two hex
    digits: the value assigned, [None] when the call does not return 1. *)
Definition sscanf_02x (s : cstring) : option Z :=
  match strtoul (firstn 2 (skip_space s)) 16 with
  | Some (v, _) => Some (u32 v)
  | None => None
  end.

(** The conversion loop of [parse_mac_address] over the byte indices [idx]. *)
Fixpoint mac_bytes (cleaned : cstring) (idx : list nat) : option (list Z) :=
  match idx with
  | [] => Some []
  | i :: r =>
      value <- sscanf_02x (substr2 cleaned (i * 2)) ;;
      rest <- mac_bytes cleaned r ;;
      Some (Z.land value 255 :: rest)
  end.

(** [parse_mac_address]: [Some address] when it returns true. *)
Definition parse_mac_address (mac_str : cstring) (expected_bytes : nat) : option (list Z) :=
  cleaned <- clean_mac mac_str [] ;;
  if negb (List.length cleaned =? expected_bytes * 2)%nat then None
  else mac_bytes cleaned (seq 0 expected_bytes).

Definition colon : cstring := [":"%char].

(** [format_mac_address]; for a byte count other than 6 and 8 nothing is
    written. *)
Definition format_mac_address (address : list Z) (buffer_size : Z) (bytes : Z) : cstring :=
  let x i := fmt_02x (byte_at address i) in
  if bytes =? 6 then
    snprintf buffer_size
      (x 0%nat ++ colon ++ x 1%nat ++ colon ++ x 2%nat ++ colon ++
       x 3%nat ++ colon ++ x 4%nat ++ colon ++ x 5%nat)
  else if bytes =? 8 then
    snprintf buffer_size
      (x 0%nat ++ colon ++ x 1%nat ++ colon ++ x 2%nat ++ colon ++
       x 3%nat ++ colon ++ x 4%nat ++ colon ++ x 5%nat ++ colon ++
       x 6%nat ++ colon ++ x 7%nat)
  else [].

(** [encode_macaddr]. *)
Definition encode_macaddr (buffer_size : Z) (from : string) : outcome :=
  if buffer_size <? sizeof_MacAddr then Error
  else
    match parse_mac_address (from_c_str from) 6 with
    | None => Invalid
    | Some mac => Written mac
    end.

(** [decode_macaddr]: [Some text] when it returns false. *)
Definition decode_macaddr (buffer : list Z) (buffer_size to_size : Z) : option cstring :=
  if buffer_size <? sizeof_MacAddr then None
  else
    let mac := firstn 6 buffer in
    let result := format_mac_address mac (kMaxMacAddrString + 1) 6 in
    copy_out result to_size.

(** [encode_macaddr8]. *)
Definition encode_macaddr8 (buffer_size : Z) (from : string) : outcome :=
  if buffer_size <? sizeof_MacAddr8 then Error
  else
    match parse_mac_address (from_c_str from) 8 with
    | None => Invalid
    | Some mac8 => Written mac8
    end.

(** [decode_macaddr8]: [Some text] when it returns false. *)
Definition decode_macaddr8 (buffer : list Z) (buffer_size to_size : Z) : option cstring :=
  if buffer_size <? sizeof_MacAddr8 then None
  else
    let mac8 := firstn 8 buffer in
    let result := format_mac_address mac8 (kMaxMacAddr8String + 1) 8 in
    copy_out result to_size.

(** [cmp_macaddr]; the source asserts [len1 == 6] and [len1 == len2]. *)
Definition cmp_macaddr (data1 : list Z) (len1 : Z) (data2 : list Z) (len2 : Z) : Z :=
  let result := memcmp (firstn 6 data1) (firstn 6 data2) 6 in
  if result =? 0 then 0 else if result <? 0 then -1 else 1.

(** [cmp_macaddr8]; the source asserts [len1 == 8] and [len1 == len2]. *)
Definition cmp_macaddr8 (data1 : list Z) (len1 : Z) (data2 : list Z) (len2 : Z) : Z :=
  let result := memcmp (firstn 8 data1) (firstn 8 data2) 8 in
  if result =? 0 then 0 else if result <? 0 then -1 else 1.

(** [macaddr_trunc]. *)
Definition macaddr_trunc (buffer : list Z) (buffer_size : Z) : outcome :=
  if buffer_size <? sizeof_MacAddr then Error
  else
    let mac := firstn 6 buffer in
    Written (upd 5 0 (upd 4 0 (upd 3 0 mac))).

(* ================================================================= *)
(** ** Vocabulary of the statements *)

(** A string literal as a C string. *)
Definition lit (s : string) : cstring := list_ascii_of_string s.

(** The length that travels with a record. *)
Definition size (r : list Z) : Z := Z.of_nat (List.length r).

Definition is_byte (b : Z) : bool := (0 <=? b) && (b <? 256).

(** A well-formed IPv4 record: 8 bytes (the last one the padding, any byte),
    family tag 2, prefix length at most 32. *)
Definition well_formed_ipv4 (r : list Z) : bool :=
  (size r =? sizeof_IPv4Network) && forallb is_byte r
  && (byte_at r 5 =? AF_INET_VAL) && (byte_at r 4 <=? IPV4_MAX_PREFIXLEN).

(** A well-formed IPv6 record: 19 bytes, family tag 10, prefix length at most 128. *)
Definition well_formed_ipv6 (r : list Z) : bool :=
  (size r =? sizeof_IPv6Network) && forallb is_byte r
  && (byte_at r 17 =? AF_INET6_VAL) && (byte_at r 16 <=? IPV6_MAX_PREFIXLEN).

Definition well_formed (r : list Z) : bool :=
  well_formed_ipv4 r || well_formed_ipv6 r.

(** The host bits of an IPv4 address under a prefix length: the bits beyond
    the first [prefix_len]. *)
Definition host_bits_ipv4 (address prefix_len : Z) : Z :=
  address mod 2 ^ (32 - prefix_len).

(** The number of host bits in byte [i] of a 16-byte address. *)
Definition host_bit_count (i : nat) (prefix_len : Z) : Z :=
  Z.min 8 (Z.max 0 (8 * (Z.of_nat i + 1) - prefix_len)).

(** The host bits of a 16-byte address, byte by byte: of byte [i], the low
    bits that lie beyond the first [prefix_len] bits of the address. *)
Definition host_bits_ipv6 (address : list Z) (prefix_len : Z) : list Z :=
  map (fun i => byte_at address i mod 2 ^ host_bit_count i prefix_len)
      (seq 0 16).

(** Lexicographic comparison of two keys: -1, 0 or 1. *)
Fixpoint lex_cmp (k1 k2 : list Z) : Z :=
  match k1, k2 with
  | x :: r1, y :: r2 =>
      if x <? y then -1 else if y <? x then 1 else lex_cmp r1 r2
  | [], [] => 0
  | [], _ :: _ => -1
  | _ :: _, [] => 1
  end.

(** The octets of an IPv4 address, most significant first. *)
Definition octets (address : Z) : list Z :=
  [Z.land (Z.shiftr address 24) 255; Z.land (Z.shiftr address 16) 255;
   Z.land (Z.shiftr address 8) 255; Z.land address 255].

(** The sort key of a record: its width, then its address bytes most
    significant first, then its prefix length. *)
Definition sort_key (r : list Z) : list Z :=
  if size r =? sizeof_IPv4Network then
    let net := IPv4Network_of_bytes r in
    size r :: octets (v4_address net) ++ [v4_netmask net]
  else
    let net := IPv6Network_of_bytes r in
    size r :: v6_address net ++ [v6_netmask net].

(** The bytes of a record that carry its fields: all 19 of an IPv6 record,
    the first 7 of an IPv4 record, whose eighth byte is padding. *)
Definition fields (r : list Z) : list Z :=
  if size r =? sizeof_IPv4Network then firstn 7 r else r.

(** The record [encode_inet] builds for "2001:db8:2::1". *)
Definition record_2001_db8_2__1 : list Z :=
  [32; 1; 13; 184; 0; 2; 0; 0; 0; 0; 0; 0; 0; 0; 0; 1; 128; 10; 2].

(** The variant tag of a record: its [flags] byte. *)
Definition flags_of (r : list Z) : Z :=
  if size r =? sizeof_IPv4Network then v4_flags (IPv4Network_of_bytes r)
  else v6_flags (IPv6Network_of_bytes r).

(** The hex digits of a text, in order. *)
Definition hex_digits (s : cstring) : cstring := filter isxdigit s.

(** Whether every character of a text is a hex digit or one of the
    separators ':', '-' and '.'. *)
Definition mac_chars_ok (s : cstring) : bool :=
  forallb (fun c => isxdigit c || is_mac_separator c) s.

(** The value of a hex digit, 0 for another character. *)
Definition hexval (c : ascii) : Z :=
  match xdigit_val c with Some v => v | None => 0 end.

(** The bytes that consecutive pairs of hex digits spell, the more
    significant digit first. *)
Fixpoint pair_values (ds : cstring) : list Z :=
  match ds with
  | c :: d :: r => (16 * hexval c + hexval d) :: pair_values r
  | _ => []
  end.

(** A hex digit in lower case. *)
Definition is_lower_hex (c : ascii) : bool :=
  isxdigit c && Ascii.eqb (tolower c) c.

(** The text of a hardware address: the bytes as two hex digits each,
    separated by colons. *)
Fixpoint mac_text (bytes : list Z) : cstring :=
  match bytes with
  | [] => []
  | [b] => fmt_02x b
  | b :: r => fmt_02x b ++ colon ++ mac_text r
  end.

(** The dotted text of an IPv4 address, most significant octet first. *)
Definition ipv4_text (address : Z) : cstring :=
  fmt_u (Z.land (Z.shiftr address 24) 255) ++ dot ++
  fmt_u (Z.land (Z.shiftr address 16) 255) ++ dot ++
  fmt_u (Z.land (Z.shiftr address 8) 255) ++ dot ++
  fmt_u (Z.land address 255).

(** Texts joined by dots. *)
Fixpoint join_dots (l : list cstring) : cstring :=
  match l with
  | [] => []
  | [x] => x
  | x :: r => x ++ dot ++ join_dots r
  end.

(** The number of octets a prefix length covers: its eighth rounded up, and
    one for the prefix length 0. *)
Definition shown_octets (p : Z) : nat := Z.to_nat (Z.max 1 ((p + 7) / 8)).

(** A decimal digit. *)
Definition is_digit (c : ascii) : bool :=
  match digit_val c with Some _ => true | None => false end.

(** The number a run of decimal digits spells, from [acc]. *)
Definition dec_value (ds : cstring) (acc : Z) : Z :=
  fold_left (fun a c => a * 10 + match digit_val c with Some d => d | None => 0 end)
            ds acc.

(** The four hex digits of group [i] of a 16-byte address. *)
Definition ipv6_group (address : list Z) (i : nat) : cstring :=
  fmt_02x (byte_at address (2 * i)) ++ fmt_02x (byte_at address (2 * i + 1)).

(** Groups of characters joined by colons. *)
Fixpoint join_groups (gs : list cstring) : cstring :=
  match gs with
  | [] => []
  | [g] => g
  | g :: r => g ++ colon ++ join_groups r
  end.

(** The full text of an IPv6 address: eight groups of four hex digits. *)
Definition ipv6_text (address : list Z) : cstring :=
  join_groups (map (ipv6_group address) (seq 0 8)).

(** Whether a text has a '.'. *)
Definition has_dot (s : cstring) : bool :=
  existsb (fun c => Ascii.eqb c "."%char) s.

(** Whether a text has a ':'. *)
Definition has_colon (s : cstring) : bool :=
  existsb (fun c => Ascii.eqb c ":"%char) s.

(** The two comparators under one name. *)
Inductive comparator := CmpCidr | CmpInet.

Definition compare_records (f : comparator) (a b : list Z) : Z :=
  match f with
  | CmpCidr => cmp_cidr a (size a) b (size b)
  | CmpInet => cmp_inet a (size a) b (size b)
  end.

(** Whether a C string has a '/'. *)
Definition has_slash (s : cstring) : bool :=
  existsb (fun c => Ascii.eqb c "/"%char) s.

(** A group of an IPv6 text with its value: characters other than ':',
    '.', '/' and NUL that [strtoul] reads in base 16 as [v], at most 0xFFFF. *)
Definition hex_group (g : cstring) (v : Z) : Prop :=
  g <> [] /\ 0 <= v <= 65535
  /\ has_colon g = false /\ has_dot g = false /\ has_slash g = false
  /\ forallb (fun c => negb (Ascii.eqb c NUL)) g = true
  /\ forall rest, starts_with_digit 16 rest = false ->
                  strtoul (g ++ rest) 16 = Some (v, rest).

(** Netmask and hostmask complement each other on 32 bits. *)
Definition complement32 (n h : option Z) : bool :=
  match n, h with
  | Some n, Some h => (Z.lor n h =? 4294967295) && (Z.land n h =? 0)
  | _, _ => false
  end.

(** Netmask and hostmask complement each other on 16 bytes. *)
Definition complement128 (n h : option (list Z)) : bool :=
  match n, h with
  | Some n, Some h =>
      (List.length n =? 16)%nat && (List.length h =? 16)%nat &&
      forallb (fun i => (Z.lor (byte_at n i) (byte_at h i) =? 255)
                        && (Z.land (byte_at n i) (byte_at h i) =? 0))
              (seq 0 16)
  | _, _ => false
  end.

(* ================================================================= *)
(** ** Mask arithmetic: complement *)

Lemma Z_range_in (lo n : nat) (p : Z) :
  Z.of_nat lo <= p < Z.of_nat (lo + n) -> In p (map Z.of_nat (seq lo n)).
Proof.
  intros H. apply in_map_iff. exists (Z.to_nat p). split.
  - lia.
  - apply in_seq. lia.
Qed.

(** For prefix lengths 1 to 32 the IPv4 masks are defined and complement
    each other. *)
Lemma mask_complement_ipv4 (p : Z) :
  1 <= p <= 32 ->
  complement32 (prefix_to_netmask_ipv4 p) (prefix_to_hostmask_ipv4 p) = true.
Proof.
  intros H.
  assert (A : forallb (fun q => complement32 (prefix_to_netmask_ipv4 q)
                                             (prefix_to_hostmask_ipv4 q))
                      (map Z.of_nat (seq 1 32)) = true) by (vm_compute; reflexivity).
  rewrite forallb_forall in A. apply A. apply Z_range_in. lia.
Qed.

(** Every prefix length a [uint8_t] holds gives IPv6 masks that are defined
    and complement each other byte by byte. *)
Lemma mask_complement_ipv6 (p : Z) :
  0 <= p <= 255 ->
  complement128 (prefix_to_netmask_ipv6 p) (prefix_to_hostmask_ipv6 p) = true.
Proof.
  intros H.
  assert (A : forallb (fun q => complement128 (prefix_to_netmask_ipv6 q)
                                              (prefix_to_hostmask_ipv6 q))
                      (map Z.of_nat (seq 0 256)) = true) by (vm_compute; reflexivity).
  rewrite forallb_forall in A. apply A. apply Z_range_in. lia.
Qed.


(** C3 (defect). With prefix length 0 the IPv4 hostmask shifts [1u] by 32,
    the full width of its operand: the shift amount overflows and the call
    has no defined result, where the claim wants all-ones. The netmask, which
    guards the case, returns zero there. *)
Theorem hostmask_ipv4_prefix0_shift_overflow :
  shl_u32 1 (32 - 0) = None
  /\ prefix_to_hostmask_ipv4 0 = None
  /\ prefix_to_netmask_ipv4 0 = Some 0
  /\ complement32 (prefix_to_netmask_ipv4 0) (prefix_to_hostmask_ipv4 0) = false.
Proof. repeat split. Qed.

(* ================================================================= *)
(** ** Family detection and decoding *)

Lemma well_formed_ipv4_inv (r : list Z) :
  well_formed_ipv4 r = true ->
  size r = 8 /\ byte_at r 5 = 2 /\ 0 <= byte_at r 4 <= 32.
Proof.
  unfold well_formed_ipv4, sizeof_IPv4Network, AF_INET_VAL, IPV4_MAX_PREFIXLEN.
  intros H. repeat (apply andb_prop in H; destruct H as [H ?]).
  assert (is_byte (byte_at r 4) = true).
  { rewrite forallb_forall in H2. apply H2. apply nth_In.
    unfold size in H. lia. }
  unfold is_byte in *. lia.
Qed.

Lemma well_formed_ipv6_inv (r : list Z) :
  well_formed_ipv6 r = true ->
  size r = 19 /\ byte_at r 17 = 10 /\ 0 <= byte_at r 16 <= 128.
Proof.
  unfold well_formed_ipv6, sizeof_IPv6Network, AF_INET6_VAL, IPV6_MAX_PREFIXLEN.
  intros H. repeat (apply andb_prop in H; destruct H as [H ?]).
  assert (is_byte (byte_at r 16) = true).
  { rewrite forallb_forall in H2. apply H2. apply nth_In.
    unfold size in H. lia. }
  unfold is_byte in *. lia.
Qed.

(** Every well-formed IPv4 record is seen as IPv4. *)
Lemma get_address_family_ipv4_record (r : list Z) :
  well_formed_ipv4 r = true -> get_address_family r (size r) = AF_INET_VAL.
Proof.
  intros H. apply well_formed_ipv4_inv in H. destruct H as (Hs & Hf & _).
  unfold get_address_family, sizeof_IPv4Network, AF_INET_VAL.
  rewrite Hs, Hf. reflexivity.
Qed.

(** A well-formed IPv6 record is seen as IPv6 exactly when the sixth byte of
    its address is not 2: the family is read from the tag at offset 5 first,
    and in a 19-byte record offset 5 is an address byte. *)
Lemma get_address_family_ipv6_record (r : list Z) :
  well_formed_ipv6 r = true ->
  get_address_family r (size r) =
    if byte_at r 5 =? 2 then AF_INET_VAL else AF_INET6_VAL.
Proof.
  intros H. apply well_formed_ipv6_inv in H. destruct H as (Hs & Hf & _).
  unfold get_address_family, sizeof_IPv4Network, sizeof_IPv6Network,
    AF_INET_VAL, AF_INET6_VAL.
  rewrite Hs, Hf. simpl. reflexivity.
Qed.

(** C1 (defect). The well-formed 19-byte record of "2001:db8:2::1" has the
    value 2 at offset 5 of its address, so the family extractor and both
    decoders take it for an IPv4 record and render "184.13.1.32/0": the
    family is read from the byte at offset 5, not from the byte-length. *)
Theorem ipv6_record_decoded_as_ipv4 (pad : Z) :
  encode_inet pad 19 "2001:db8:2::1" = Written record_2001_db8_2__1
  /\ well_formed_ipv6 record_2001_db8_2__1 = true
  /\ size record_2001_db8_2__1 = sizeof_IPv6Network
  /\ get_address_family record_2001_db8_2__1 19 = AF_INET_VAL
  /\ inet_family record_2001_db8_2__1 19 = 4
  /\ decode_inet record_2001_db8_2__1 19 64 = Some (lit "184.13.1.32/0")
  /\ decode_cidr record_2001_db8_2__1 19 64 = Some (lit "184.13.1.32/0").
Proof. repeat split; vm_compute; reflexivity. Qed.

(* ================================================================= *)
(** ** Parsers on concrete text *)

(** C7 (defect). The IPv4 parser accepts text after the fourth group and a
    fifth group: [sscanf] stops after four conversions and the rest of the
    string is never looked at. *)
Theorem parse_ipv4_accepts_trailing_text (pad : Z) :
  parse_ipv4_address (lit "1.2.3.4x") = Some 16909060
  /\ parse_ipv4_address (lit "1.2.3.4.5") = Some 16909060
  /\ parse_ipv4_address (lit "1.2.3.4") = Some 16909060
  /\ encode_inet pad 19 "1.2.3.4x" = Written [4; 3; 2; 1; 32; 2; 2; pad].
Proof. repeat split; vm_compute; reflexivity. Qed.

(** What the IPv4 parser does reject: a missing group, a group above 255, a
    character that is no digit inside the four groups. *)
Example parse_ipv4_rejects :
  parse_ipv4_address (lit "1.2.3") = None
  /\ parse_ipv4_address (lit "1.2.3.256") = None
  /\ parse_ipv4_address (lit "1.2.x.4") = None
  /\ parse_ipv4_address (lit "") = None.
Proof. repeat split; vm_compute; reflexivity. Qed.

(** C8 (defect). Without "::" the IPv6 parser accepts nine groups, and
    anything at all after the eighth: the loop stops at eight parts and the
    rest of the string is never looked at. It also accepts a group of five hex
    digits, since a group is checked by value only. *)
Theorem parse_ipv6_accepts_nine_groups :
  parse_ipv6_address (lit "1:2:3:4:5:6:7:8:9")
    = Some [0; 1; 0; 2; 0; 3; 0; 4; 0; 5; 0; 6; 0; 7; 0; 8]
  /\ parse_ipv6_address (lit "1:2:3:4:5:6:7:8:zz")
    = Some [0; 1; 0; 2; 0; 3; 0; 4; 0; 5; 0; 6; 0; 7; 0; 8]
  /\ parse_ipv6_address (lit "1:2:3:4:5:6:7:8")
    = Some [0; 1; 0; 2; 0; 3; 0; 4; 0; 5; 0; 6; 0; 7; 0; 8]
  /\ parse_ipv6_address (lit "::00001")
    = Some [0; 0; 0; 0; 0; 0; 0; 0; 0; 0; 0; 0; 0; 0; 0; 1].
Proof. repeat split; vm_compute; reflexivity. Qed.

(** What the IPv6 parser does reject: seven groups without "::", eight
    groups with "::", a second "::", a group above 0xFFFF, a group that does not
    start with a hex digit. *)
Example parse_ipv6_rejects :
  parse_ipv6_address (lit "1:2:3:4:5:6:7") = None
  /\ parse_ipv6_address (lit "1:2:3:4::5:6:7:8") = None
  /\ parse_ipv6_address (lit "1::2::3") = None
  /\ parse_ipv6_address (lit "::10000") = None
  /\ parse_ipv6_address (lit "::g") = None
  /\ parse_ipv6_address (lit "") = None.
Proof. repeat split; vm_compute; reflexivity. Qed.

(* ================================================================= *)
(** ** Encoding and decoding on concrete text *)

(** C9 (defect). Permissive encoding of "192.168.1.5/24" succeeds, the
    record holds the address 192.168.1.5 and the prefix length 24, and
    [decode_inet] renders it as "192.168.1.5/24"; but the record is not the
    7 bytes the claim and the comment of [struct IPv4Network] name. It has the
    8 bytes of [sizeof(IPv4Network)], the eighth being the padding byte of the
    local, which nothing initialises. A buffer of 7 bytes is refused by the
    encoder, and the first 7 bytes passed with the length 7 are refused by the
    decoder. *)
Theorem encode_inet_192_168_1_5_24 (pad buffer_size to_size : Z) :
  sizeof_IPv4Network <= buffer_size ->
  15 <= to_size ->
  exists r,
    encode_inet pad buffer_size "192.168.1.5/24" = Written r
    /\ r = [5; 1; 168; 192; 24; 2; 2; pad]
    /\ size r = 8 /\ size r <> 7
    /\ octets (v4_address (IPv4Network_of_bytes r)) = [192; 168; 1; 5]
    /\ v4_netmask (IPv4Network_of_bytes r) = 24
    /\ v4_flags (IPv4Network_of_bytes r) = ADDR_FLAG_INET
    /\ decode_inet r (size r) to_size = Some (lit "192.168.1.5/24")
    /\ encode_inet pad 7 "192.168.1.5/24" = Error
    /\ decode_inet (firstn 7 r) 7 to_size = None.
Proof.
  intros Hb Ht. exists [5; 1; 168; 192; 24; 2; 2; pad].
  unfold sizeof_IPv4Network in Hb.
  split.
  - unfold encode_inet, sizeof_IPv4Network.
    assert ((buffer_size <? 8) = false) as -> by lia.
    vm_compute. reflexivity.
  - repeat split; try discriminate.
    change (copy_out (lit "192.168.1.5/24") to_size = Some (lit "192.168.1.5/24")).
    change ((if 15 >? to_size then None else Some (lit "192.168.1.5/24"))
            = Some (lit "192.168.1.5/24")).
    assert ((15 >? to_size) = false) as -> by lia. reflexivity.
Qed.

Lemma encode_inet_192_168_1_5_24_witness :
  exists r,
    encode_inet 0 19 "192.168.1.5/24" = Written r
    /\ r = [5; 1; 168; 192; 24; 2; 2; 0]
    /\ size r = 8 /\ size r <> 7
    /\ octets (v4_address (IPv4Network_of_bytes r)) = [192; 168; 1; 5]
    /\ v4_netmask (IPv4Network_of_bytes r) = 24
    /\ v4_flags (IPv4Network_of_bytes r) = ADDR_FLAG_INET
    /\ decode_inet r (size r) 64 = Some (lit "192.168.1.5/24")
    /\ encode_inet 0 7 "192.168.1.5/24" = Error
    /\ decode_inet (firstn 7 r) 7 64 = None.
Proof.
  apply (encode_inet_192_168_1_5_24 0 19 64); unfold sizeof_IPv4Network; lia.
Defined.

(** C6 (defect). The permissive encoder takes the prefix length -1 for "no
    prefix given" and stores the full width, where the strict encoder rejects
    it. *)
Theorem encode_inet_accepts_prefix_minus1 (pad : Z) :
  parse_ipv4_address (lit "192.168.1.5") = Some 3232235781
  /\ sscanf_addr_netmask (lit "192.168.1.5/-1") = Scanned2 (lit "192.168.1.5") (-1)
  /\ encode_inet pad 19 "192.168.1.5/-1" = Written [5; 1; 168; 192; 32; 2; 2; pad]
  /\ encode_cidr pad 19 "192.168.1.5/-1" = Invalid
  /\ encode_inet pad 19 "::1/-1"
     = Written [0; 0; 0; 0; 0; 0; 0; 0; 0; 0; 0; 0; 0; 0; 0; 1; 128; 10; 2].
Proof. repeat split; vm_compute; reflexivity. Qed.

(** C2 (defect). With prefix length 0 the strict encoder accepts any address:
    "192.168.1.5/0" becomes a record that carries the strict tag and whose 32
    host bits are those of 192.168.1.5. The validator returns true for prefix
    length 0 without looking at the address. *)
Theorem encode_cidr_prefix0_keeps_host_bits (pad : Z) :
  encode_cidr pad 19 "192.168.1.5/0" = Written [5; 1; 168; 192; 0; 2; 1; pad]
  /\ v4_flags (IPv4Network_of_bytes [5; 1; 168; 192; 0; 2; 1; pad]) = ADDR_FLAG_CIDR
  /\ v4_netmask (IPv4Network_of_bytes [5; 1; 168; 192; 0; 2; 1; pad]) = 0
  /\ host_bits_ipv4
       (v4_address (IPv4Network_of_bytes [5; 1; 168; 192; 0; 2; 1; pad])) 0
     = 3232235781
  /\ validate_cidr_network 3232235781 0 = Some true
  /\ encode_cidr pad 19 "::1/0"
     = Written [0; 0; 0; 0; 0; 0; 0; 0; 0; 0; 0; 0; 0; 0; 0; 1; 0; 10; 1].
Proof. repeat split; vm_compute; reflexivity. Qed.

(** The two strict encodings the documentation names: host bits set is
    rejected, host bits clear is accepted. *)
Example encode_cidr_192_168_1 (pad : Z) :
  encode_cidr pad 19 "192.168.1.5/24" = Invalid
  /\ encode_cidr pad 19 "192.168.1.0/24" = Written [0; 1; 168; 192; 24; 2; 1; pad].
Proof. split; vm_compute; reflexivity. Qed.

(* ================================================================= *)
(** ** The two comparators *)

(** C10. [cmp_inet] returns what [cmp_cidr] returns, on all buffers and
    lengths. *)
Theorem cmp_inet_is_cmp_cidr (a : list Z) (la : Z) (b : list Z) (lb : Z) :
  cmp_inet a la b lb = cmp_cidr a la b lb.
Proof. reflexivity. Qed.

(* ================================================================= *)
(** ** The comparator as an order *)

Section Lexicographic.

Lemma lex_cmp_values (k1 k2 : list Z) :
  lex_cmp k1 k2 = -1 \/ lex_cmp k1 k2 = 0 \/ lex_cmp k1 k2 = 1.
Proof.
  revert k2. induction k1 as [|x r1 IH]; intros [|y r2]; simpl; auto.
  destruct (x <? y); auto. destruct (y <? x); auto.
Qed.

Lemma lex_cmp_refl (k : list Z) : lex_cmp k k = 0.
Proof.
  induction k as [|x r IH]; simpl; auto.
  rewrite Z.ltb_irrefl. exact IH.
Qed.

Lemma lex_cmp_eq (k1 k2 : list Z) : lex_cmp k1 k2 = 0 -> k1 = k2.
Proof.
  revert k2. induction k1 as [|x r1 IH]; intros [|y r2]; simpl; auto;
    try discriminate.
  destruct (Z.ltb_spec x y); [discriminate|].
  destruct (Z.ltb_spec y x); [discriminate|].
  intros Hr. f_equal; [lia | auto].
Qed.

Lemma lex_cmp_antisym (k1 k2 : list Z) : lex_cmp k2 k1 = - lex_cmp k1 k2.
Proof.
  revert k2. induction k1 as [|x r1 IH]; intros [|y r2]; simpl; auto.
  destruct (Z.ltb_spec x y), (Z.ltb_spec y x); auto; lia.
Qed.

Lemma lex_cmp_trans (k1 k2 k3 : list Z) :
  lex_cmp k1 k2 <= 0 -> lex_cmp k2 k3 <= 0 -> lex_cmp k1 k3 <= 0.
Proof.
  revert k2 k3.
  induction k1 as [|x r1 IH]; intros [|y r2] [|z r3]; simpl; try lia.
  destruct (Z.ltb_spec x y), (Z.ltb_spec y x), (Z.ltb_spec y z),
    (Z.ltb_spec z y), (Z.ltb_spec x z), (Z.ltb_spec z x);
    try lia; eauto.
Qed.

Lemma lex_cmp_trans_lt (k1 k2 k3 : list Z) :
  lex_cmp k1 k2 = -1 -> lex_cmp k2 k3 = -1 -> lex_cmp k1 k3 = -1.
Proof.
  intros H1 H2.
  assert (L : lex_cmp k1 k3 <= 0) by (apply (lex_cmp_trans k1 k2 k3); lia).
  destruct (lex_cmp_values k1 k3) as [E|[E|E]]; [exact E| |lia].
  apply lex_cmp_eq in E. subst k3.
  rewrite (lex_cmp_antisym k1 k2) in H2. lia.
Qed.

Lemma lex_cmp_app (l1 l2 t1 t2 : list Z) :
  List.length l1 = List.length l2 ->
  lex_cmp (l1 ++ t1) (l2 ++ t2) =
    if lex_cmp l1 l2 =? 0 then lex_cmp t1 t2 else lex_cmp l1 l2.
Proof.
  revert l2. induction l1 as [|x r1 IH]; intros [|y r2] H; simpl in *;
    try discriminate; auto.
  destruct (x <? y); auto. destruct (y <? x); auto.
Qed.

(** The sign of [memcmp] is the lexicographic comparison of the bytes. *)
Lemma memcmp_lex (n : nat) (s1 s2 : list Z) :
  List.length s1 = n -> List.length s2 = n ->
  (if memcmp s1 s2 n =? 0 then 0 else if memcmp s1 s2 n <? 0 then -1 else 1)
  = lex_cmp s1 s2.
Proof.
  revert s1 s2. induction n as [|n IH]; intros [|x r1] [|y r2] H1 H2;
    simpl in *; try discriminate; auto.
  destruct (Z.eqb_spec x y) as [->|Hne].
  - rewrite Z.ltb_irrefl. apply IH; lia.
  - destruct (Z.ltb_spec x y), (Z.ltb_spec y x), (Z.eqb_spec (x - y) 0),
      (Z.ltb_spec (x - y) 0); auto; lia.
Qed.

End Lexicographic.

(** The four octets of a 32-bit address are its base-256 digits. *)
Lemma octets_digits (x : Z) :
  0 <= x < 2 ^ 32 ->
  exists o1 o2 o3 o4,
    octets x = [o1; o2; o3; o4]
    /\ x = 16777216 * o1 + 65536 * o2 + 256 * o3 + o4
    /\ 0 <= o1 < 256 /\ 0 <= o2 < 256 /\ 0 <= o3 < 256 /\ 0 <= o4 < 256.
Proof.
  intros H. unfold octets.
  change 255 with (Z.ones 8).
  rewrite !Z.land_ones, !Z.shiftr_div_pow2 by lia.
  change (2 ^ 8) with 256. change (2 ^ 24) with 16777216.
  change (2 ^ 16) with 65536. change (2 ^ 32) with 4294967296 in H.
  eexists _, _, _, _. split; [reflexivity|].
  Z.div_mod_to_equations. lia.
Qed.

(** Comparing two 32-bit addresses as numbers is comparing their octets
    most significant first. *)
Lemma address_cmp_octets (x y : Z) :
  0 <= x < 2 ^ 32 -> 0 <= y < 2 ^ 32 ->
  lex_cmp (octets x) (octets y) =
    if x =? y then 0 else if x <? y then -1 else 1.
Proof.
  intros Hx Hy.
  destruct (octets_digits x Hx) as (a1 & a2 & a3 & a4 & -> & Ex & ? & ? & ? & ?).
  destruct (octets_digits y Hy) as (b1 & b2 & b3 & b4 & -> & Ey & ? & ? & ? & ?).
  simpl.
  destruct (Z.ltb_spec a1 b1), (Z.ltb_spec b1 a1), (Z.ltb_spec a2 b2),
    (Z.ltb_spec b2 a2), (Z.ltb_spec a3 b3), (Z.ltb_spec b3 a3),
    (Z.ltb_spec a4 b4), (Z.ltb_spec b4 a4), (Z.eqb_spec x y), (Z.ltb_spec x y);
    try reflexivity; lia.
Qed.

Lemma forallb_is_byte_nth (r : list Z) (i : nat) :
  forallb is_byte r = true -> 0 <= byte_at r i < 256.
Proof.
  intros H. unfold byte_at.
  destruct (Nat.lt_ge_cases i (List.length r)) as [L|L].
  - rewrite forallb_forall in H. specialize (H _ (nth_In r 0 L)).
    unfold is_byte in H. lia.
  - rewrite nth_overflow by lia. lia.
Qed.

Lemma u32_of_bytes_range (r : list Z) :
  forallb is_byte r = true -> 0 <= u32_of_bytes r < 2 ^ 32.
Proof.
  intros H. unfold u32_of_bytes.
  pose proof (forallb_is_byte_nth r 0 H). pose proof (forallb_is_byte_nth r 1 H).
  pose proof (forallb_is_byte_nth r 2 H). pose proof (forallb_is_byte_nth r 3 H).
  change (2 ^ 32) with 4294967296. lia.
Qed.

Lemma well_formed_cases (r : list Z) :
  well_formed r = true ->
  forallb is_byte r = true /\ (size r = 8 \/ size r = 19).
Proof.
  unfold well_formed, well_formed_ipv4, well_formed_ipv6,
    sizeof_IPv4Network, sizeof_IPv6Network.
  intros H. apply orb_prop in H. destruct H as [H|H];
    repeat (apply andb_prop in H; destruct H as [H ?]);
    split; auto; lia.
Qed.

Lemma length_octets (x : Z) : List.length (octets x) = 4%nat.
Proof. reflexivity. Qed.

Lemma cmp_prefix_lex (n1 n2 : Z) :
  (if negb (n1 =? n2) then if n1 <? n2 then -1 else 1 else 0)
  = lex_cmp [n1] [n2].
Proof.
  simpl. destruct (Z.eqb_spec n1 n2), (Z.ltb_spec n1 n2), (Z.ltb_spec n2 n1);
    simpl; auto; lia.
Qed.

(** [cmp_cidr] on two 8-byte records. *)
Lemma cmp_cidr_ipv4 (a b : list Z) :
  cmp_cidr a 8 b 8 =
    let x := u32_of_bytes a in
    let y := u32_of_bytes b in
    if negb (x =? y) then if x <? y then -1 else 1
    else if negb (byte_at a 4 =? byte_at b 4)
         then if byte_at a 4 <? byte_at b 4 then -1 else 1
         else 0.
Proof. reflexivity. Qed.

(** [cmp_cidr] on two 19-byte records. *)
Lemma cmp_cidr_ipv6 (a b : list Z) :
  cmp_cidr a 19 b 19 =
    let m := memcmp (firstn 16 a) (firstn 16 b) 16 in
    if negb (m =? 0) then if m <? 0 then -1 else 1
    else if negb (byte_at a 16 =? byte_at b 16)
         then if byte_at a 16 <? byte_at b 16 then -1 else 1
         else 0.
Proof. reflexivity. Qed.

Lemma sort_key_ipv4 (a : list Z) :
  size a = 8 -> sort_key a = 8 :: octets (u32_of_bytes a) ++ [byte_at a 4].
Proof. intros H. unfold sort_key. rewrite H. reflexivity. Qed.

Lemma sort_key_ipv6 (a : list Z) :
  size a = 19 -> sort_key a = 19 :: firstn 16 a ++ [byte_at a 16].
Proof. intros H. unfold sort_key. rewrite H. reflexivity. Qed.

Lemma lex_cmp_cons_same (x : Z) (k1 k2 : list Z) :
  lex_cmp (x :: k1) (x :: k2) = lex_cmp k1 k2.
Proof. simpl. rewrite Z.ltb_irrefl. reflexivity. Qed.

(** On well-formed records [cmp_cidr] is the lexicographic comparison of
    the sort keys: width, address bytes most significant first, prefix
    length. *)
Lemma cmp_cidr_sort_key (a b : list Z) :
  well_formed a = true -> well_formed b = true ->
  cmp_cidr a (size a) b (size b) = lex_cmp (sort_key a) (sort_key b).
Proof.
  intros Ha Hb.
  apply well_formed_cases in Ha. destruct Ha as [Ba Sa].
  apply well_formed_cases in Hb. destruct Hb as [Bb Sb].
  destruct Sa as [Sa|Sa], Sb as [Sb|Sb].
  - (* two IPv4 records *)
    rewrite (sort_key_ipv4 a Sa), (sort_key_ipv4 b Sb), Sa, Sb.
    rewrite cmp_cidr_ipv4, lex_cmp_cons_same. cbv zeta.
    rewrite lex_cmp_app by reflexivity.
    rewrite address_cmp_octets by (apply u32_of_bytes_range; assumption).
    rewrite <- cmp_prefix_lex.
    destruct (Z.eqb_spec (u32_of_bytes a) (u32_of_bytes b)); simpl negb; cbv iota.
    + reflexivity.
    + destruct (u32_of_bytes a <? u32_of_bytes b); reflexivity.
  - (* IPv4 against IPv6 *)
    rewrite (sort_key_ipv4 a Sa), (sort_key_ipv6 b Sb), Sa, Sb. reflexivity.
  - (* IPv6 against IPv4 *)
    rewrite (sort_key_ipv6 a Sa), (sort_key_ipv4 b Sb), Sa, Sb. reflexivity.
  - (* two IPv6 records *)
    rewrite (sort_key_ipv6 a Sa), (sort_key_ipv6 b Sb), Sa, Sb.
    rewrite cmp_cidr_ipv6, lex_cmp_cons_same. cbv zeta.
    assert (La : List.length (firstn 16 a) = 16%nat)
      by (rewrite length_firstn; unfold size in Sa; lia).
    assert (Lb : List.length (firstn 16 b) = 16%nat)
      by (rewrite length_firstn; unfold size in Sb; lia).
    rewrite lex_cmp_app by lia.
    rewrite <- (memcmp_lex 16 _ _ La Lb).
    rewrite <- cmp_prefix_lex.
    set (m := memcmp (firstn 16 a) (firstn 16 b) 16).
    destruct (Z.eqb_spec m 0) as [E|E]; simpl negb; cbv iota.
    + reflexivity.
    + destruct (m <? 0); reflexivity.
Qed.

Lemma compare_records_sort_key (f : comparator) (a b : list Z) :
  well_formed a = true -> well_formed b = true ->
  compare_records f a b = lex_cmp (sort_key a) (sort_key b).
Proof.
  intros Ha Hb. destruct f; unfold compare_records, cmp_inet;
    apply cmp_cidr_sort_key; assumption.
Qed.

Lemma well_formed_inv (r : list Z) :
  well_formed r = true ->
  forallb is_byte r = true
  /\ ((List.length r = 8%nat /\ byte_at r 5 = 2)
      \/ (List.length r = 19%nat /\ byte_at r 17 = 10)).
Proof.
  unfold well_formed, well_formed_ipv4, well_formed_ipv6, size,
    sizeof_IPv4Network, sizeof_IPv6Network, AF_INET_VAL, AF_INET6_VAL.
  intros H. apply orb_prop in H. destruct H as [H|H];
    repeat (apply andb_prop in H; destruct H as [H ?]);
    (split; [assumption|]); [left|right]; split; lia.
Qed.

(** Take a list of known length apart into its elements. *)
Ltac explode_list l H :=
  repeat (destruct l as [|? l]; [discriminate H | simpl in H; injection H as H]);
  destruct l; [|discriminate H].

(** Two well-formed records with the same variant tag that compare equal
    have the same fields: they are the same bytes, but for the padding byte
    of an IPv4 record. *)
Lemma cmp_cidr_zero_same_fields (a b : list Z) :
  well_formed a = true -> well_formed b = true ->
  flags_of a = flags_of b ->
  cmp_cidr a (size a) b (size b) = 0 -> fields a = fields b.
Proof.
  intros Ha Hb Hf Hc.
  assert (K : sort_key a = sort_key b)
    by (apply lex_cmp_eq; rewrite <- cmp_cidr_sort_key; assumption).
  apply well_formed_inv in Ha. destruct Ha as [Ba Sa].
  apply well_formed_inv in Hb. destruct Hb as [Bb Sb].
  destruct Sa as [[La Fa]|[La Fa]], Sb as [[Lb Fb]|[Lb Fb]].
  - (* two IPv4 records *)
    assert (Sa : size a = 8) by (unfold size; lia).
    assert (Sb : size b = 8) by (unfold size; lia).
    rewrite Sa, Sb, cmp_cidr_ipv4 in Hc. cbv zeta in Hc.
    assert (E : u32_of_bytes a = u32_of_bytes b /\ byte_at a 4 = byte_at b 4).
    { destruct (Z.eqb_spec (u32_of_bytes a) (u32_of_bytes b)) as [E|E];
        simpl negb in Hc; cbv iota in Hc;
        [|destruct (_ <? _) in Hc; discriminate].
      destruct (Z.eqb_spec (byte_at a 4) (byte_at b 4)) as [E'|E'];
        simpl negb in Hc; cbv iota in Hc;
        [|destruct (_ <? _) in Hc; discriminate].
      split; assumption. }
    destruct E as [E1 E2].
    pose proof (forallb_is_byte_nth _ 0 Ba) as A0.
    pose proof (forallb_is_byte_nth _ 1 Ba) as A1.
    pose proof (forallb_is_byte_nth _ 2 Ba) as A2.
    pose proof (forallb_is_byte_nth _ 3 Ba) as A3.
    pose proof (forallb_is_byte_nth _ 0 Bb) as B0.
    pose proof (forallb_is_byte_nth _ 1 Bb) as B1.
    pose proof (forallb_is_byte_nth _ 2 Bb) as B2.
    pose proof (forallb_is_byte_nth _ 3 Bb) as B3.
    unfold flags_of in Hf. rewrite Sa, Sb in Hf.
    unfold fields. rewrite Sa, Sb.
    change (8 =? sizeof_IPv4Network) with true in *. cbv iota in *.
    clear K Ba Bb Hc Sa Sb.
    explode_list a La. explode_list b Lb.
    unfold u32_of_bytes, IPv4Network_of_bytes, v4_flags, byte_at in *.
    cbn [nth firstn] in *.
    repeat f_equal; lia.
  - (* widths differ *)
    exfalso. unfold sort_key, size in K. rewrite La, Lb in K. discriminate.
  - exfalso. unfold sort_key, size in K. rewrite La, Lb in K. discriminate.
  - (* two IPv6 records *)
    assert (Sa : size a = 19) by (unfold size; lia).
    assert (Sb : size b = 19) by (unfold size; lia).
    unfold fields. rewrite Sa, Sb.
    change (19 =? sizeof_IPv4Network) with false. cbv iota.
    rewrite (sort_key_ipv6 a Sa), (sort_key_ipv6 b Sb) in K.
    assert (K' : firstn 16 a ++ [byte_at a 16] = firstn 16 b ++ [byte_at b 16])
      by congruence.
    apply app_inj_tail in K'. destruct K' as [K1 K2]. clear K.
    rewrite <- (firstn_skipn 16 a), <- (firstn_skipn 16 b), K1. f_equal.
    unfold flags_of in Hf. rewrite Sa, Sb in Hf.
    clear K1 Ba Bb Hc Sa Sb.
    explode_list a La. explode_list b Lb.
    change (19 =? sizeof_IPv4Network) with false in Hf.
    cbn in Hf, Fa, Fb, K2. cbn. congruence.
Qed.

(** C4. Each comparator orders the well-formed records totally: it is
    reflexive, antisymmetric and transitive, returns -1, 0 or 1, puts every
    IPv4 record before every IPv6 record, and within a family compares the
    addresses most significant byte first and then the prefix lengths, the
    shorter prefix first. Two records compare equal exactly when they have the
    same sort key (width, address, prefix length); with the same variant tag
    they then have the same fields, that is, they are the same bytes but for
    the padding byte of an IPv4 record, which no code sets. An IPv4 record is
    the 8 bytes of [sizeof(IPv4Network)]. *)
Theorem comparator_total_order (f : comparator) (a b c : list Z) :
  well_formed a = true -> well_formed b = true -> well_formed c = true ->
  compare_records f a a = 0
  /\ (compare_records f a b = -1 \/ compare_records f a b = 0
      \/ compare_records f a b = 1)
  /\ compare_records f b a = - compare_records f a b
  /\ (compare_records f a b <= 0 -> compare_records f b c <= 0 ->
      compare_records f a c <= 0)
  /\ (compare_records f a b = -1 -> compare_records f b c = -1 ->
      compare_records f a c = -1)
  /\ (compare_records f a b = 0 <-> sort_key a = sort_key b)
  /\ (compare_records f a b = 0 -> flags_of a = flags_of b ->
      fields a = fields b)
  /\ (well_formed_ipv4 a = true -> well_formed_ipv6 c = true ->
      compare_records f a c = -1 /\ compare_records f c a = 1)
  /\ compare_records f a b = lex_cmp (sort_key a) (sort_key b).
Proof.
  intros Ha Hb Hc.
  assert (Z0 : compare_records f a b = 0 -> flags_of a = flags_of b ->
               fields a = fields b).
  { intros E F. apply cmp_cidr_zero_same_fields; auto.
    destruct f; exact E. }
  revert Z0.
  rewrite !compare_records_sort_key by assumption.
  intros Z0.
  repeat split.
  - apply lex_cmp_refl.
  - apply lex_cmp_values.
  - apply lex_cmp_antisym.
  - apply lex_cmp_trans.
  - apply lex_cmp_trans_lt.
  - apply lex_cmp_eq.
  - intros ->. apply lex_cmp_refl.
  - exact Z0.
  - apply well_formed_ipv4_inv in H. apply well_formed_ipv6_inv in H0.
    destruct H as (S4 & _). destruct H0 as (S6 & _).
    rewrite (sort_key_ipv4 a S4), (sort_key_ipv6 c S6). reflexivity.
  - apply well_formed_ipv4_inv in H. apply well_formed_ipv6_inv in H0.
    destruct H as (S4 & _). destruct H0 as (S6 & _).
    rewrite (sort_key_ipv4 a S4), (sort_key_ipv6 c S6). reflexivity.
Qed.

(** 192.168.1.5/24, then 192.168.1.5/32 with another padding byte, then
    2001:db8:2::1/128. *)
Lemma comparator_total_order_witness :
  let a := [5; 1; 168; 192; 24; 2; 2; 0] in
  let b := [5; 1; 168; 192; 32; 2; 2; 255] in
  let c := record_2001_db8_2__1 in
  compare_records CmpInet a a = 0
  /\ compare_records CmpInet a b = -1
  /\ compare_records CmpInet b a = 1
  /\ compare_records CmpInet b c = -1
  /\ compare_records CmpInet a c = -1
  /\ compare_records CmpInet c a = 1
  /\ (compare_records CmpInet a b = 0 <-> sort_key a = sort_key b)
  /\ compare_records CmpInet a b = lex_cmp (sort_key a) (sort_key b).
Proof.
  pose proof (comparator_total_order CmpInet
                [5; 1; 168; 192; 24; 2; 2; 0] [5; 1; 168; 192; 32; 2; 2; 255]
                record_2001_db8_2__1 eq_refl eq_refl eq_refl)
    as (R & _ & A & _ & T & E & _ & W & K).
  cbv zeta.
  assert (AB : compare_records CmpInet [5; 1; 168; 192; 24; 2; 2; 0]
                 [5; 1; 168; 192; 32; 2; 2; 255] = -1)
    by (rewrite K; reflexivity).
  assert (BC : compare_records CmpInet [5; 1; 168; 192; 32; 2; 2; 255]
                 record_2001_db8_2__1 = -1) by reflexivity.
  assert (BA : compare_records CmpInet [5; 1; 168; 192; 32; 2; 2; 255]
                 [5; 1; 168; 192; 24; 2; 2; 0] = 1)
    by (rewrite A, AB; reflexivity).
  exact (conj R (conj AB (conj BA (conj BC (conj (T AB BC)
           (conj (proj2 (W eq_refl eq_refl)) (conj E K))))))).
Defined.

(* ================================================================= *)
(** ** The '/' separator *)

Lemma scan_not_slash_rest (w : nat) (s : cstring) :
  has_slash s = false -> has_slash (snd (scan_not_slash w s)) = false.
Proof.
  revert s. induction w as [|w IH]; intros [|c r] H; simpl in *; auto.
  destruct (Ascii.eqb c "/"%char) eqn:E; simpl in *; [discriminate|].
  specialize (IH r H). destruct (scan_not_slash w r). exact IH.
Qed.

Lemma scan_lit_slash_none (s : cstring) :
  has_slash s = false -> scan_lit "/"%char s = None.
Proof.
  destruct s as [|c r]; simpl; auto.
  destruct (Ascii.eqb c "/"%char); simpl; [discriminate | reflexivity].
Qed.

(** Without a '/' in the text [sscanf] assigns the address at most, never
    the prefix length. *)
Lemma sscanf_no_slash (s : cstring) :
  has_slash s = false ->
  sscanf_addr_netmask s = Scanned0
  \/ exists addr_str, sscanf_addr_netmask s = Scanned1 addr_str.
Proof.
  intros H. unfold sscanf_addr_netmask.
  pose proof (scan_not_slash_rest 63 s H) as R.
  destruct (scan_not_slash 63 s) as [a r]. simpl in R.
  destruct a as [|c a']; [left; reflexivity|].
  right. rewrite (scan_lit_slash_none r R). eauto.
Qed.

(** C5 (as the code has it). The strict encoder requires the '/' and a
    prefix length: given a buffer that holds an IPv4 record (8 bytes), every
    text without '/' is marked invalid by [encode_cidr]. Only the permissive
    encoder defaults the prefix length, to 32 for an IPv4 address and to 128
    for an IPv6 address. *)
Theorem encode_cidr_requires_slash (pad buffer_size : Z) (from : string) :
  sizeof_IPv4Network <= buffer_size ->
  has_slash (from_c_str from) = false ->
  encode_cidr pad buffer_size from = Invalid
  /\ (forall address,
        parse_ipv4_address (strncpy63 (from_c_str from)) = Some address ->
        encode_inet pad buffer_size from =
          Written (bytes_of_IPv4Network
                     (mkIPv4Network address 32 AF_INET_VAL ADDR_FLAG_INET) pad))
  /\ (forall address,
        sizeof_IPv6Network <= buffer_size ->
        parse_ipv4_address (strncpy63 (from_c_str from)) = None ->
        parse_ipv6_address (strncpy63 (from_c_str from)) = Some address ->
        encode_inet pad buffer_size from =
          Written (bytes_of_IPv6Network
                     (mkIPv6Network address 128 AF_INET6_VAL ADDR_FLAG_INET))).
Proof.
  intros Hb Hs. unfold sizeof_IPv4Network in Hb.
  assert (B4 : (buffer_size <? sizeof_IPv4Network) = false)
    by (unfold sizeof_IPv4Network; lia).
  pose proof (sscanf_no_slash _ Hs) as Sc.
  unfold encode_cidr, encode_inet. rewrite B4.
  split; [|split].
  - destruct Sc as [-> | [x ->]]; reflexivity.
  - intros address P4.
    destruct Sc as [-> | [x ->]]; rewrite P4; reflexivity.
  - intros address B6 P4 P6.
    assert (B6' : (buffer_size <? sizeof_IPv6Network) = false)
      by (unfold sizeof_IPv6Network in *; lia).
    destruct Sc as [-> | [x ->]]; rewrite P4, B6', P6; reflexivity.
Qed.

(** An IPv4 text in a buffer of 8 bytes and an IPv6 text in a buffer of 19. *)
Lemma encode_cidr_requires_slash_witness :
  encode_cidr 0 8 "192.168.1.0" = Invalid
  /\ encode_inet 0 8 "192.168.1.0" = Written [0; 1; 168; 192; 32; 2; 2; 0]
  /\ encode_cidr 0 19 "2001:db8::" = Invalid
  /\ encode_inet 0 19 "2001:db8::"
     = Written [32; 1; 13; 184; 0; 0; 0; 0; 0; 0; 0; 0; 0; 0; 0; 0; 128; 10; 2].
Proof.
  pose proof (encode_cidr_requires_slash 0 8 "192.168.1.0"
                ltac:(unfold sizeof_IPv4Network; lia) eq_refl) as (A & B & _).
  pose proof (encode_cidr_requires_slash 0 19 "2001:db8::"
                ltac:(unfold sizeof_IPv4Network; lia) eq_refl) as (C & _ & D).
  exact (conj A (conj (B 3232235776 ltac:(vm_compute; reflexivity))
          (conj C (D [32; 1; 13; 184; 0; 0; 0; 0; 0; 0; 0; 0; 0; 0; 0; 0]
                     ltac:(unfold sizeof_IPv6Network; lia)
                     ltac:(vm_compute; reflexivity)
                     ltac:(vm_compute; reflexivity))))).
Defined.

(** "192.168.1.0" is a valid address text with no host bit under any prefix
    length: the permissive encoder stores it with prefix length 32, the strict
    encoder does not accept it, whatever the padding byte and in a buffer of
    8 bytes as in one of 19. *)
Lemma encode_cidr_rejects_missing_slash :
  parse_ipv4_address (lit "192.168.1.0") = Some 3232235776
  /\ (forall pad, encode_inet pad 8 "192.168.1.0"
                  = Written [0; 1; 168; 192; 32; 2; 2; pad])
  /\ (forall pad, encode_cidr pad 8 "192.168.1.0" = Invalid)
  /\ (forall pad, encode_cidr pad 19 "192.168.1.0" = Invalid)
  /\ ~ (exists pad r, encode_cidr pad 19 "192.168.1.0" = Written r)
  /\ (forall pad, encode_inet pad 19 "2001:db8::"
       = Written [32; 1; 13; 184; 0; 0; 0; 0; 0; 0; 0; 0; 0; 0; 0; 0; 128; 10; 2])
  /\ (forall pad, encode_cidr pad 19 "2001:db8::" = Invalid).
Proof.
  repeat split; try (intros pad; vm_compute; reflexivity);
    try (vm_compute; reflexivity).
  intros (pad & r & H). vm_compute in H. discriminate.
Qed.

(* ================================================================= *)
(** ** Host bits of strict records *)

Lemma forallb_range (P : Z -> bool) (lo n : nat) :
  forallb P (map Z.of_nat (seq lo n)) = true ->
  forall p, Z.of_nat lo <= p < Z.of_nat (lo + n) -> P p = true.
Proof.
  intros A p H. rewrite forallb_forall in A. apply A. apply Z_range_in. exact H.
Qed.

Lemma land_mask_mod (a m k : Z) :
  0 <= k -> Z.land m (Z.ones k) = 0 -> Z.land a m mod 2 ^ k = 0.
Proof.
  intros Hk Hm. rewrite <- Z.land_ones by exact Hk.
  rewrite <- Z.land_assoc, Hm. apply Z.land_0_r.
Qed.

Lemma land_cover_mod (a n k : Z) :
  0 <= k -> Z.land n (Z.ones k) = Z.ones k -> Z.land a n = 0 -> a mod 2 ^ k = 0.
Proof.
  intros Hk Hn Ha. rewrite <- Z.land_ones by exact Hk.
  rewrite <- Hn, Z.land_assoc, Ha. reflexivity.
Qed.

(** The IPv4 netmask of a prefix length has no bit among the host bits. *)
Lemma netmask_ipv4_clears_host_bits (a p m : Z) :
  0 <= p <= 32 -> prefix_to_netmask_ipv4 p = Some m ->
  host_bits_ipv4 (Z.land a m) p = 0.
Proof.
  intros Hp Hm. unfold host_bits_ipv4. apply land_mask_mod; [lia|].
  assert (A : forallb (fun q => match prefix_to_netmask_ipv4 q with
                                | Some n => Z.land n (Z.ones (32 - q)) =? 0
                                | None => false
                                end) (map Z.of_nat (seq 0 33)) = true)
    by (vm_compute; reflexivity).
  pose proof (forallb_range _ _ _ A p) as B. cbv beta in B.
  rewrite Hm in B. apply Z.eqb_eq. apply B. lia.
Qed.

(** What the strict validator of IPv4 accepts under a prefix length of 1 to
    32 has no host bit. *)
Lemma validate_cidr_network_host_bits (a p : Z) :
  1 <= p <= 32 -> validate_cidr_network a p = Some true ->
  host_bits_ipv4 a p = 0.
Proof.
  intros Hp Hv. unfold host_bits_ipv4.
  assert (A : forallb (fun q => match shl_u32 1 (IPV4_MAX_PREFIXLEN - q) with
                                | Some s =>
                                    Z.land (not_u32 (not_u32 (u32 (s - 1))))
                                           (Z.ones (32 - q)) =? Z.ones (32 - q)
                                | None => false
                                end) (map Z.of_nat (seq 1 32)) = true)
    by (vm_compute; reflexivity).
  pose proof (forallb_range _ _ _ A p) as B. cbv beta in B.
  unfold validate_cidr_network in Hv. unfold IPV4_MAX_PREFIXLEN in Hv at 1.
  assert ((p >? 32) = false) as E1 by lia. rewrite E1 in Hv.
  assert ((p =? 0) = false) as E2 by lia. rewrite E2 in Hv.
  destruct (shl_u32 1 (IPV4_MAX_PREFIXLEN - p)) as [s|]; [|discriminate].
  simpl in Hv. injection Hv as Hv. apply Z.eqb_eq in Hv.
  apply (land_cover_mod a (not_u32 (not_u32 (u32 (s - 1))))); [lia| |exact Hv].
  apply Z.eqb_eq. apply B. lia.
Qed.

Lemma map_all_zero (f : nat -> Z) (l : list nat) :
  (forall i, In i l -> f i = 0) -> map f l = repeat 0 (List.length l).
Proof.
  induction l as [|x r IH]; intros H; simpl; auto.
  rewrite (H x) by (left; reflexivity).
  rewrite IH by (intros i Hi; apply H; right; exact Hi). reflexivity.
Qed.

Lemma byte_at_and_bytes16 (a m : list Z) (i : nat) :
  (i < 16)%nat -> byte_at (and_bytes16 a m) i = Z.land (byte_at a i) (byte_at m i).
Proof.
  intros H. unfold and_bytes16, byte_at.
  set (f := fun j => Z.land (nth j a 0) (nth j m 0)).
  rewrite (nth_indep _ 0 (f 0%nat))
    by (rewrite length_map, length_seq; exact H).
  rewrite map_nth. rewrite seq_nth by exact H. reflexivity.
Qed.

(** The IPv6 netmask of a prefix length has no bit among the host bits. *)
Lemma netmask_ipv6_clears_host_bits (a m : list Z) (p : Z) :
  0 <= p <= 128 -> prefix_to_netmask_ipv6 p = Some m ->
  host_bits_ipv6 (and_bytes16 a m) p = repeat 0 16.
Proof.
  intros Hp Hm. unfold host_bits_ipv6.
  apply (map_all_zero _ (seq 0 16)). intros i Hi. apply in_seq in Hi.
  rewrite byte_at_and_bytes16 by lia.
  assert (A : forallb (fun q =>
                match prefix_to_netmask_ipv6 q with
                | Some n =>
                    forallb (fun j => Z.land (byte_at n j)
                                        (Z.ones (host_bit_count j q)) =? 0)
                            (seq 0 16)
                | None => false
                end) (map Z.of_nat (seq 0 129)) = true)
    by (vm_compute; reflexivity).
  pose proof (forallb_range _ _ _ A p) as B. cbv beta in B.
  rewrite Hm in B. assert (C := B ltac:(lia)).
  rewrite forallb_forall in C. specialize (C i).
  apply land_mask_mod; [unfold host_bit_count; lia|].
  apply Z.eqb_eq. apply C. apply in_seq. lia.
Qed.

Lemma remaining_bytes_zero_spec (address : list Z) (from i : nat) :
  remaining_bytes_zero address from = true ->
  (from <= i < 16)%nat -> byte_at address i = 0.
Proof.
  unfold remaining_bytes_zero. intros H Hi. rewrite forallb_forall in H.
  apply Z.eqb_eq. apply H. apply in_seq. lia.
Qed.

(** What the strict validator of IPv6 accepts under a prefix length of 1 to
    128 has no host bit. *)
Lemma validate_cidr_network_ipv6_host_bits (address : list Z) (p : Z) :
  1 <= p <= 128 -> validate_cidr_network_ipv6 address p = Some true ->
  host_bits_ipv6 address p = repeat 0 16.
Proof.
  intros Hp Hv. unfold validate_cidr_network_ipv6, IPV6_MAX_PREFIXLEN in Hv.
  assert ((p >? 128) = false) as E1 by lia. rewrite E1 in Hv.
  assert ((p =? 0) = false) as E2 by lia. rewrite E2 in Hv.
  pose proof (Z.div_mod p 8 ltac:(lia)) as D.
  pose proof (Z.mod_pos_bound p 8 ltac:(lia)) as R.
  assert (F : Z.of_nat (Z.to_nat (p / 8)) = p / 8)
    by (apply Z2Nat.id; apply Z.div_pos; lia).
  set (fb := Z.to_nat (p / 8)) in *. set (rem := p mod 8) in *.
  unfold host_bits_ipv6.
  apply (map_all_zero _ (seq 0 16)). intros i Hi. apply in_seq in Hi.
  unfold host_bit_count.
  destruct (Z.gtb_spec rem 0) as [Hr|Hr].
  - unfold shl_int in Hv.
    assert (((0 <=? 8 - rem) && (8 - rem <? 32)) = true) as E3 by lia.
    rewrite E3 in Hv. unfold bind in Hv.
    destruct (Z.eqb_spec (Z.land (byte_at address fb)
                            (Z.lnot (u8 (Z.shiftl 255 (8 - rem))))) 0)
      as [Hb|Hb]; unfold negb in Hv; [|discriminate].
    injection Hv as Hv.
    destruct (Nat.lt_trichotomy i fb) as [L|[L|L]].
    + replace (Z.min 8 (Z.max 0 (8 * (Z.of_nat i + 1) - p))) with 0 by lia.
      apply Z.mod_1_r.
    + subst i.
      replace (Z.min 8 (Z.max 0 (8 * (Z.of_nat fb + 1) - p))) with (8 - rem) by lia.
      apply (land_cover_mod _ (Z.lnot (u8 (Z.shiftl 255 (8 - rem)))));
        [lia| |exact Hb].
      assert (A : forallb (fun q =>
                    Z.land (Z.lnot (u8 (Z.shiftl 255 (8 - q)))) (Z.ones (8 - q))
                    =? Z.ones (8 - q)) (map Z.of_nat (seq 1 7)) = true)
        by (vm_compute; reflexivity).
      apply Z.eqb_eq. apply (forallb_range _ _ _ A rem). lia.
    + rewrite (remaining_bytes_zero_spec _ _ i Hv) by lia. apply Zmod_0_l.
  - injection Hv as Hv.
    destruct (Nat.lt_ge_cases i fb) as [L|L].
    + replace (Z.min 8 (Z.max 0 (8 * (Z.of_nat i + 1) - p))) with 0 by lia.
      apply Z.mod_1_r.
    + rewrite (remaining_bytes_zero_spec _ _ i Hv) by lia. apply Zmod_0_l.
Qed.

Lemma u8_small (n : Z) : 0 <= n < 256 -> u8 n = n.
Proof. intros H. unfold u8. apply Z.mod_small. exact H. Qed.

(* ================================================================= *)
(** ** Instances of the lemmas above *)

Lemma mask_complement_ipv4_witness :
  complement32 (prefix_to_netmask_ipv4 24) (prefix_to_hostmask_ipv4 24) = true.
Proof. apply (mask_complement_ipv4 24). lia. Defined.

Lemma mask_complement_ipv6_witness :
  complement128 (prefix_to_netmask_ipv6 61) (prefix_to_hostmask_ipv6 61) = true.
Proof. apply (mask_complement_ipv6 61). lia. Defined.

Lemma get_address_family_ipv6_record_witness :
  get_address_family record_2001_db8_2__1 (size record_2001_db8_2__1) =
    if byte_at record_2001_db8_2__1 5 =? 2 then AF_INET_VAL else AF_INET6_VAL.
Proof. apply (get_address_family_ipv6_record record_2001_db8_2__1). reflexivity. Defined.

(* ================================================================= *)
(** ** Decoding a well-formed record *)

Lemma strlen_snprintf (n : Z) (s : cstring) : 1 <= n -> strlen (snprintf n s) <= n - 1.
Proof.
  intros H. unfold strlen, snprintf. rewrite length_firstn. lia.
Qed.

Lemma copy_out_fits (s : cstring) (to_size : Z) :
  strlen s < to_size -> copy_out s to_size = Some s.
Proof.
  intros H. unfold copy_out.
  assert ((strlen s + 1 >? to_size) = false) as -> by lia. reflexivity.
Qed.

(** Given the 64-byte text buffer the types register, [decode_cidr] and
    [decode_inet] always produce a text for a well-formed record (8 bytes for
    IPv4, 19 for IPv6) passed with its own length, shorter than the buffer;
    the first 7 bytes of an IPv4 record passed with the length 7 are
    refused. *)
Theorem decode_well_formed_succeeds (r : list Z) (to_size : Z) :
  well_formed r = true -> 64 <= to_size ->
  (exists text, decode_cidr r (size r) to_size = Some text /\ strlen text < 64)
  /\ (exists text, decode_inet r (size r) to_size = Some text /\ strlen text < 64)
  /\ decode_cidr (firstn 7 r) 7 to_size = None
  /\ decode_inet (firstn 7 r) 7 to_size = None.
Proof.
  intros Hw Ht. apply well_formed_inv in Hw. destruct Hw as [_ Hw].
  rewrite <- and_assoc. split; [|split; reflexivity].
  unfold decode_cidr, decode_inet, sizeof_IPv4Network, sizeof_IPv6Network,
    AF_INET_VAL, AF_INET6_VAL, kMaxIPv6String.
  destruct Hw as [[L F]|[L F]].
  - assert (S : size r = 8) by (unfold size; lia). rewrite S, F.
    change (8 <? 8) with false. change ((2 =? 2) && (8 >=? 8)) with true.
    cbv iota. split.
    + eexists. split.
      * apply copy_out_fits. pose proof (strlen_snprintf 64 (format_ipv4_address
          (v4_address (IPv4Network_of_bytes r)) 32 ++ slash ++
          fmt_u (v4_netmask (IPv4Network_of_bytes r))) ltac:(lia)). lia.
      * pose proof (strlen_snprintf 64 (format_ipv4_address
          (v4_address (IPv4Network_of_bytes r)) 32 ++ slash ++
          fmt_u (v4_netmask (IPv4Network_of_bytes r))) ltac:(lia)). lia.
    + destruct (v4_netmask (IPv4Network_of_bytes r) =? IPV4_MAX_PREFIXLEN).
      * set (t := snprintf 64 _).
        assert (strlen t <= 63) by (apply (strlen_snprintf 64); lia).
        exists t. split; [apply copy_out_fits|]; lia.
      * set (t := snprintf 64 _).
        assert (strlen t <= 63) by (apply (strlen_snprintf 64); lia).
        exists t. split; [apply copy_out_fits|]; lia.
  - assert (S : size r = 19) by (unfold size; lia). rewrite S, F.
    change (19 <? 8) with false. change (19 >=? 8) with true.
    change (19 >=? 19) with true. change (10 =? 10) with true.
    rewrite andb_true_r. cbv iota.
    destruct (byte_at r 5 =? 2); split.
    + set (t := snprintf 64 _).
      assert (strlen t <= 63) by (apply (strlen_snprintf 64); lia).
      exists t. split; [apply copy_out_fits|]; lia.
    + destruct (v4_netmask (IPv4Network_of_bytes r) =? IPV4_MAX_PREFIXLEN).
      * set (t := snprintf 64 _).
        assert (strlen t <= 63) by (apply (strlen_snprintf 64); lia).
        exists t. split; [apply copy_out_fits|]; lia.
      * set (t := snprintf 64 _).
        assert (strlen t <= 63) by (apply (strlen_snprintf 64); lia).
        exists t. split; [apply copy_out_fits|]; lia.
    + set (t := snprintf 44 _).
      assert (strlen t <= 43) by (apply (strlen_snprintf 44); lia).
      exists t. split; [apply copy_out_fits|]; lia.
    + destruct (v6_netmask (IPv6Network_of_bytes r) =? IPV6_MAX_PREFIXLEN).
      * set (t := snprintf 44 _).
        assert (strlen t <= 43) by (apply (strlen_snprintf 44); lia).
        exists t. split; [apply copy_out_fits|]; lia.
      * set (t := snprintf 44 _).
        assert (strlen t <= 43) by (apply (strlen_snprintf 44); lia).
        exists t. split; [apply copy_out_fits|]; lia.
Qed.

Lemma decode_well_formed_succeeds_witness :
  (exists text,
      decode_cidr [5; 1; 168; 192; 24; 2; 2; 0] 8 64 = Some text
      /\ strlen text < 64)
  /\ (exists text,
      decode_inet [5; 1; 168; 192; 24; 2; 2; 0] 8 64 = Some text
      /\ strlen text < 64)
  /\ decode_cidr [5; 1; 168; 192; 24; 2; 2] 7 64 = None
  /\ decode_inet [5; 1; 168; 192; 24; 2; 2] 7 64 = None.
Proof.
  apply (decode_well_formed_succeeds [5; 1; 168; 192; 24; 2; 2; 0] 64);
    [reflexivity | lia].
Defined.

(* ================================================================= *)
(** ** Hardware addresses: comparison and truncation *)

Lemma memcmp_sign_lex (n : nat) (a b : list Z) :
  List.length a = n -> List.length b = n ->
  (let result := memcmp (firstn n a) (firstn n b) n in
   if result =? 0 then 0 else if result <? 0 then -1 else 1) = lex_cmp a b.
Proof.
  intros La Lb. cbv zeta.
  rewrite (firstn_all2 a), (firstn_all2 b) by lia.
  apply memcmp_lex; assumption.
Qed.

(** [cmp_macaddr] orders the 6-byte addresses totally, byte by byte from the
    first: it is reflexive, antisymmetric and transitive, and two addresses
    compare equal exactly when they are the same bytes. *)
Theorem cmp_macaddr_total_order (a b c : list Z) :
  List.length a = 6%nat -> List.length b = 6%nat -> List.length c = 6%nat ->
  cmp_macaddr a 6 a 6 = 0
  /\ cmp_macaddr b 6 a 6 = - cmp_macaddr a 6 b 6
  /\ (cmp_macaddr a 6 b 6 <= 0 -> cmp_macaddr b 6 c 6 <= 0 ->
      cmp_macaddr a 6 c 6 <= 0)
  /\ (cmp_macaddr a 6 b 6 = 0 <-> a = b)
  /\ cmp_macaddr a 6 b 6 = lex_cmp a b.
Proof.
  intros La Lb Lc. unfold cmp_macaddr.
  rewrite !(memcmp_sign_lex 6) by assumption.
  repeat split.
  - apply lex_cmp_refl.
  - apply lex_cmp_antisym.
  - apply lex_cmp_trans.
  - apply lex_cmp_eq.
  - intros ->. apply lex_cmp_refl.
Qed.

Lemma cmp_macaddr_total_order_witness :
  cmp_macaddr [8; 0; 43; 1; 2; 3] 6 [8; 0; 43; 1; 2; 3] 6 = 0
  /\ cmp_macaddr [8; 0; 43; 1; 2; 4] 6 [8; 0; 43; 1; 2; 3] 6
     = - cmp_macaddr [8; 0; 43; 1; 2; 3] 6 [8; 0; 43; 1; 2; 4] 6
  /\ (cmp_macaddr [8; 0; 43; 1; 2; 3] 6 [8; 0; 43; 1; 2; 4] 6 <= 0 ->
      cmp_macaddr [8; 0; 43; 1; 2; 4] 6 [9; 0; 0; 0; 0; 0] 6 <= 0 ->
      cmp_macaddr [8; 0; 43; 1; 2; 3] 6 [9; 0; 0; 0; 0; 0] 6 <= 0)
  /\ (cmp_macaddr [8; 0; 43; 1; 2; 3] 6 [8; 0; 43; 1; 2; 4] 6 = 0
      <-> [8; 0; 43; 1; 2; 3] = [8; 0; 43; 1; 2; 4])
  /\ cmp_macaddr [8; 0; 43; 1; 2; 3] 6 [8; 0; 43; 1; 2; 4] 6
     = lex_cmp [8; 0; 43; 1; 2; 3] [8; 0; 43; 1; 2; 4].
Proof.
  apply (cmp_macaddr_total_order [8; 0; 43; 1; 2; 3] [8; 0; 43; 1; 2; 4]
           [9; 0; 0; 0; 0; 0]); reflexivity.
Defined.

(** [cmp_macaddr8] orders the 8-byte addresses totally in the same way. *)
Theorem cmp_macaddr8_total_order (a b c : list Z) :
  List.length a = 8%nat -> List.length b = 8%nat -> List.length c = 8%nat ->
  cmp_macaddr8 a 8 a 8 = 0
  /\ cmp_macaddr8 b 8 a 8 = - cmp_macaddr8 a 8 b 8
  /\ (cmp_macaddr8 a 8 b 8 <= 0 -> cmp_macaddr8 b 8 c 8 <= 0 ->
      cmp_macaddr8 a 8 c 8 <= 0)
  /\ (cmp_macaddr8 a 8 b 8 = 0 <-> a = b)
  /\ cmp_macaddr8 a 8 b 8 = lex_cmp a b.
Proof.
  intros La Lb Lc. unfold cmp_macaddr8.
  rewrite !(memcmp_sign_lex 8) by assumption.
  repeat split.
  - apply lex_cmp_refl.
  - apply lex_cmp_antisym.
  - apply lex_cmp_trans.
  - apply lex_cmp_eq.
  - intros ->. apply lex_cmp_refl.
Qed.

Lemma cmp_macaddr8_total_order_witness :
  cmp_macaddr8 [8; 0; 43; 1; 2; 3; 4; 5] 8 [8; 0; 43; 1; 2; 3; 4; 5] 8 = 0
  /\ cmp_macaddr8 [8; 0; 43; 1; 2; 3; 4; 6] 8 [8; 0; 43; 1; 2; 3; 4; 5] 8
     = - cmp_macaddr8 [8; 0; 43; 1; 2; 3; 4; 5] 8 [8; 0; 43; 1; 2; 3; 4; 6] 8
  /\ (cmp_macaddr8 [8; 0; 43; 1; 2; 3; 4; 5] 8 [8; 0; 43; 1; 2; 3; 4; 6] 8 <= 0 ->
      cmp_macaddr8 [8; 0; 43; 1; 2; 3; 4; 6] 8 [9; 0; 0; 0; 0; 0; 0; 0] 8 <= 0 ->
      cmp_macaddr8 [8; 0; 43; 1; 2; 3; 4; 5] 8 [9; 0; 0; 0; 0; 0; 0; 0] 8 <= 0)
  /\ (cmp_macaddr8 [8; 0; 43; 1; 2; 3; 4; 5] 8 [8; 0; 43; 1; 2; 3; 4; 6] 8 = 0
      <-> [8; 0; 43; 1; 2; 3; 4; 5] = [8; 0; 43; 1; 2; 3; 4; 6])
  /\ cmp_macaddr8 [8; 0; 43; 1; 2; 3; 4; 5] 8 [8; 0; 43; 1; 2; 3; 4; 6] 8
     = lex_cmp [8; 0; 43; 1; 2; 3; 4; 5] [8; 0; 43; 1; 2; 3; 4; 6].
Proof.
  apply (cmp_macaddr8_total_order [8; 0; 43; 1; 2; 3; 4; 5]
           [8; 0; 43; 1; 2; 3; 4; 6] [9; 0; 0; 0; 0; 0; 0; 0]); reflexivity.
Defined.

(** [macaddr_trunc] on a buffer of at least 6 bytes writes 6 bytes: the first
    three of the input followed by three zeros. It does so for an 8-byte
    record too (no error), and truncating again changes nothing. *)
Theorem macaddr_trunc_keeps_oui (buffer : list Z) :
  (6 <= List.length buffer)%nat ->
  exists out,
    macaddr_trunc buffer (size buffer) = Written out
    /\ List.length out = 6%nat
    /\ firstn 3 out = firstn 3 buffer
    /\ skipn 3 out = [0; 0; 0]
    /\ macaddr_trunc out (size out) = Written out.
Proof.
  intros L. unfold macaddr_trunc, sizeof_MacAddr, size.
  assert ((Z.of_nat (List.length buffer) <? 6) = false) as -> by lia.
  do 6 (destruct buffer as [|? buffer]; [simpl in L; lia|]).
  eexists. split; [reflexivity|]. cbn. repeat split.
Qed.

Lemma macaddr_trunc_keeps_oui_witness :
  exists out,
    macaddr_trunc [8; 0; 43; 1; 2; 3; 4; 5] (size [8; 0; 43; 1; 2; 3; 4; 5])
    = Written out
    /\ List.length out = 6%nat
    /\ firstn 3 out = firstn 3 [8; 0; 43; 1; 2; 3; 4; 5]
    /\ skipn 3 out = [0; 0; 0]
    /\ macaddr_trunc out (size out) = Written out.
Proof.
  apply (macaddr_trunc_keeps_oui [8; 0; 43; 1; 2; 3; 4; 5]). simpl. lia.
Defined.

(* ================================================================= *)
(** ** Hardware addresses: parsing *)

Lemma xdigit_tolower (c : ascii) :
  isxdigit c = true ->
  is_lower_hex (tolower c) = true /\ hexval (tolower c) = hexval c.
Proof.
  destruct c as [b0 b1 b2 b3 b4 b5 b6 b7].
  destruct b0, b1, b2, b3, b4, b5, b6, b7; vm_compute; intros H;
    try discriminate H; split; reflexivity.
Qed.

Lemma separator_not_xdigit (c : ascii) :
  is_mac_separator c = true -> isxdigit c = false.
Proof.
  destruct c as [b0 b1 b2 b3 b4 b5 b6 b7].
  destruct b0, b1, b2, b3, b4, b5, b6, b7; vm_compute; intros H;
    try discriminate H; reflexivity.
Qed.

Lemma lower_hex_is_hex_digit (c : ascii) :
  is_lower_hex c = true -> c = hex_digit (hexval c) /\ 0 <= hexval c < 16.
Proof.
  destruct c as [b0 b1 b2 b3 b4 b5 b6 b7].
  destruct b0, b1, b2, b3, b4, b5, b6, b7; vm_compute; intros H;
    try discriminate H; repeat split; intros; discriminate.
Qed.

Lemma sscanf_02x_hex_digits (h l : Z) :
  0 <= h < 16 -> 0 <= l < 16 ->
  sscanf_02x [hex_digit h; hex_digit l] = Some (16 * h + l).
Proof.
  intros Hh Hl.
  assert (A : forallb (fun p =>
                forallb (fun q =>
                  match sscanf_02x [hex_digit p; hex_digit q] with
                  | Some v => v =? 16 * p + q
                  | None => false
                  end) (map Z.of_nat (seq 0 16))) (map Z.of_nat (seq 0 16)) = true)
    by (vm_compute; reflexivity).
  pose proof (forallb_range _ _ _ A h ltac:(lia)) as B. cbv beta in B.
  pose proof (forallb_range _ _ _ B l ltac:(lia)) as C. cbv beta in C.
  destruct (sscanf_02x [hex_digit h; hex_digit l]); [|discriminate].
  apply Z.eqb_eq in C. congruence.
Qed.

Lemma sscanf_02x_lower_hex (c d : ascii) :
  is_lower_hex c = true -> is_lower_hex d = true ->
  sscanf_02x [c; d] = Some (16 * hexval c + hexval d).
Proof.
  intros Hc Hd.
  destruct (lower_hex_is_hex_digit c Hc) as [Ec Rc].
  destruct (lower_hex_is_hex_digit d Hd) as [Ed Rd].
  rewrite Ec at 1. rewrite Ed at 1. apply sscanf_02x_hex_digits; assumption.
Qed.

(** The cleaning loop keeps the hex digits, in lower case, and fails on any
    character that is neither a hex digit nor a separator. *)
Lemma clean_mac_spec (s cleaned : cstring) :
  clean_mac s cleaned =
    if mac_chars_ok s then Some (cleaned ++ map tolower (hex_digits s)) else None.
Proof.
  revert cleaned. induction s as [|ch r IH]; intros cleaned.
  - simpl. rewrite app_nil_r. reflexivity.
  - unfold mac_chars_ok, hex_digits in *. simpl.
    destruct (isxdigit ch) eqn:X; simpl.
    + rewrite IH. destruct (forallb _ r); [|reflexivity].
      rewrite <- app_assoc. reflexivity.
    + destruct (is_mac_separator ch); simpl; [apply IH | reflexivity].
Qed.

Lemma pair_values_tolower (ds : cstring) :
  forallb isxdigit ds = true ->
  pair_values (map tolower ds) = pair_values ds.
Proof.
  assert (G : forall n ds, (List.length ds <= n)%nat ->
                forallb isxdigit ds = true ->
                pair_values (map tolower ds) = pair_values ds).
  { induction n as [|n IH]; intros [|c [|d r]] L H; simpl in *; auto; try lia.
    apply andb_prop in H. destruct H as [Hc H].
    apply andb_prop in H. destruct H as [Hd H].
    rewrite (proj2 (xdigit_tolower c Hc)), (proj2 (xdigit_tolower d Hd)).
    f_equal. apply IH; [lia | exact H]. }
  apply (G (List.length ds)). lia.
Qed.

Lemma forallb_lower_hex_skipn (k : nat) (c : cstring) :
  forallb is_lower_hex c = true -> forallb is_lower_hex (skipn k c) = true.
Proof.
  revert c. induction k as [|k IH]; intros [|x r] H; simpl in *; auto.
  apply andb_prop in H. apply IH. apply H.
Qed.

(** The conversion loop, from byte index [k] on, yields the values of the
    pairs of digits from position [2 * k] on. *)
Lemma mac_bytes_spec (m k : nat) (c : cstring) :
  forallb is_lower_hex c = true ->
  List.length c = (2 * (k + m))%nat ->
  mac_bytes c (seq k m) = Some (pair_values (skipn (2 * k) c)).
Proof.
  revert k. induction m as [|m IH]; intros k H L.
  - simpl. rewrite skipn_all2 by lia. reflexivity.
  - simpl seq. simpl mac_bytes. unfold substr2.
    replace (k * 2)%nat with (2 * k)%nat by lia.
    pose proof (forallb_lower_hex_skipn (2 * k) c H) as Hs.
    assert (Ls : List.length (skipn (2 * k) c) = (2 + 2 * m)%nat)
      by (rewrite length_skipn; lia).
    assert (E : skipn (2 * S k) c = skipn 2 (skipn (2 * k) c)).
    { rewrite skipn_skipn. f_equal. lia. }
    rewrite (IH (S k) H) by lia. rewrite E.
    destruct (skipn (2 * k) c) as [|x [|y t]]; simpl in Ls; try lia.
    simpl in Hs. apply andb_prop in Hs. destruct Hs as [Hx Hs].
    apply andb_prop in Hs. destruct Hs as [Hy Hs].
    cbn [firstn skipn].
    rewrite (sscanf_02x_lower_hex x y Hx Hy). cbn [bind pair_values].
    destruct (lower_hex_is_hex_digit x Hx) as [_ Rx].
    destruct (lower_hex_is_hex_digit y Hy) as [_ Ry].
    change 255 with (Z.ones 8). rewrite Z.land_ones by lia.
    rewrite Z.mod_small by (change (2 ^ 8) with 256; lia).
    reflexivity.
Qed.

Lemma parse_mac_address_eq (mac_str : cstring) (expected_bytes : nat) :
  parse_mac_address mac_str expected_bytes =
    if mac_chars_ok mac_str
       && (List.length (hex_digits mac_str) =? expected_bytes * 2)%nat
    then Some (pair_values (hex_digits mac_str))
    else None.
Proof.
  unfold parse_mac_address. rewrite clean_mac_spec.
  destruct (mac_chars_ok mac_str); [|reflexivity].
  cbn [bind app andb]. rewrite length_map.
  destruct (Nat.eqb_spec (List.length (hex_digits mac_str)) (expected_bytes * 2))
    as [L|L]; [|reflexivity].
  cbn [negb].
  assert (X : forallb isxdigit (hex_digits mac_str) = true).
  { apply forallb_forall. intros c Hc. unfold hex_digits in Hc.
    apply filter_In in Hc. apply Hc. }
  rewrite (mac_bytes_spec expected_bytes 0).
  - change (2 * 0)%nat with 0%nat. cbn [skipn].
    rewrite pair_values_tolower by exact X. reflexivity.
  - apply forallb_forall. intros c Hc. apply in_map_iff in Hc.
    destruct Hc as (c0 & <- & Hc0).
    apply xdigit_tolower. rewrite forallb_forall in X. apply X. exact Hc0.
  - rewrite length_map. lia.
Qed.

(** [parse_mac_address] accepts a text exactly when every character is a hex
    digit or one of the separators ':', '-', '.' and the number of hex digits is
    twice the number of bytes; the separators may stand anywhere. The bytes
    are then the values of the consecutive pairs of hex digits, upper or lower
    case, the more significant digit first. *)
Theorem parse_mac_address_spec (mac_str : cstring) (expected_bytes : nat) :
  parse_mac_address mac_str expected_bytes =
    if mac_chars_ok mac_str
       && (List.length (hex_digits mac_str) =? expected_bytes * 2)%nat
    then Some (pair_values (hex_digits mac_str))
    else None.
Proof. apply parse_mac_address_eq. Qed.

(** A separator added anywhere in the text of a hardware address changes
    nothing, and neither does the case of the hex digits. *)
Theorem parse_mac_address_separators_and_case
  (s1 s2 : cstring) (sep : ascii) (expected_bytes : nat) :
  is_mac_separator sep = true ->
  parse_mac_address (s1 ++ sep :: s2) expected_bytes
  = parse_mac_address (s1 ++ s2) expected_bytes
  /\ parse_mac_address (map tolower (s1 ++ s2)) expected_bytes
     = parse_mac_address (s1 ++ s2) expected_bytes.
Proof.
  intros Hs. rewrite !parse_mac_address_eq. split.
  - unfold mac_chars_ok, hex_digits. rewrite !forallb_app, !filter_app.
    cbn [forallb filter]. rewrite (separator_not_xdigit sep Hs), Hs.
    cbn [orb andb]. reflexivity.
  - generalize (s1 ++ s2). intros s.
    assert (A : forall c, isxdigit (tolower c) = isxdigit c
                          /\ is_mac_separator (tolower c) = is_mac_separator c
                          /\ hexval (tolower c) = hexval c).
    { intros c. destruct c as [b0 b1 b2 b3 b4 b5 b6 b7].
      destruct b0, b1, b2, b3, b4, b5, b6, b7; vm_compute; repeat split. }
    assert (O : mac_chars_ok (map tolower s) = mac_chars_ok s).
    { unfold mac_chars_ok. induction s as [|c r IH]; simpl; auto.
      destruct (A c) as (-> & -> & _). rewrite IH. reflexivity. }
    assert (H : hex_digits (map tolower s) = map tolower (hex_digits s)).
    { clear O. unfold hex_digits. induction s as [|c r IH]; simpl; auto.
      destruct (A c) as (-> & _ & _). destruct (isxdigit c); simpl;
        rewrite IH; reflexivity. }
    rewrite O, H, length_map.
    rewrite pair_values_tolower; [reflexivity|].
    apply forallb_forall. intros c Hc. unfold hex_digits in Hc.
    apply filter_In in Hc. apply Hc.
Qed.

Lemma parse_mac_address_separators_and_case_witness :
  parse_mac_address (lit "08002B" ++ "-"%char :: lit "010203") 6
  = parse_mac_address (lit "08002B" ++ lit "010203") 6
  /\ parse_mac_address (map tolower (lit "08002B" ++ lit "010203")) 6
     = parse_mac_address (lit "08002B" ++ lit "010203") 6.
Proof.
  apply (parse_mac_address_separators_and_case (lit "08002B") (lit "010203")
           "-"%char 6). reflexivity.
Defined.

(* ================================================================= *)
(** ** Hardware addresses: round trip *)

Lemma fmt_02x_byte (b : Z) :
  0 <= b < 256 ->
  forallb isxdigit (fmt_02x b) = true
  /\ forallb (fun c => negb (Ascii.eqb c NUL)) (fmt_02x b) = true
  /\ pair_values (fmt_02x b) = [b].
Proof.
  intros H.
  assert (A : forallb (fun q =>
                forallb isxdigit (fmt_02x q)
                && forallb (fun c => negb (Ascii.eqb c NUL)) (fmt_02x q)
                && (16 * hexval (hex_digit (q / 16)) + hexval (hex_digit (q mod 16))
                    =? q)) (map Z.of_nat (seq 0 256)) = true)
    by (vm_compute; reflexivity).
  pose proof (forallb_range _ _ _ A b ltac:(lia)) as B. cbv beta in B.
  apply andb_prop in B. destruct B as [B B3].
  apply andb_prop in B. destruct B as [B1 B2].
  split; [exact B1|]. split; [exact B2|].
  apply Z.eqb_eq in B3.
  change (pair_values (fmt_02x b))
    with [16 * hexval (hex_digit (b / 16)) + hexval (hex_digit (b mod 16))].
  f_equal. exact B3.
Qed.

Lemma c_str_app (a b : cstring) :
  forallb (fun c => negb (Ascii.eqb c NUL)) a = true ->
  c_str (a ++ b) = a ++ c_str b.
Proof.
  induction a as [|x r IH]; intros H; simpl in *; auto.
  apply andb_prop in H. destruct H as [Hx H].
  destruct (Ascii.eqb x NUL); [discriminate|]. rewrite IH by exact H. reflexivity.
Qed.

Lemma hex_digits_all (l : cstring) :
  forallb isxdigit l = true -> hex_digits l = l.
Proof.
  unfold hex_digits. induction l as [|x r IH]; intros H; simpl in *; auto.
  apply andb_prop in H. destruct H as [-> H]. rewrite IH by exact H. reflexivity.
Qed.

Lemma mac_chars_ok_xdigits (l : cstring) :
  forallb isxdigit l = true -> mac_chars_ok l = true.
Proof.
  unfold mac_chars_ok. induction l as [|x r IH]; intros H; simpl in *; auto.
  apply andb_prop in H. destruct H as [-> H]. rewrite IH by exact H. reflexivity.
Qed.

(** The text of a hardware address holds no NUL, only hex digits and
    colons, and its hex digits spell the bytes back. *)
Lemma mac_text_facts (bytes : list Z) :
  forallb is_byte bytes = true ->
  c_str (mac_text bytes) = mac_text bytes
  /\ mac_chars_ok (mac_text bytes) = true
  /\ List.length (hex_digits (mac_text bytes)) = (List.length bytes * 2)%nat
  /\ pair_values (hex_digits (mac_text bytes)) = bytes.
Proof.
  induction bytes as [|b r IH]; intros H.
  - repeat split.
  - simpl in H. apply andb_prop in H. destruct H as [Hb Hr].
    assert (Rb : 0 <= b < 256) by (unfold is_byte in Hb; lia).
    destruct (fmt_02x_byte b Rb) as (X & N & P).
    specialize (IH Hr). destruct IH as (I1 & I2 & I3 & I4).
    destruct r as [|b' r'].
    + cbn [mac_text List.length Nat.mul Nat.add].
      rewrite (hex_digits_all _ X). repeat split.
      * assert (C := c_str_app (fmt_02x b) [] N).
        change (c_str []) with (@nil ascii) in C.
        rewrite !app_nil_r in C. exact C.
      * apply mac_chars_ok_xdigits. exact X.
      * exact P.
    + change (mac_text (b :: b' :: r'))
        with (fmt_02x b ++ colon ++ mac_text (b' :: r')).
      unfold hex_digits in *. unfold mac_chars_ok in *.
      rewrite !filter_app, !forallb_app.
      fold (hex_digits (fmt_02x b)). rewrite (hex_digits_all _ X).
      fold (mac_chars_ok (fmt_02x b)). rewrite (mac_chars_ok_xdigits _ X).
      change (filter isxdigit colon) with (@nil ascii).
      change (forallb (fun c => isxdigit c || is_mac_separator c) colon) with true.
      cbn [app andb]. repeat split.
      * rewrite c_str_app by exact N.
        change (c_str (colon ++ mac_text (b' :: r')))
          with (colon ++ c_str (mac_text (b' :: r'))).
        rewrite I1. reflexivity.
      * exact I2.
      * rewrite length_app, I3. simpl. lia.
      * change (fmt_02x b) with [hex_digit (b / 16); hex_digit (b mod 16)] in *.
        cbn [app pair_values]. cbn [pair_values] in P.
        rewrite I4. congruence.
Qed.

(** Parsing the text of a hardware address gives its bytes back. *)
Lemma parse_mac_text (bytes : list Z) :
  forallb is_byte bytes = true ->
  parse_mac_address (mac_text bytes) (List.length bytes) = Some bytes.
Proof.
  intros H. destruct (mac_text_facts bytes H) as (_ & O & L & P).
  rewrite parse_mac_address_eq, O, L, Nat.eqb_refl, P. reflexivity.
Qed.

(** Round trip of the 6-byte hardware address: [decode_macaddr] renders a
    record as its six bytes in two lower-case hex digits each, separated by
    colons, and [encode_macaddr] reads that text back into the same record. *)
Theorem macaddr_round_trip (mac : list Z) (buffer_size to_size : Z) :
  List.length mac = 6%nat -> forallb is_byte mac = true ->
  sizeof_MacAddr <= buffer_size -> 18 <= to_size ->
  decode_macaddr mac (size mac) to_size = Some (mac_text mac)
  /\ encode_macaddr buffer_size (string_of_list_ascii (mac_text mac)) = Written mac.
Proof.
  intros L B Hb Ht. unfold sizeof_MacAddr in Hb. split.
  - unfold decode_macaddr, size, sizeof_MacAddr. rewrite L.
    change (Z.of_nat 6 <? 6) with false. cbv iota.
    rewrite firstn_all2 by lia. clear B.
    explode_list mac L.
    change (format_mac_address [z; z0; z1; z2; z3; z4] (kMaxMacAddrString + 1) 6)
      with (mac_text [z; z0; z1; z2; z3; z4]).
    apply copy_out_fits. change (strlen (mac_text [z; z0; z1; z2; z3; z4])) with 17.
    lia.
  - unfold encode_macaddr, from_c_str, sizeof_MacAddr.
    assert ((buffer_size <? 6) = false) as -> by lia.
    rewrite list_ascii_of_string_of_list_ascii.
    rewrite (proj1 (mac_text_facts mac B)).
    change 6%nat with (List.length mac) at 1 || rewrite <- L.
    rewrite (parse_mac_text mac B). reflexivity.
Qed.

Lemma macaddr_round_trip_witness :
  decode_macaddr [8; 0; 43; 1; 2; 3] (size [8; 0; 43; 1; 2; 3]) 32
  = Some (mac_text [8; 0; 43; 1; 2; 3])
  /\ encode_macaddr 6 (string_of_list_ascii (mac_text [8; 0; 43; 1; 2; 3]))
     = Written [8; 0; 43; 1; 2; 3].
Proof.
  apply (macaddr_round_trip [8; 0; 43; 1; 2; 3] 6 32);
    try reflexivity; unfold sizeof_MacAddr; lia.
Defined.

(** Round trip of the 8-byte hardware address. *)
Theorem macaddr8_round_trip (mac8 : list Z) (buffer_size to_size : Z) :
  List.length mac8 = 8%nat -> forallb is_byte mac8 = true ->
  sizeof_MacAddr8 <= buffer_size -> 24 <= to_size ->
  decode_macaddr8 mac8 (size mac8) to_size = Some (mac_text mac8)
  /\ encode_macaddr8 buffer_size (string_of_list_ascii (mac_text mac8)) = Written mac8.
Proof.
  intros L B Hb Ht. unfold sizeof_MacAddr8 in Hb. split.
  - unfold decode_macaddr8, size, sizeof_MacAddr8. rewrite L.
    change (Z.of_nat 8 <? 8) with false. cbv iota.
    rewrite firstn_all2 by lia. clear B.
    explode_list mac8 L.
    change (format_mac_address [z; z0; z1; z2; z3; z4; z5; z6]
              (kMaxMacAddr8String + 1) 8)
      with (mac_text [z; z0; z1; z2; z3; z4; z5; z6]).
    apply copy_out_fits.
    change (strlen (mac_text [z; z0; z1; z2; z3; z4; z5; z6])) with 23. lia.
  - unfold encode_macaddr8, from_c_str, sizeof_MacAddr8.
    assert ((buffer_size <? 8) = false) as -> by lia.
    rewrite list_ascii_of_string_of_list_ascii.
    rewrite (proj1 (mac_text_facts mac8 B)).
    rewrite <- L.
    rewrite (parse_mac_text mac8 B). reflexivity.
Qed.

Lemma macaddr8_round_trip_witness :
  decode_macaddr8 [8; 0; 43; 1; 2; 3; 4; 255] (size [8; 0; 43; 1; 2; 3; 4; 255]) 32
  = Some (mac_text [8; 0; 43; 1; 2; 3; 4; 255])
  /\ encode_macaddr8 8 (string_of_list_ascii (mac_text [8; 0; 43; 1; 2; 3; 4; 255]))
     = Written [8; 0; 43; 1; 2; 3; 4; 255].
Proof.
  apply (macaddr8_round_trip [8; 0; 43; 1; 2; 3; 4; 255] 8 32);
    try reflexivity; unfold sizeof_MacAddr8; lia.
Defined.

(* ================================================================= *)
(** ** Records the encoders build *)

Lemma land_255_range (x : Z) : 0 <= Z.land x 255 < 256.
Proof.
  change 255 with (Z.ones 8). rewrite Z.land_ones by lia.
  change (2 ^ 8) with 256. apply Z.mod_pos_bound. lia.
Qed.

Lemma is_byte_land_255 (x : Z) : is_byte (Z.land x 255) = true.
Proof. pose proof (land_255_range x). unfold is_byte. lia. Qed.

Lemma well_formed_ipv4_bytes (address prefix_len flags pad : Z) :
  0 <= prefix_len <= 32 -> is_byte flags = true -> is_byte pad = true ->
  well_formed_ipv4
    (bytes_of_IPv4Network (mkIPv4Network address prefix_len AF_INET_VAL flags) pad)
  = true.
Proof.
  intros Hp Hf Hpad. unfold well_formed_ipv4, bytes_of_IPv4Network, bytes_of_u32.
  cbn [v4_address v4_netmask v4_family v4_flags app].
  change (size _) with 8. unfold byte_at. cbn [nth forallb].
  rewrite !is_byte_land_255, Hf, Hpad.
  unfold sizeof_IPv4Network, AF_INET_VAL, IPV4_MAX_PREFIXLEN, is_byte.
  assert ((prefix_len <=? 32) = true) as -> by lia.
  assert (((0 <=? prefix_len) && (prefix_len <? 256)) = true) as -> by lia.
  reflexivity.
Qed.

Lemma well_formed_ipv6_bytes (address : list Z) (prefix_len flags : Z) :
  List.length address = 16%nat -> forallb is_byte address = true ->
  0 <= prefix_len <= 128 -> is_byte flags = true ->
  well_formed_ipv6
    (bytes_of_IPv6Network (mkIPv6Network address prefix_len AF_INET6_VAL flags)) = true.
Proof.
  intros L B Hp Hf. unfold well_formed_ipv6, bytes_of_IPv6Network.
  cbn [v6_address v6_netmask v6_family v6_flags].
  rewrite firstn_all2 by lia.
  unfold size. rewrite length_app, L. rewrite forallb_app, B.
  unfold byte_at. rewrite !app_nth2 by lia. rewrite L.
  cbn [forallb Nat.sub nth List.length Nat.add]. rewrite Hf.
  unfold sizeof_IPv6Network, AF_INET6_VAL, IPV6_MAX_PREFIXLEN, is_byte.
  assert ((prefix_len <=? 128) = true) as -> by lia.
  assert (((0 <=? prefix_len) && (prefix_len <? 256)) = true) as -> by lia.
  reflexivity.
Qed.

Lemma length_upd (i : nat) (v : Z) (a : list Z) :
  List.length (upd i v a) = List.length a.
Proof.
  revert i. induction a as [|h t IH]; intros [|j]; simpl; auto.
Qed.

Lemma forallb_is_byte_upd (i : nat) (v : Z) (a : list Z) :
  is_byte v = true -> forallb is_byte a = true ->
  forallb is_byte (upd i v a) = true.
Proof.
  intros Hv. revert i. induction a as [|h t IH]; intros [|j] H; simpl in *; auto.
  - apply andb_prop in H. destruct H as [_ H]. rewrite Hv, H. reflexivity.
  - apply andb_prop in H. destruct H as [-> H]. rewrite IH by exact H. reflexivity.
Qed.

Lemma store_groups_bytes (vals : list Z) (address : list Z) (i : nat) :
  forallb is_byte address = true ->
  List.length (store_groups address i vals) = List.length address
  /\ forallb is_byte (store_groups address i vals) = true.
Proof.
  revert address i. induction vals as [|v r IH]; intros address i H; simpl.
  - split; [reflexivity | exact H].
  - destruct (IH (upd (i * 2 + 1) (Z.land v 255)
                    (upd (i * 2) (Z.land (Z.shiftr v 8) 255) address)) (S i))
      as [L B].
    + apply forallb_is_byte_upd; [apply is_byte_land_255|].
      apply forallb_is_byte_upd; [apply is_byte_land_255 | exact H].
    + rewrite L, !length_upd. split; [reflexivity | exact B].
Qed.

(** What [parse_ipv6_address] returns is 16 bytes. *)
Lemma parse_ipv6_address_bytes (addr_str : cstring) (address : list Z) :
  parse_ipv6_address addr_str = Some address ->
  List.length address = 16%nat /\ forallb is_byte address = true.
Proof.
  unfold parse_ipv6_address.
  assert (Z16 : forallb is_byte (repeat 0 16) = true) by reflexivity.
  destruct (strstr_double_colon addr_str) as [[left_str right_start]|].
  - destruct (match left_str with [] => Some [] | _ :: _ => _ end)
      as [left_values|]; [|discriminate].
    cbn [bind].
    destruct (match right_start with [] => Some [] | _ :: _ => _ end)
      as [right_values|]; [|discriminate].
    cbn [bind].
    destruct (7 <? _)%nat; [discriminate|].
    intros H.
    assert (E : store_groups (store_groups (repeat 0 16) 0 left_values)
                  (8 - List.length right_values) right_values = address)
      by congruence.
    rewrite <- E. clear H E.
    destruct (store_groups_bytes left_values (repeat 0 16) 0 Z16) as [L1 B1].
    destruct (store_groups_bytes right_values
                (store_groups (repeat 0 16) 0 left_values)
                (8 - List.length right_values) B1) as [L2 B2].
    rewrite L2, L1. split; [reflexivity | exact B2].
  - destruct (parse_groups 8 addr_str []) as [parts|]; [|discriminate].
    cbn [bind]. destruct (negb _); [discriminate|].
    intros H.
    assert (E : store_groups (repeat 0 16) 0 parts = address) by congruence.
    rewrite <- E. clear H E.
    destruct (store_groups_bytes parts (repeat 0 16) 0 Z16) as [L1 B1].
    rewrite L1. split; [reflexivity | exact B1].
Qed.

(** Every record [encode_inet] builds is well formed and carries the
    permissive tag: 8 or 19 bytes, the family tag of its width, a prefix length
    in range for the family; the eighth byte of an IPv4 record is the padding
    byte of the local. *)
Theorem encode_inet_well_formed (pad buffer_size : Z) (from : string) (r : list Z) :
  is_byte pad = true ->
  encode_inet pad buffer_size from = Written r ->
  well_formed r = true /\ flags_of r = ADDR_FLAG_INET
  /\ (size r = 8 /\ byte_at r 7 = pad \/ size r = 19).
Proof.
  intros Hpad.
  unfold encode_inet, IPV4_MAX_PREFIXLEN, IPV6_MAX_PREFIXLEN.
  destruct (buffer_size <? sizeof_IPv4Network); [discriminate|].
  destruct (match sscanf_addr_netmask (from_c_str from) with
            | Scanned2 addr_str netmask => (addr_str, netmask)
            | _ => (strncpy63 (from_c_str from), -1)
            end) as [addr_str netmask].
  destruct (parse_ipv4_address addr_str) as [address|].
  - cbv zeta.
    set (n := if netmask =? -1 then 32 else netmask).
    destruct ((n <? 0) || (n >? 32)) eqn:R; [discriminate|].
    intros H. injection H as <-.
    rewrite (u8_small n) by lia. split; [|split].
    + unfold well_formed.
      rewrite well_formed_ipv4_bytes; [reflexivity|lia|reflexivity|exact Hpad].
    + reflexivity.
    + left. split; reflexivity.
  - destruct (buffer_size <? sizeof_IPv6Network); [discriminate|].
    destruct (parse_ipv6_address addr_str) as [address|] eqn:P; [|discriminate].
    cbv zeta.
    set (n := if netmask =? -1 then 128 else netmask).
    destruct ((n <? 0) || (n >? 128)) eqn:R; [discriminate|].
    intros H. injection H as <-.
    rewrite (u8_small n) by lia.
    destruct (parse_ipv6_address_bytes _ _ P) as [L B]. split; [|split].
    + unfold well_formed.
      rewrite (well_formed_ipv6_bytes address n ADDR_FLAG_INET L B);
        [apply orb_true_r | lia | reflexivity].
    + unfold flags_of, bytes_of_IPv6Network, size.
      cbn [v6_address v6_netmask v6_family v6_flags].
      rewrite firstn_all2 by lia. rewrite length_app, L.
      change (Z.of_nat (16 + List.length [n; AF_INET6_VAL; ADDR_FLAG_INET])
              =? sizeof_IPv4Network) with false. cbv iota.
      unfold IPv6Network_of_bytes, v6_flags, byte_at.
      rewrite app_nth2 by lia. rewrite L. reflexivity.
    + right. unfold bytes_of_IPv6Network, size.
      cbn [v6_address v6_netmask v6_family v6_flags].
      rewrite firstn_all2 by lia. rewrite length_app, L. reflexivity.
Qed.

Lemma encode_inet_well_formed_witness :
  well_formed [5; 1; 168; 192; 24; 2; 2; 170] = true
  /\ flags_of [5; 1; 168; 192; 24; 2; 2; 170] = ADDR_FLAG_INET
  /\ (size [5; 1; 168; 192; 24; 2; 2; 170] = 8
      /\ byte_at [5; 1; 168; 192; 24; 2; 2; 170] 7 = 170
      \/ size [5; 1; 168; 192; 24; 2; 2; 170] = 19).
Proof.
  apply (encode_inet_well_formed 170 19 "192.168.1.5/24").
  - reflexivity.
  - vm_compute. reflexivity.
Defined.

(** Every record [encode_cidr] builds is well formed and carries the strict
    tag: 8 or 19 bytes, the family tag of its width, a prefix length in range
    for the family; the eighth byte of an IPv4 record is the padding byte of
    the local. *)
Theorem encode_cidr_well_formed (pad buffer_size : Z) (from : string) (r : list Z) :
  is_byte pad = true ->
  encode_cidr pad buffer_size from = Written r ->
  well_formed r = true /\ flags_of r = ADDR_FLAG_CIDR
  /\ (size r = 8 /\ byte_at r 7 = pad \/ size r = 19).
Proof.
  intros Hpad.
  unfold encode_cidr, IPV4_MAX_PREFIXLEN, IPV6_MAX_PREFIXLEN.
  destruct (buffer_size <? sizeof_IPv4Network); [discriminate|].
  destruct (sscanf_addr_netmask (from_c_str from)) as [|?|addr_str n];
    try discriminate.
  destruct (parse_ipv4_address addr_str) as [address|].
  - destruct ((n <? 0) || (n >? 32)) eqn:R; [discriminate|].
    cbv zeta. destruct (validate_cidr_network _ _) as [[|]|]; try discriminate.
    intros H. injection H as <-.
    rewrite (u8_small n) by lia. split; [|split].
    + unfold well_formed.
      rewrite well_formed_ipv4_bytes; [reflexivity|lia|reflexivity|exact Hpad].
    + reflexivity.
    + left. split; reflexivity.
  - destruct (buffer_size <? sizeof_IPv6Network); [discriminate|].
    destruct (parse_ipv6_address addr_str) as [address|] eqn:P; [|discriminate].
    destruct ((n <? 0) || (n >? 128)) eqn:R; [discriminate|].
    cbv zeta. destruct (validate_cidr_network_ipv6 _ _) as [[|]|]; try discriminate.
    intros H. injection H as <-.
    rewrite (u8_small n) by lia.
    destruct (parse_ipv6_address_bytes _ _ P) as [L B]. split; [|split].
    + unfold well_formed.
      rewrite (well_formed_ipv6_bytes address n ADDR_FLAG_CIDR L B);
        [apply orb_true_r | lia | reflexivity].
    + unfold flags_of, bytes_of_IPv6Network, size.
      cbn [v6_address v6_netmask v6_family v6_flags].
      rewrite firstn_all2 by lia. rewrite length_app, L.
      change (Z.of_nat (16 + List.length [n; AF_INET6_VAL; ADDR_FLAG_CIDR])
              =? sizeof_IPv4Network) with false. cbv iota.
      unfold IPv6Network_of_bytes, v6_flags, byte_at.
      rewrite app_nth2 by lia. rewrite L. reflexivity.
    + right. unfold bytes_of_IPv6Network, size.
      cbn [v6_address v6_netmask v6_family v6_flags].
      rewrite firstn_all2 by lia. rewrite length_app, L. reflexivity.
Qed.

Lemma encode_cidr_well_formed_witness :
  well_formed [0; 1; 168; 192; 24; 2; 1; 170] = true
  /\ flags_of [0; 1; 168; 192; 24; 2; 1; 170] = ADDR_FLAG_CIDR
  /\ (size [0; 1; 168; 192; 24; 2; 1; 170] = 8
      /\ byte_at [0; 1; 168; 192; 24; 2; 1; 170] 7 = 170
      \/ size [0; 1; 168; 192; 24; 2; 1; 170] = 19).
Proof.
  apply (encode_cidr_well_formed 170 19 "192.168.1.0/24").
  - reflexivity.
  - vm_compute. reflexivity.
Defined.

(* ================================================================= *)
(** ** The address field in memory *)

Lemma u32_of_bytes_of_u32 (x : Z) (t : list Z) :
  0 <= x < 2 ^ 32 -> u32_of_bytes (bytes_of_u32 x ++ t) = x.
Proof.
  intros H. unfold u32_of_bytes, bytes_of_u32, byte_at. cbn [app nth].
  change 255 with (Z.ones 8).
  rewrite !Z.land_ones, !Z.shiftr_div_pow2 by lia.
  change (2 ^ 8) with 256. change (2 ^ 16) with 65536.
  change (2 ^ 24) with 16777216. change (2 ^ 32) with 4294967296 in H.
  Z.div_mod_to_equations. lia.
Qed.

Lemma bytes_of_u32_of_bytes (r0 r1 r2 r3 : Z) (t : list Z) :
  0 <= r0 < 256 -> 0 <= r1 < 256 -> 0 <= r2 < 256 -> 0 <= r3 < 256 ->
  bytes_of_u32 (u32_of_bytes (r0 :: r1 :: r2 :: r3 :: t)) = [r0; r1; r2; r3].
Proof.
  intros H0 H1 H2 H3. unfold u32_of_bytes, bytes_of_u32, byte_at. cbn [nth].
  change 255 with (Z.ones 8).
  rewrite !Z.land_ones, !Z.shiftr_div_pow2 by lia.
  change (2 ^ 8) with 256. change (2 ^ 16) with 65536.
  change (2 ^ 24) with 16777216.
  repeat f_equal; Z.div_mod_to_equations; lia.
Qed.

Lemma IPv4Network_round_trip (a p fam fl pad : Z) :
  0 <= a < 2 ^ 32 ->
  IPv4Network_of_bytes (bytes_of_IPv4Network (mkIPv4Network a p fam fl) pad)
  = mkIPv4Network a p fam fl.
Proof.
  intros H. unfold IPv4Network_of_bytes, bytes_of_IPv4Network.
  cbn [v4_address v4_netmask v4_family v4_flags].
  rewrite u32_of_bytes_of_u32 by exact H. reflexivity.
Qed.

Lemma land_range (a b n : Z) :
  0 <= n -> 0 <= a < 2 ^ n -> 0 <= Z.land a b < 2 ^ n.
Proof.
  intros Hn Ha.
  assert (E : Z.land a b = Z.land a b mod 2 ^ n).
  { rewrite <- Z.land_ones by exact Hn.
    rewrite <- Z.land_assoc, (Z.land_comm b), Z.land_assoc.
    rewrite (Z.land_ones a) by exact Hn.
    rewrite Z.mod_small by exact Ha. reflexivity. }
  rewrite E. apply Z.mod_pos_bound. apply Z.pow_pos_nonneg; lia.
Qed.

Lemma lor_range (a b n : Z) :
  0 <= n -> 0 <= a < 2 ^ n -> 0 <= b < 2 ^ n -> 0 <= Z.lor a b < 2 ^ n.
Proof.
  intros Hn Ha Hb.
  assert (E : Z.lor a b = Z.lor a b mod 2 ^ n).
  { rewrite <- Z.land_ones by exact Hn.
    rewrite Z.land_lor_distr_l, !Z.land_ones by exact Hn.
    rewrite !Z.mod_small by assumption. reflexivity. }
  rewrite E. apply Z.mod_pos_bound. apply Z.pow_pos_nonneg; lia.
Qed.

Lemma land_le_l (a b : Z) : 0 <= a -> Z.land a b <= a.
Proof.
  intros Ha. pose proof (Zbitwise.Z.sub_land_same_l a b) as E.
  assert (0 <= Z.land a (Z.lnot b)) by (apply Z.land_nonneg; left; exact Ha).
  lia.
Qed.

Lemma lor_ge_l (a b : Z) : 0 <= b -> a <= Z.lor a b.
Proof.
  intros Hb. pose proof (Zbitwise.Z.sub_lor_l_same_l b a) as E.
  assert (0 <= Z.land b (Z.lnot a)) by (apply Z.land_nonneg; left; exact Hb).
  lia.
Qed.

(** A netmask and the hostmask of [k] low bits cut a 32-bit address into its
    network part and its host part. *)
Lemma mask_split (a m h k : Z) :
  0 <= k -> 0 <= a < 2 ^ 32 ->
  Z.lor m h = 4294967295 -> Z.land m h = 0 -> h = 2 ^ k - 1 ->
  Z.land a m = a - a mod 2 ^ k /\ Z.lor a h = a - a mod 2 ^ k + h.
Proof.
  intros Hk Ha Hor Hand Hh.
  assert (Eh : Z.land a h = a mod 2 ^ k).
  { rewrite Hh. replace (2 ^ k - 1) with (Z.ones k)
      by (rewrite Z.ones_equiv; lia).
    apply Z.land_ones. exact Hk. }
  assert (E1 : Z.lor (Z.land a m) (Z.land a h) = a).
  { rewrite <- Z.land_lor_distr_r, Hor. change 4294967295 with (Z.ones 32).
    rewrite Z.land_ones by lia. apply Z.mod_small. exact Ha. }
  assert (E2 : Z.land (Z.land a m) (Z.land a h) = 0).
  { apply Z.bits_inj'. intros n Hn. rewrite !Z.land_spec, Z.bits_0.
    assert (T : Z.testbit (Z.land m h) n = false) by (rewrite Hand; apply Z.bits_0).
    rewrite Z.land_spec in T.
    destruct (Z.testbit a n), (Z.testbit m n), (Z.testbit h n);
      try reflexivity; discriminate T. }
  pose proof (Zbitwise.Z.add_lor_land (Z.land a m) (Z.land a h)) as S1.
  pose proof (Zbitwise.Z.add_lor_land a h) as S2.
  lia.
Qed.

(** What the well-formedness of an IPv4 record gives. *)
Lemma well_formed_ipv4_fields (r : list Z) :
  well_formed_ipv4 r = true ->
  exists r0 r1 r2 r3 p fl pd,
    r = [r0; r1; r2; r3; p; 2; fl; pd]
    /\ 0 <= r0 < 256 /\ 0 <= r1 < 256 /\ 0 <= r2 < 256 /\ 0 <= r3 < 256
    /\ 0 <= p <= 32 /\ 0 <= fl < 256 /\ 0 <= pd < 256.
Proof.
  intros H. unfold well_formed_ipv4, sizeof_IPv4Network, AF_INET_VAL,
    IPV4_MAX_PREFIXLEN in H.
  apply andb_prop in H. destruct H as [H Hp].
  apply andb_prop in H. destruct H as [H Hf].
  apply andb_prop in H. destruct H as [Hs Hb].
  assert (L : List.length r = 8%nat) by (unfold size in Hs; lia).
  explode_list r L. unfold byte_at in Hf, Hp. cbn [nth] in Hf, Hp.
  cbn [forallb] in Hb. unfold is_byte in Hb.
  exists z, z0, z1, z2, z3, z5, z6.
  assert (z4 = 2) as -> by lia.
  repeat split; lia.
Qed.

(* ================================================================= *)
(** ** Network arithmetic on IPv4 records *)

Lemma inet_network_ipv4_eq (pad : Z) (b : list Z) :
  byte_at b 5 = 2 ->
  inet_network pad b 8 =
    match prefix_to_netmask_ipv4 (byte_at b 4) with
    | None => Undefined
    | Some m =>
        Written (bytes_of_IPv4Network
                   (mkIPv4Network (Z.land (u32_of_bytes b) m) (byte_at b 4)
                                  AF_INET_VAL ADDR_FLAG_CIDR) pad)
    end.
Proof.
  intros H. unfold inet_network, get_address_family, sizeof_IPv4Network, AF_INET_VAL.
  rewrite H. reflexivity.
Qed.

Lemma inet_broadcast_ipv4_eq (pad : Z) (b : list Z) :
  byte_at b 5 = 2 ->
  inet_broadcast pad b 8 =
    match prefix_to_hostmask_ipv4 (byte_at b 4) with
    | None => Undefined
    | Some h =>
        Written (bytes_of_IPv4Network
                   (mkIPv4Network (Z.lor (u32_of_bytes b) h) (byte_at b 4)
                                  AF_INET_VAL ADDR_FLAG_INET) pad)
    end.
Proof.
  intros H. unfold inet_broadcast, get_address_family, sizeof_IPv4Network, AF_INET_VAL.
  rewrite H. reflexivity.
Qed.


(** The bytes of an IPv4 record a function writes. *)
Lemma ipv4_record_fields (a p fl pad : Z) :
  0 <= a < 2 ^ 32 ->
  let b := bytes_of_IPv4Network (mkIPv4Network a p AF_INET_VAL fl) pad in
  byte_at b 5 = 2 /\ byte_at b 4 = p /\ u32_of_bytes b = a /\ size b = 8
  /\ byte_at b 6 = fl /\ byte_at b 7 = pad
  /\ forall pad', firstn 7 b ++ [pad']
                  = bytes_of_IPv4Network (mkIPv4Network a p AF_INET_VAL fl) pad'.
Proof.
  intros H b. repeat split.
  unfold b, bytes_of_IPv4Network. cbn [v4_address v4_netmask v4_family v4_flags].
  apply u32_of_bytes_of_u32. exact H.
Qed.

Lemma ipv4_masks (p : Z) :
  1 <= p <= 32 ->
  exists m h,
    prefix_to_netmask_ipv4 p = Some m /\ prefix_to_hostmask_ipv4 p = Some h
    /\ Z.lor m h = 4294967295 /\ Z.land m h = 0
    /\ 0 <= m < 2 ^ 32 /\ 0 <= h < 2 ^ 32
    /\ h = 2 ^ (32 - p) - 1 /\ m = 4294967295 - h.
Proof.
  intros H.
  assert (A : forallb (fun q =>
                match prefix_to_netmask_ipv4 q, prefix_to_hostmask_ipv4 q with
                | Some m, Some h =>
                    (Z.lor m h =? 4294967295) && (Z.land m h =? 0)
                    && (0 <=? m) && (m <? 2 ^ 32) && (0 <=? h) && (h <? 2 ^ 32)
                    && (h =? 2 ^ (32 - q) - 1) && (m =? 4294967295 - h)
                | _, _ => false
                end) (map Z.of_nat (seq 1 32)) = true)
    by (vm_compute; reflexivity).
  pose proof (forallb_range _ _ _ A p ltac:(lia)) as B. cbv beta in B.
  destruct (prefix_to_netmask_ipv4 p) as [m|]; [|discriminate].
  destruct (prefix_to_hostmask_ipv4 p) as [h|]; [|discriminate].
  exists m, h. repeat (apply andb_prop in B; destruct B as [B ?]).
  repeat split; lia.
Qed.

Lemma cmp_cidr_ipv4_le (x y : list Z) :
  u32_of_bytes x <= u32_of_bytes y -> byte_at x 4 = byte_at y 4 ->
  cmp_cidr x 8 y 8 <= 0.
Proof.
  intros Ha Hp. rewrite cmp_cidr_ipv4. cbv zeta. rewrite Hp, Z.eqb_refl.
  destruct (Z.eqb_spec (u32_of_bytes x) (u32_of_bytes y)); simpl negb; cbv iota.
  - lia.
  - assert ((u32_of_bytes x <? u32_of_bytes y) = true) as -> by lia. lia.
Qed.



(** On a well-formed IPv4 record with a prefix length p of at least 1, the
    network address is the address with its 32 - p low bits cleared and the
    broadcast address is the network address with those bits set, the last
    address of the network; the broadcast record keeps the prefix length and
    carries the permissive tag. The broadcast lies in the same network
    (extracting the network of the broadcast record gives the fields of the
    network of the record), taking the broadcast again changes no field, and
    under the comparator the network sorts no later than the record and the
    record no later than its broadcast. *)
Theorem inet_broadcast_network (pad : Z) (r : list Z) :
  well_formed_ipv4 r = true -> 1 <= byte_at r 4 ->
  exists net bc,
    inet_network pad r (size r) = Written net
    /\ inet_broadcast pad r (size r) = Written bc
    /\ u32_of_bytes net
       = u32_of_bytes r - u32_of_bytes r mod 2 ^ (32 - byte_at r 4)
    /\ u32_of_bytes bc = u32_of_bytes net + (2 ^ (32 - byte_at r 4) - 1)
    /\ byte_at bc 4 = byte_at r 4 /\ byte_at bc 5 = AF_INET_VAL
    /\ byte_at bc 6 = ADDR_FLAG_INET /\ size bc = 8
    /\ (forall pad', inet_network pad' bc (size bc)
                     = Written (firstn 7 net ++ [pad']))
    /\ (forall pad', inet_broadcast pad' bc (size bc)
                     = Written (firstn 7 bc ++ [pad']))
    /\ cmp_cidr net (size net) r (size r) <= 0
    /\ cmp_cidr r (size r) bc (size bc) <= 0.
Proof.
  intros Hw Hp1.
  destruct (well_formed_ipv4_fields r Hw)
    as (r0 & r1 & r2 & r3 & p & fl & pd & -> & H0 & H1 & H2 & H3 & Hp & Hf & Hd).
  set (r := [r0; r1; r2; r3; p; 2; fl; pd]) in *.
  change (byte_at r 4) with p in *.
  assert (Ra : 0 <= u32_of_bytes r < 2 ^ 32).
  { unfold r, u32_of_bytes, byte_at. cbn [nth].
    change (2 ^ 32) with 4294967296. lia. }
  destruct (ipv4_masks p ltac:(lia))
    as (m & h & Hm & Hh & Hor & Hand & Rm & Rh & Eh & Em).
  pose proof (land_range (u32_of_bytes r) m 32 ltac:(lia) Ra) as Rl.
  pose proof (lor_range (u32_of_bytes r) h 32 ltac:(lia) Ra Rh) as Ro.
  destruct (mask_split (u32_of_bytes r) m h (32 - p) ltac:(lia) Ra Hor Hand Eh)
    as [Sn Sb].
  destruct (ipv4_record_fields (Z.land (u32_of_bytes r) m) p ADDR_FLAG_CIDR pad Rl)
    as (N5 & N4 & Na & Ns & N6 & N7 & Nf).
  destruct (ipv4_record_fields (Z.lor (u32_of_bytes r) h) p ADDR_FLAG_INET pad Ro)
    as (B5 & B4 & Ba & Bs & B6 & B7 & Bf).
  eexists. eexists.
  split; [|split; [|split; [|split; [|split; [|split; [|split; [|split;
    [|split; [|split; [|split]]]]]]]]]].
  - change (size r) with 8. rewrite inet_network_ipv4_eq by reflexivity.
    change (byte_at r 4) with p. rewrite Hm. reflexivity.
  - change (size r) with 8. rewrite inet_broadcast_ipv4_eq by reflexivity.
    change (byte_at r 4) with p. rewrite Hh. reflexivity.
  - rewrite Na. exact Sn.
  - rewrite Ba, Na, Sb, Sn, Eh. reflexivity.
  - exact B4.
  - exact B5.
  - exact B6.
  - exact Bs.
  - intros pad'. rewrite Bs, Nf. rewrite inet_network_ipv4_eq by exact B5.
    rewrite B4, Ba, Hm.
    rewrite Z.land_lor_distr_l, (Z.land_comm h m), Hand, Z.lor_0_r. reflexivity.
  - intros pad'. rewrite Bs, Bf. rewrite inet_broadcast_ipv4_eq by exact B5.
    rewrite B4, Ba, Hh. rewrite <- Z.lor_assoc, Z.lor_diag. reflexivity.
  - rewrite Ns. change (size r) with 8. apply cmp_cidr_ipv4_le.
    + rewrite Na. apply land_le_l. lia.
    + rewrite N4. reflexivity.
  - rewrite Bs. change (size r) with 8. apply cmp_cidr_ipv4_le.
    + rewrite Ba. apply lor_ge_l. lia.
    + rewrite B4. reflexivity.
Qed.

(** 192.168.1.5/24: network 192.168.1.0, broadcast 192.168.1.255. *)
Lemma inet_broadcast_network_witness :
  exists net bc,
    inet_network 0 [5; 1; 168; 192; 24; 2; 2; 0] 8 = Written net
    /\ inet_broadcast 0 [5; 1; 168; 192; 24; 2; 2; 0] 8 = Written bc
    /\ u32_of_bytes net = 3232235776
    /\ u32_of_bytes bc = 3232236031
    /\ (forall pad', inet_network pad' bc (size bc)
                     = Written (firstn 7 net ++ [pad']))
    /\ cmp_cidr net (size net) [5; 1; 168; 192; 24; 2; 2; 0] 8 <= 0
    /\ cmp_cidr [5; 1; 168; 192; 24; 2; 2; 0] 8 bc (size bc) <= 0.
Proof.
  destruct (inet_broadcast_network 0 [5; 1; 168; 192; 24; 2; 2; 0] eq_refl
              ltac:(unfold byte_at; simpl; lia))
    as (net & bc & A & B & C & D & _ & _ & _ & _ & E & _ & F & G).
  exists net, bc.
  assert (C' : u32_of_bytes net = 3232235776) by (rewrite C; reflexivity).
  assert (D' : u32_of_bytes bc = 3232236031) by (rewrite D, C'; reflexivity).
  exact (conj A (conj B (conj C' (conj D' (conj E (conj F G)))))).
Defined.

(** [inet_set_masklen] on a well-formed IPv4 record keeps the four address
    bytes, stores the new prefix length, the family tag and the permissive
    tag, and leaves the padding byte of its local in the eighth byte, so that
    [inet_masklen] reads the new prefix length back; a prefix length outside
    0..32 is an error. *)
Theorem inet_set_masklen_ipv4 (pad : Z) (r : list Z) (n : Z) :
  well_formed_ipv4 r = true ->
  (0 <= n <= 32 ->
     inet_set_masklen pad r (size r) n
     = Written (firstn 4 r ++ [n; AF_INET_VAL; ADDR_FLAG_INET; pad])
     /\ inet_masklen (firstn 4 r ++ [n; AF_INET_VAL; ADDR_FLAG_INET; pad]) 8 = n
     /\ (is_byte pad = true ->
         well_formed_ipv4 (firstn 4 r ++ [n; AF_INET_VAL; ADDR_FLAG_INET; pad])
         = true))
  /\ (n < 0 \/ 32 < n -> inet_set_masklen pad r (size r) n = Error).
Proof.
  intros Hw.
  destruct (well_formed_ipv4_fields r Hw)
    as (r0 & r1 & r2 & r3 & p & fl & pd & -> & H0 & H1 & H2 & H3 & Hp & Hf & Hd).
  change (size [r0; r1; r2; r3; p; 2; fl; pd]) with 8.
  unfold inet_set_masklen, get_address_family, sizeof_IPv4Network.
  change (byte_at [r0; r1; r2; r3; p; 2; fl; pd] 5) with AF_INET_VAL.
  change (8 <? 8) with false.
  change ((AF_INET_VAL =? AF_INET_VAL)) with true.
  change (8 >=? 8) with true. cbv iota. cbn [andb]. cbv iota.
  split.
  - intros Hn. assert (((n <? 0) || (n >? 32)) = false) as -> by lia.
    rewrite (u8_small n) by lia.
    unfold bytes_of_IPv4Network, IPv4Network_of_bytes.
    cbn [v4_address v4_netmask v4_family v4_flags].
    rewrite bytes_of_u32_of_bytes by assumption.
    cbn [firstn app]. repeat split.
    intros Hpad.
    unfold well_formed_ipv4, sizeof_IPv4Network, AF_INET_VAL, ADDR_FLAG_INET,
      IPV4_MAX_PREFIXLEN, is_byte, byte_at in *.
    change (size _) with 8. cbn [forallb nth]. lia.
  - intros Hn. assert (((n <? 0) || (n >? 32)) = true) as -> by lia. reflexivity.
Qed.

Lemma inet_set_masklen_ipv4_witness :
  inet_set_masklen 170 [5; 1; 168; 192; 24; 2; 2; 0] 8 16
  = Written [5; 1; 168; 192; 16; 2; 2; 170]
  /\ inet_masklen [5; 1; 168; 192; 16; 2; 2; 170] 8 = 16
  /\ inet_set_masklen 170 [5; 1; 168; 192; 24; 2; 2; 0] 8 33 = Error.
Proof.
  pose proof (proj1 (inet_set_masklen_ipv4 170 [5; 1; 168; 192; 24; 2; 2; 0] 16
                       eq_refl) ltac:(lia)) as (A & B & _).
  pose proof (proj2 (inet_set_masklen_ipv4 170 [5; 1; 168; 192; 24; 2; 2; 0] 33
                       eq_refl) ltac:(lia)) as C.
  exact (conj A (conj B C)).
Defined.

(** On a well-formed IPv4 record with a prefix length p of at least 1,
    [inet_netmask] and [inet_hostmask] give two permissive /32 records of 8
    bytes whose addresses are 2^32 - 2^(32-p) and 2^(32-p) - 1: they
    complement each other, together all 32 bits, no bit in common. *)
Theorem inet_netmask_hostmask_complement (pad : Z) (r : list Z) :
  well_formed_ipv4 r = true -> 1 <= byte_at r 4 ->
  exists m h,
    inet_netmask pad r (size r)
    = Written (bytes_of_IPv4Network
                 (mkIPv4Network m 32 AF_INET_VAL ADDR_FLAG_INET) pad)
    /\ inet_hostmask pad r (size r)
       = Written (bytes_of_IPv4Network
                    (mkIPv4Network h 32 AF_INET_VAL ADDR_FLAG_INET) pad)
    /\ Z.lor m h = 4294967295 /\ Z.land m h = 0
    /\ m = 4294967295 - (2 ^ (32 - byte_at r 4) - 1)
    /\ h = 2 ^ (32 - byte_at r 4) - 1.
Proof.
  intros Hw Hp1.
  destruct (well_formed_ipv4_fields r Hw)
    as (r0 & r1 & r2 & r3 & p & fl & pd & -> & H0 & H1 & H2 & H3 & Hp & Hf & Hd).
  change (byte_at [r0; r1; r2; r3; p; 2; fl; pd] 4) with p in *.
  change (size [r0; r1; r2; r3; p; 2; fl; pd]) with 8.
  destruct (ipv4_masks p ltac:(lia))
    as (m & h & Hm & Hh & Hor & Hand & Rm & Rh & Eh & Em).
  unfold inet_netmask, inet_hostmask, get_address_family, sizeof_IPv4Network.
  change (byte_at [r0; r1; r2; r3; p; 2; fl; pd] 5) with AF_INET_VAL.
  change (8 <? 8) with false.
  change ((AF_INET_VAL =? AF_INET_VAL)) with true.
  change (8 >=? 8) with true. cbv iota. cbn [andb]. cbv iota.
  unfold IPv4Network_of_bytes. cbn [v4_netmask].
  change (byte_at [r0; r1; r2; r3; p; 2; fl; pd] 4) with p.
  rewrite Hm, Hh.
  exists m, h. repeat split; lia.
Qed.

(** A /24 record: netmask 255.255.255.0, hostmask 0.0.0.255. *)
Lemma inet_netmask_hostmask_complement_witness :
  inet_netmask 170 [5; 1; 168; 192; 24; 2; 2; 0] 8
  = Written [0; 255; 255; 255; 32; 2; 2; 170]
  /\ inet_hostmask 170 [5; 1; 168; 192; 24; 2; 2; 0] 8
     = Written [255; 0; 0; 0; 32; 2; 2; 170].
Proof.
  destruct (inet_netmask_hostmask_complement 170 [5; 1; 168; 192; 24; 2; 2; 0]
              eq_refl ltac:(unfold byte_at; simpl; lia))
    as (m & h & A & B & _ & _ & Em & Eh).
  change (byte_at [5; 1; 168; 192; 24; 2; 2; 0] 4) with 24 in Em, Eh.
  change (size [5; 1; 168; 192; 24; 2; 2; 0]) with 8 in A, B.
  rewrite A, B, Em, Eh. split; reflexivity.
Defined.

(* ================================================================= *)
(** ** The texts of an IPv4 record *)

Lemma fmt_u_byte (n : Z) :
  0 <= n <= 255 ->
  (1 <= List.length (fmt_u n) <= 3)%nat
  /\ forallb is_digit (fmt_u n) = true
  /\ dec_value (fmt_u n) 0 = n
  /\ (100 <= n -> List.length (fmt_u n) = 3%nat)
  /\ (10 <= n <= 99 -> List.length (fmt_u n) = 2%nat).
Proof.
  intros H.
  assert (A : forallb (fun q =>
                (1 <=? List.length (fmt_u q))%nat
                && (List.length (fmt_u q) <=? 3)%nat
                && forallb is_digit (fmt_u q)
                && (dec_value (fmt_u q) 0 =? q)
                && ((q <? 100) || (List.length (fmt_u q) =? 3)%nat)
                && ((q <? 10) || (99 <? q) || (List.length (fmt_u q) =? 2)%nat))
              (map Z.of_nat (seq 0 256)) = true)
    by (vm_compute; reflexivity).
  pose proof (forallb_range _ _ _ A n ltac:(lia)) as B. cbv beta in B.
  apply andb_prop in B. destruct B as [B B6].
  apply andb_prop in B. destruct B as [B B5].
  apply andb_prop in B. destruct B as [B B4].
  apply andb_prop in B. destruct B as [B B3].
  apply andb_prop in B. destruct B as [B1 B2].
  apply Nat.leb_le in B1, B2. apply Z.eqb_eq in B4.
  split; [lia|]. split; [exact B3|]. split; [exact B4|]. split.
  - intros G. apply orb_prop in B5. destruct B5 as [B5|B5]; [lia|].
    apply Nat.eqb_eq. exact B5.
  - intros G. apply orb_prop in B6. destruct B6 as [B6|B6].
    + apply orb_prop in B6. destruct B6; lia.
    + apply Nat.eqb_eq. exact B6.
Qed.

Lemma length_ipv4_text (a : Z) : (7 <= List.length (ipv4_text a) <= 15)%nat.
Proof.
  unfold ipv4_text, dot. rewrite !length_app. cbn [List.length].
  pose proof (land_255_range (Z.shiftr a 24)).
  pose proof (land_255_range (Z.shiftr a 16)).
  pose proof (land_255_range (Z.shiftr a 8)).
  pose proof (land_255_range a).
  destruct (fmt_u_byte (Z.land (Z.shiftr a 24) 255) ltac:(lia)) as (? & _).
  destruct (fmt_u_byte (Z.land (Z.shiftr a 16) 255) ltac:(lia)) as (? & _).
  destruct (fmt_u_byte (Z.land (Z.shiftr a 8) 255) ltac:(lia)) as (? & _).
  destruct (fmt_u_byte (Z.land a 255) ltac:(lia)) as (? & _).
  lia.
Qed.

Lemma snprintf_fits (n : Z) (s : cstring) :
  Z.of_nat (List.length s) < n -> snprintf n s = s.
Proof.
  intros H. unfold snprintf. apply firstn_all2. lia.
Qed.

Lemma format_ipv4_address_text (a n : Z) :
  16 <= n -> format_ipv4_address a n = ipv4_text a.
Proof.
  intros H. unfold format_ipv4_address.
  change (snprintf n (ipv4_text a) = ipv4_text a).
  apply snprintf_fits. pose proof (length_ipv4_text a). lia.
Qed.

Lemma ipv4_record_texts_eq (r : list Z) (to_size : Z) :
  well_formed_ipv4 r = true -> 64 <= to_size ->
  let address := ipv4_text (u32_of_bytes r) in
  let full := address ++ slash ++ fmt_u (byte_at r 4) in
  decode_cidr r (size r) to_size = Some full
  /\ decode_inet r (size r) to_size
     = Some (if byte_at r 4 =? 32 then address else full)
  /\ inet_host r (size r) to_size = Some address
  /\ inet_text r (size r) to_size = Some (firstn 17 full)
  /\ inet_abbrev r (size r) to_size
     = Some (if byte_at r 4 =? 32 then address else firstn 17 full)
  /\ strlen full <= 18
  /\ ((forall o, In o (octets (u32_of_bytes r)) -> 100 <= o) ->
      10 <= byte_at r 4 -> strlen full = 18).
Proof.
  intros Hw Ht address full.
  destruct (well_formed_ipv4_fields r Hw)
    as (r0 & r1 & r2 & r3 & p & fl & pd & E & H0 & H1 & H2 & H3 & Hp & Hf & Hd).
  assert (P4 : byte_at r 4 = p) by (rewrite E; reflexivity).
  assert (P5 : byte_at r 5 = 2) by (rewrite E; reflexivity).
  assert (Sz : size r = 8) by (rewrite E; reflexivity).
  pose proof (length_ipv4_text (u32_of_bytes r)) as La.
  destruct (fmt_u_byte p ltac:(lia)) as (Lp & _ & _ & _ & Lp2).
  assert (Lf : (List.length full <= 18)%nat).
  { unfold full, slash. rewrite !length_app. cbn [List.length].
    fold address. rewrite P4.
    assert (List.length (fmt_u p) <= 2)%nat.
    { destruct (Z.le_gt_cases 10 p) as [G|G].
      - rewrite Lp2 by lia. lia.
      - assert (A : forallb (fun q => (List.length (fmt_u q) =? 1)%nat)
                      (map Z.of_nat (seq 0 10)) = true) by (vm_compute; reflexivity).
        pose proof (forallb_range _ _ _ A p ltac:(lia)) as B. cbv beta in B.
        apply Nat.eqb_eq in B. lia. }
    unfold address. lia. }
  assert (La' : (List.length address <= 15)%nat) by (unfold address; lia).
  assert (G : get_address_family r 8 = 2) by (rewrite E; reflexivity).
  rewrite Sz.
  unfold decode_cidr, decode_inet, inet_host, inet_text, inet_abbrev,
    sizeof_IPv4Network, AF_INET_VAL, IPV4_MAX_PREFIXLEN, kMaxIPv4String.
  rewrite G, P5. change (8 <? 8) with false. change (2 =? 2) with true.
  change (8 >=? 8) with true. cbn [andb]. cbv iota.
  unfold IPv4Network_of_bytes. cbn [v4_address v4_netmask].
  rewrite !format_ipv4_address_text by lia.
  fold address. fold full.
  rewrite (snprintf_fits 64 full) by lia.
  rewrite (snprintf_fits 64 address) by lia.
  assert (C1 : copy_out full to_size = Some full)
    by (apply copy_out_fits; unfold strlen; lia).
  assert (C2 : copy_out address to_size = Some address)
    by (apply copy_out_fits; unfold strlen; lia).
  assert (C3 : copy_out (snprintf 18 full) to_size = Some (firstn 17 full)).
  { unfold snprintf. change (Z.to_nat (18 - 1)) with 17%nat.
    apply copy_out_fits. unfold strlen. rewrite length_firstn. lia. }
  rewrite C1, C3. repeat split.
  - destruct (byte_at r 4 =? 32); assumption.
  - exact C2.
  - destruct (byte_at r 4 =? 32); [exact C2 | reflexivity].
  - unfold strlen. lia.
  - intros Ho Hp10. unfold strlen, full, slash. rewrite !length_app.
    cbn [List.length]. rewrite P4, (Lp2 ltac:(lia)).
    unfold address, ipv4_text, dot. rewrite !length_app. cbn [List.length].
    unfold octets in Ho.
    assert (O1 := Ho _ (or_introl eq_refl)).
    assert (O2 := Ho _ (or_intror (or_introl eq_refl))).
    assert (O3 := Ho _ (or_intror (or_intror (or_introl eq_refl)))).
    assert (O4 := Ho _ (or_intror (or_intror (or_intror (or_introl eq_refl))))).
    pose proof (land_255_range (Z.shiftr (u32_of_bytes r) 24)).
    pose proof (land_255_range (Z.shiftr (u32_of_bytes r) 16)).
    pose proof (land_255_range (Z.shiftr (u32_of_bytes r) 8)).
    pose proof (land_255_range (u32_of_bytes r)).
    destruct (fmt_u_byte (Z.land (Z.shiftr (u32_of_bytes r) 24) 255) ltac:(lia))
      as (_ & _ & _ & K0 & _).
    rewrite (K0 O1).
    destruct (fmt_u_byte (Z.land (Z.shiftr (u32_of_bytes r) 16) 255) ltac:(lia))
      as (_ & _ & _ & K1 & _).
    rewrite (K1 O2).
    destruct (fmt_u_byte (Z.land (Z.shiftr (u32_of_bytes r) 8) 255) ltac:(lia))
      as (_ & _ & _ & K2 & _).
    rewrite (K2 O3).
    destruct (fmt_u_byte (Z.land (u32_of_bytes r) 255) ltac:(lia))
      as (_ & _ & _ & K3 & _).
    rewrite (K3 O4).
    reflexivity.
Qed.


(* ================================================================= *)
(** ** Reading back the text of an IPv4 record *)

Lemma digit_char_facts (c : ascii) :
  is_digit c = true ->
  isspace c = false /\ Ascii.eqb c "-"%char = false /\ Ascii.eqb c "+"%char = false
  /\ Ascii.eqb c "/"%char = false /\ Ascii.eqb c NUL = false.
Proof.
  destruct c as [b0 b1 b2 b3 b4 b5 b6 b7].
  destruct b0, b1, b2, b3, b4, b5, b6, b7; vm_compute; intros H;
    try discriminate H; repeat split.
Qed.

Lemma scan_digits10_app (ds rest : cstring) (acc : Z) :
  forallb is_digit ds = true -> starts_with_digit 10 rest = false ->
  scan_digits 10 (ds ++ rest) acc = (dec_value ds acc, rest).
Proof.
  intros Hd Hr. revert acc. induction ds as [|c r IH]; intros acc.
  - simpl. destruct rest as [|x t]; [reflexivity|].
    simpl in Hr. simpl. destruct (digit_of 10 x); [discriminate | reflexivity].
  - simpl in Hd. apply andb_prop in Hd. destruct Hd as [Hc Hd].
    cbn [app scan_digits]. unfold digit_of. change (10 =? 16) with false. cbv iota.
    unfold is_digit in Hc. unfold dec_value. cbn [fold_left].
    destruct (digit_val c) as [d|]; [|discriminate].
    apply (IH Hd).
Qed.

Lemma strtoul10_digits (c : ascii) (ds rest : cstring) :
  forallb is_digit (c :: ds) = true -> starts_with_digit 10 rest = false ->
  dec_value (c :: ds) 0 <= ULONG_MAX ->
  strtoul ((c :: ds) ++ rest) 10 = Some (dec_value (c :: ds) 0, rest).
Proof.
  intros Hd Hr Hv.
  assert (Hc : is_digit c = true) by (simpl in Hd; apply andb_prop in Hd; apply Hd).
  destruct (digit_char_facts c Hc) as (Sp & Mi & Pl & _ & _).
  unfold strtoul. cbn [app skip_space]. rewrite Sp.
  unfold scan_sign. rewrite Mi, Pl. change (10 =? 16) with false. cbv iota.
  assert (St : starts_with_digit 10 (c :: ds ++ rest) = true).
  { unfold starts_with_digit, digit_of. change (10 =? 16) with false. cbv iota.
    unfold is_digit in Hc. destruct (digit_val c); [reflexivity | discriminate]. }
  rewrite St.
  change (c :: ds ++ rest) with ((c :: ds) ++ rest).
  rewrite (scan_digits10_app _ _ 0 Hd Hr).
  assert ((dec_value (c :: ds) 0 >? ULONG_MAX) = false) as -> by lia.
  reflexivity.
Qed.

Lemma strtol10_digits (c : ascii) (ds rest : cstring) :
  forallb is_digit (c :: ds) = true -> starts_with_digit 10 rest = false ->
  0 <= dec_value (c :: ds) 0 <= LONG_MAX ->
  strtol10 ((c :: ds) ++ rest) = Some (dec_value (c :: ds) 0, rest).
Proof.
  intros Hd Hr Hv.
  assert (Hc : is_digit c = true) by (simpl in Hd; apply andb_prop in Hd; apply Hd).
  destruct (digit_char_facts c Hc) as (Sp & Mi & Pl & _ & _).
  unfold strtol10. cbn [app skip_space]. rewrite Sp.
  unfold scan_sign. rewrite Mi, Pl.
  assert (St : starts_with_digit 10 (c :: ds ++ rest) = true).
  { unfold starts_with_digit, digit_of. change (10 =? 16) with false. cbv iota.
    unfold is_digit in Hc. destruct (digit_val c); [reflexivity | discriminate]. }
  rewrite St.
  change (c :: ds ++ rest) with ((c :: ds) ++ rest).
  rewrite (scan_digits10_app _ _ 0 Hd Hr).
  rewrite Z.min_r by lia. reflexivity.
Qed.

(** [%u] and [%d] read back what [%u] printed for a byte. *)
Lemma scan_fmt_u (n : Z) (rest : cstring) :
  0 <= n <= 255 -> starts_with_digit 10 rest = false ->
  scan_u (fmt_u n ++ rest) = Some (n, rest)
  /\ scan_d (fmt_u n ++ rest) = Some (n, rest).
Proof.
  intros Hn Hr.
  destruct (fmt_u_byte n Hn) as (L & D & V & _).
  destruct (fmt_u n) as [|c ds] eqn:E; [simpl in L; lia|].
  unfold scan_u, scan_d.
  rewrite (strtoul10_digits c ds rest D Hr)
    by (rewrite V; unfold ULONG_MAX; lia).
  rewrite (strtol10_digits c ds rest D Hr)
    by (rewrite V; unfold LONG_MAX; lia).
  rewrite V. unfold u32, to_int.
  rewrite Z.mod_small by lia.
  assert ((n + 2 ^ 31) mod 2 ^ 32 = n + 2 ^ 31) as -> by (apply Z.mod_small; lia).
  split; [reflexivity | f_equal; f_equal; lia].
Qed.

Lemma lor_disjoint (hi lo k : Z) :
  0 <= k -> 0 <= lo < 2 ^ k -> Z.lor (hi * 2 ^ k) lo = hi * 2 ^ k + lo.
Proof.
  intros Hk Hl.
  assert (E : Z.land (hi * 2 ^ k) lo = 0).
  { rewrite <- (Z.mod_small lo (2 ^ k)) by exact Hl.
    rewrite <- (Z.land_ones lo) by exact Hk.
    rewrite (Z.land_comm lo), Z.land_assoc, Z.land_ones by exact Hk.
    rewrite Z.mod_mul by (apply Z.pow_nonzero; lia). reflexivity. }
  pose proof (Zbitwise.Z.add_lor_land (hi * 2 ^ k) lo). lia.
Qed.

(** The expression [(a << 24) | (b << 16) | (c << 8) | d] of
    [parse_ipv4_address] on four bytes. *)
Lemma lor_of_octets (a b c d : Z) :
  0 <= a < 256 -> 0 <= b < 256 -> 0 <= c < 256 -> 0 <= d < 256 ->
  Z.lor (Z.lor (Z.lor (u32 (Z.shiftl a 24)) (u32 (Z.shiftl b 16)))
               (u32 (Z.shiftl c 8))) d
  = 16777216 * a + 65536 * b + 256 * c + d.
Proof.
  intros Ha Hb Hc Hd. unfold u32.
  rewrite !Z.shiftl_mul_pow2 by lia.
  rewrite !Z.mod_small by lia.
  rewrite (lor_disjoint a (b * 2 ^ 16) 24) by lia.
  replace (a * 2 ^ 24 + b * 2 ^ 16) with ((a * 2 ^ 8 + b) * 2 ^ 16) by lia.
  rewrite (lor_disjoint (a * 2 ^ 8 + b) (c * 2 ^ 8) 16) by lia.
  replace ((a * 2 ^ 8 + b) * 2 ^ 16 + c * 2 ^ 8)
    with (((a * 2 ^ 8 + b) * 2 ^ 8 + c) * 2 ^ 8) by lia.
  rewrite (lor_disjoint _ d 8) by lia. lia.
Qed.

(** [parse_ipv4_address] reads the dotted text of an address back. *)
Lemma parse_ipv4_text (a : Z) :
  0 <= a < 2 ^ 32 -> parse_ipv4_address (ipv4_text a) = Some a.
Proof.
  intros Ha.
  destruct (octets_digits a Ha) as (o1 & o2 & o3 & o4 & Eo & Ea & R1 & R2 & R3 & R4).
  unfold octets in Eo.
  assert (E1 : Z.land (Z.shiftr a 24) 255 = o1) by congruence.
  assert (E2 : Z.land (Z.shiftr a 16) 255 = o2) by congruence.
  assert (E3 : Z.land (Z.shiftr a 8) 255 = o3) by congruence.
  assert (E4 : Z.land a 255 = o4) by congruence.
  clear Eo.
  unfold ipv4_text. rewrite E1, E2, E3, E4.
  unfold parse_ipv4_address, sscanf_u_dot4, dot.
  set (t3 := fmt_u o4).
  set (t2 := fmt_u o3 ++ ["."%char] ++ t3).
  set (t1 := fmt_u o2 ++ ["."%char] ++ t2).
  rewrite (proj1 (scan_fmt_u o1 (["."%char] ++ t1) ltac:(lia) eq_refl)).
  cbn [app scan_lit]. change (Ascii.eqb "."%char "."%char) with true. cbv iota.
  unfold t1.
  rewrite (proj1 (scan_fmt_u o2 (["."%char] ++ t2) ltac:(lia) eq_refl)).
  cbn [app scan_lit]. change (Ascii.eqb "."%char "."%char) with true. cbv iota.
  unfold t2.
  rewrite (proj1 (scan_fmt_u o3 (["."%char] ++ t3) ltac:(lia) eq_refl)).
  cbn [app scan_lit]. change (Ascii.eqb "."%char "."%char) with true. cbv iota.
  unfold t3.
  rewrite <- (app_nil_r (fmt_u o4)).
  rewrite (proj1 (scan_fmt_u o4 [] ltac:(lia) eq_refl)).
  assert (((o1 >? 255) || (o2 >? 255) || (o3 >? 255) || (o4 >? 255)) = false)
    as -> by lia.
  unfold shl_u32. cbn [Z.leb Z.ltb Z.compare Pos.compare Pos.compare_cont andb].
  rewrite lor_of_octets by lia. f_equal. lia.
Qed.

Lemma scan_not_slash_stop (w : nat) (s r : cstring) :
  has_slash s = false -> (List.length s <= w)%nat ->
  scan_not_slash w (s ++ "/"%char :: r) = (s, "/"%char :: r).
Proof.
  revert w. induction s as [|c t IH]; intros w H L.
  - destruct w; reflexivity.
  - destruct w as [|w]; [simpl in L; lia|].
    simpl in H. apply orb_false_elim in H. destruct H as [Hc Ht].
    cbn [app scan_not_slash]. rewrite Hc.
    rewrite (IH w Ht) by (simpl in L; lia). reflexivity.
Qed.

Lemma scan_not_slash_all (w : nat) (s : cstring) :
  has_slash s = false -> (List.length s <= w)%nat ->
  scan_not_slash w s = (s, []).
Proof.
  revert w. induction s as [|c t IH]; intros w H L.
  - destruct w; reflexivity.
  - destruct w as [|w]; [simpl in L; lia|].
    simpl in H. apply orb_false_elim in H. destruct H as [Hc Ht].
    cbn [scan_not_slash]. rewrite Hc.
    rewrite (IH w Ht) by (simpl in L; lia). reflexivity.
Qed.

Lemma sscanf_addr_netmask_full (addr pstr e : cstring) (p : Z) :
  addr <> [] -> has_slash addr = false -> (List.length addr <= 63)%nat ->
  scan_d pstr = Some (p, e) ->
  sscanf_addr_netmask (addr ++ "/"%char :: pstr) = Scanned2 addr p.
Proof.
  intros Hn Hs L Hd. unfold sscanf_addr_netmask.
  rewrite (scan_not_slash_stop 63 addr pstr Hs L).
  destruct addr as [|c t]; [contradiction|].
  cbn [scan_lit]. change (Ascii.eqb "/"%char "/"%char) with true. cbv iota.
  rewrite Hd. reflexivity.
Qed.

Lemma sscanf_addr_netmask_bare (addr : cstring) :
  addr <> [] -> has_slash addr = false -> (List.length addr <= 63)%nat ->
  sscanf_addr_netmask addr = Scanned1 addr.
Proof.
  intros Hn Hs L. unfold sscanf_addr_netmask.
  rewrite (scan_not_slash_all 63 addr Hs L).
  destruct addr as [|c t]; [contradiction|]. reflexivity.
Qed.

Lemma digits_plain (l : cstring) :
  forallb is_digit l = true ->
  has_slash l = false /\ forallb (fun c => negb (Ascii.eqb c NUL)) l = true.
Proof.
  induction l as [|c t IH]; intros H; [split; reflexivity|].
  simpl in H. apply andb_prop in H. destruct H as [Hc Ht].
  destruct (digit_char_facts c Hc) as (_ & _ & _ & Sl & Nu).
  destruct (IH Ht) as [I1 I2]. simpl. rewrite Sl, Nu, I1, I2. split; reflexivity.
Qed.

Lemma fmt_u_plain (n : Z) :
  0 <= n <= 255 ->
  has_slash (fmt_u n) = false
  /\ forallb (fun c => negb (Ascii.eqb c NUL)) (fmt_u n) = true.
Proof.
  intros H. apply digits_plain. apply (fmt_u_byte n H).
Qed.

Lemma ipv4_text_plain (a : Z) :
  has_slash (ipv4_text a) = false
  /\ forallb (fun c => negb (Ascii.eqb c NUL)) (ipv4_text a) = true
  /\ ipv4_text a <> [].
Proof.
  pose proof (land_255_range (Z.shiftr a 24)) as R1.
  pose proof (land_255_range (Z.shiftr a 16)) as R2.
  pose proof (land_255_range (Z.shiftr a 8)) as R3.
  pose proof (land_255_range a) as R4.
  destruct (fmt_u_plain _ (conj (proj1 R1) (Zlt_succ_le _ 255 (proj2 R1)))) as [S1 N1].
  destruct (fmt_u_plain _ (conj (proj1 R2) (Zlt_succ_le _ 255 (proj2 R2)))) as [S2 N2].
  destruct (fmt_u_plain _ (conj (proj1 R3) (Zlt_succ_le _ 255 (proj2 R3)))) as [S3 N3].
  destruct (fmt_u_plain _ (conj (proj1 R4) (Zlt_succ_le _ 255 (proj2 R4)))) as [S4 N4].
  split; [|split].
  - unfold ipv4_text, has_slash in *. rewrite !existsb_app, S1, S2, S3, S4.
    reflexivity.
  - unfold ipv4_text. rewrite !forallb_app, N1, N2, N3, N4. reflexivity.
  - intros E. pose proof (length_ipv4_text a) as L. rewrite E in L. simpl in L. lia.
Qed.

Lemma c_str_all (s : cstring) :
  forallb (fun c => negb (Ascii.eqb c NUL)) s = true -> c_str s = s.
Proof.
  intros H. pose proof (c_str_app s [] H) as C.
  change (c_str []) with (@nil ascii) in C. rewrite !app_nil_r in C. exact C.
Qed.

(** The strict validator accepts an address without host bits. *)
Lemma validate_cidr_network_complete (a p : Z) :
  0 <= p <= 32 -> (p <> 0 -> host_bits_ipv4 a p = 0) ->
  validate_cidr_network a p = Some true.
Proof.
  intros Hp Hh. unfold validate_cidr_network, IPV4_MAX_PREFIXLEN.
  assert ((p >? 32) = false) as -> by lia.
  destruct (Z.eqb_spec p 0) as [E|E]; [reflexivity|].
  assert (A : forallb (fun q => match shl_u32 1 (32 - q) with
                                | Some s =>
                                    not_u32 (not_u32 (u32 (s - 1))) =? Z.ones (32 - q)
                                | None => false
                                end) (map Z.of_nat (seq 1 32)) = true)
    by (vm_compute; reflexivity).
  pose proof (forallb_range _ _ _ A p ltac:(lia)) as B. cbv beta in B.
  destruct (shl_u32 1 (32 - p)) as [s|]; [|discriminate].
  apply Z.eqb_eq in B. unfold bind. rewrite B.
  rewrite Z.land_ones by lia. specialize (Hh E). unfold host_bits_ipv4 in Hh.
  rewrite Hh. reflexivity.
Qed.

Lemma encode_text_ipv4 (r0 r1 r2 r3 : Z) :
  0 <= r0 < 256 -> 0 <= r1 < 256 -> 0 <= r2 < 256 -> 0 <= r3 < 256 ->
  let a := u32_of_bytes [r0; r1; r2; r3] in
  0 <= a < 2 ^ 32
  /\ parse_ipv4_address (ipv4_text a) = Some a
  /\ bytes_of_u32 a = [r0; r1; r2; r3].
Proof.
  intros H0 H1 H2 H3 a.
  assert (Ra : 0 <= a < 2 ^ 32).
  { unfold a, u32_of_bytes, byte_at. cbn [nth].
    change (2 ^ 32) with 4294967296. lia. }
  split; [exact Ra|]. split.
  - apply parse_ipv4_text. exact Ra.
  - apply bytes_of_u32_of_bytes; assumption.
Qed.

(** Round trip of the permissive IPv4 record: the text [decode_inet] renders
    for a well-formed IPv4 record (8 bytes) with the permissive tag is read
    back by [encode_inet], given a buffer of at least 8 bytes, into a record
    with the same fields: the same first 7 bytes, and in the eighth the
    padding byte of the encoder's local. The 8 bytes are the same exactly when
    that padding byte happens to be the one of the record. *)
Theorem inet_ipv4_round_trip (pad : Z) (r : list Z) (buffer_size to_size : Z) :
  well_formed_ipv4 r = true -> flags_of r = ADDR_FLAG_INET ->
  sizeof_IPv4Network <= buffer_size -> 64 <= to_size ->
  exists text,
    decode_inet r (size r) to_size = Some text
    /\ encode_inet pad buffer_size (string_of_list_ascii text)
       = Written (firstn 7 r ++ [pad])
    /\ (encode_inet pad buffer_size (string_of_list_ascii text) = Written r
        <-> pad = byte_at r 7).
Proof.
  intros Hw Hfl Hb Ht.
  destruct (ipv4_record_texts_eq r to_size Hw Ht) as (_ & D & _).
  destruct (well_formed_ipv4_fields r Hw)
    as (r0 & r1 & r2 & r3 & p & fl & pd & E & H0 & H1 & H2 & H3 & Hp & Hf & Hd).
  assert (P4 : byte_at r 4 = p) by (rewrite E; reflexivity).
  assert (Fl : fl = 2) by (rewrite E in Hfl; exact Hfl).
  assert (Ua : u32_of_bytes r = u32_of_bytes [r0; r1; r2; r3])
    by (rewrite E; reflexivity).
  destruct (encode_text_ipv4 r0 r1 r2 r3 H0 H1 H2 H3) as (Ra & Pa & Ba).
  rewrite <- Ua in Ra, Pa, Ba.
  set (a := u32_of_bytes r) in *.
  destruct (ipv4_text_plain a) as (Sl & Nu & Ne).
  pose proof (length_ipv4_text a) as La.
  destruct (fmt_u_plain p ltac:(lia)) as [Sp Np].
  eexists. split; [exact D|].
  match goal with
  | |- ?X = _ /\ _ => assert (Enc : X = Written (firstn 7 r ++ [pad]))
  end; [|split; [exact Enc|]; rewrite Enc, E; cbn [firstn app byte_at nth];
         split; [intros K; congruence | intros ->; reflexivity]].
  unfold encode_inet, from_c_str, sizeof_IPv4Network in *.
  assert ((buffer_size <? 8) = false) as -> by lia.
  rewrite list_ascii_of_string_of_list_ascii.
  rewrite P4. unfold IPV4_MAX_PREFIXLEN.
  destruct (Z.eqb_spec p 32) as [E32|E32].
  - rewrite (c_str_all _ Nu).
    rewrite (sscanf_addr_netmask_bare _ Ne Sl) by lia.
    unfold strncpy63. rewrite firstn_all2 by lia.
    rewrite Pa. change (-1 =? -1) with true. cbv iota.
    change ((32 <? 0) || (32 >? 32)) with false. cbv iota.
    unfold bytes_of_IPv4Network. cbn [v4_address v4_netmask v4_family v4_flags].
    rewrite Ba, E, E32, Fl. reflexivity.
  - assert (Nf : forallb (fun c => negb (Ascii.eqb c NUL))
                   (ipv4_text a ++ slash ++ fmt_u p) = true)
      by (rewrite !forallb_app, Nu, Np; reflexivity).
    rewrite (c_str_all _ Nf).
    change (ipv4_text a ++ slash ++ fmt_u p)
      with (ipv4_text a ++ "/"%char :: fmt_u p).
    assert (Sd : scan_d (fmt_u p) = Some (p, [])).
    { pose proof (proj2 (scan_fmt_u p [] ltac:(lia) eq_refl)) as S.
      rewrite app_nil_r in S. exact S. }
    rewrite (sscanf_addr_netmask_full (ipv4_text a) (fmt_u p) [] p Ne Sl
               ltac:(lia) Sd).
    rewrite Pa.
    assert ((p =? -1) = false) as -> by lia.
    assert (((p <? 0) || (p >? 32)) = false) as -> by lia.
    rewrite (u8_small p) by lia.
    unfold bytes_of_IPv4Network. cbn [v4_address v4_netmask v4_family v4_flags].
    rewrite Ba, E, Fl. reflexivity.
Qed.

(** 192.168.1.5/24, written with the padding byte 0 and read back with the
    padding byte 170. *)
Lemma inet_ipv4_round_trip_witness :
  exists text,
    decode_inet [5; 1; 168; 192; 24; 2; 2; 0] 8 64 = Some text
    /\ encode_inet 170 8 (string_of_list_ascii text)
       = Written [5; 1; 168; 192; 24; 2; 2; 170]
    /\ (encode_inet 170 8 (string_of_list_ascii text)
        = Written [5; 1; 168; 192; 24; 2; 2; 0] <-> 170 = 0).
Proof.
  apply (inet_ipv4_round_trip 170 [5; 1; 168; 192; 24; 2; 2; 0] 8 64);
    try reflexivity; unfold sizeof_IPv4Network; lia.
Defined.

(** Round trip of the strict IPv4 record: the text [decode_cidr] renders for
    a well-formed IPv4 record (8 bytes) with the strict tag is read back by
    [encode_cidr], given a buffer of at least 8 bytes, into a record with the
    same fields (the same first 7 bytes, and in the eighth the padding byte of
    the encoder's local), provided the record has no host bit or its prefix
    length is 0. *)
Theorem cidr_ipv4_round_trip (pad : Z) (r : list Z) (buffer_size to_size : Z) :
  well_formed_ipv4 r = true -> flags_of r = ADDR_FLAG_CIDR ->
  (byte_at r 4 <> 0 -> host_bits_ipv4 (u32_of_bytes r) (byte_at r 4) = 0) ->
  sizeof_IPv4Network <= buffer_size -> 64 <= to_size ->
  exists text,
    decode_cidr r (size r) to_size = Some text
    /\ encode_cidr pad buffer_size (string_of_list_ascii text)
       = Written (firstn 7 r ++ [pad])
    /\ (encode_cidr pad buffer_size (string_of_list_ascii text) = Written r
        <-> pad = byte_at r 7).
Proof.
  intros Hw Hfl Hh Hb Ht.
  destruct (ipv4_record_texts_eq r to_size Hw Ht) as (D & _).
  destruct (well_formed_ipv4_fields r Hw)
    as (r0 & r1 & r2 & r3 & p & fl & pd & E & H0 & H1 & H2 & H3 & Hp & Hf & Hd).
  assert (P4 : byte_at r 4 = p) by (rewrite E; reflexivity).
  assert (Fl : fl = 1) by (rewrite E in Hfl; exact Hfl).
  assert (Ua : u32_of_bytes r = u32_of_bytes [r0; r1; r2; r3])
    by (rewrite E; reflexivity).
  destruct (encode_text_ipv4 r0 r1 r2 r3 H0 H1 H2 H3) as (Ra & Pa & Ba).
  rewrite <- Ua in Ra, Pa, Ba.
  set (a := u32_of_bytes r) in *.
  destruct (ipv4_text_plain a) as (Sl & Nu & Ne).
  pose proof (length_ipv4_text a) as La.
  destruct (fmt_u_plain p ltac:(lia)) as [Sp Np].
  eexists. split; [exact D|].
  match goal with
  | |- ?X = _ /\ _ => assert (Enc : X = Written (firstn 7 r ++ [pad]))
  end; [|split; [exact Enc|]; rewrite Enc, E; cbn [firstn app byte_at nth];
         split; [intros K; congruence | intros ->; reflexivity]].
  unfold encode_cidr, from_c_str, sizeof_IPv4Network in *.
  assert ((buffer_size <? 8) = false) as -> by lia.
  rewrite list_ascii_of_string_of_list_ascii.
  rewrite P4 in *. unfold IPV4_MAX_PREFIXLEN.
  assert (Nf : forallb (fun c => negb (Ascii.eqb c NUL))
                 (ipv4_text a ++ slash ++ fmt_u p) = true)
    by (rewrite !forallb_app, Nu, Np; reflexivity).
  rewrite (c_str_all _ Nf).
  change (ipv4_text a ++ slash ++ fmt_u p)
    with (ipv4_text a ++ "/"%char :: fmt_u p).
  assert (Sd : scan_d (fmt_u p) = Some (p, [])).
  { pose proof (proj2 (scan_fmt_u p [] ltac:(lia) eq_refl)) as S.
    rewrite app_nil_r in S. exact S. }
  rewrite (sscanf_addr_netmask_full (ipv4_text a) (fmt_u p) [] p Ne Sl
             ltac:(lia) Sd).
  rewrite Pa.
  assert (((p <? 0) || (p >? 32)) = false) as -> by lia.
  rewrite (u8_small p) by lia.
  cbn [v4_address v4_netmask].
  rewrite (validate_cidr_network_complete a p Hp Hh).
  unfold bytes_of_IPv4Network. cbn [v4_address v4_netmask v4_family v4_flags].
  rewrite Ba, E, Fl. reflexivity.
Qed.

(** 192.168.1.0/24, written with the padding byte 0 and read back with the
    padding byte 170. *)
Lemma cidr_ipv4_round_trip_witness :
  exists text,
    decode_cidr [0; 1; 168; 192; 24; 2; 1; 0] 8 64 = Some text
    /\ encode_cidr 170 8 (string_of_list_ascii text)
       = Written [0; 1; 168; 192; 24; 2; 1; 170]
    /\ (encode_cidr 170 8 (string_of_list_ascii text)
        = Written [0; 1; 168; 192; 24; 2; 1; 0] <-> 170 = 0).
Proof.
  apply (cidr_ipv4_round_trip 170 [0; 1; 168; 192; 24; 2; 1; 0] 8 64);
    try reflexivity; unfold sizeof_IPv4Network; lia.
Defined.

(** The texts of a well-formed IPv4 record (8 bytes, passed with the length
    8). [decode_cidr] gives the dotted
    address, a '/' and the prefix length; [decode_inet] the same, without the
    suffix when the prefix length is 32; [inet_host] the dotted address alone.
    [inet_text] and [inet_abbrev] build the text in a buffer of 18 bytes and so
    keep its first 17 characters only: a text of 18 characters, which is what
    four octets of three digits and a prefix length of two digits give, loses
    the last digit of the prefix length. *)
Theorem ipv4_record_texts (r : list Z) (to_size : Z) :
  well_formed_ipv4 r = true -> 64 <= to_size ->
  let address := ipv4_text (u32_of_bytes r) in
  let full := address ++ slash ++ fmt_u (byte_at r 4) in
  decode_cidr r (size r) to_size = Some full
  /\ decode_inet r (size r) to_size
     = Some (if byte_at r 4 =? 32 then address else full)
  /\ inet_host r (size r) to_size = Some address
  /\ inet_text r (size r) to_size = Some (firstn 17 full)
  /\ inet_abbrev r (size r) to_size
     = Some (if byte_at r 4 =? 32 then address else firstn 17 full)
  /\ strlen full <= 18
  /\ ((forall o, In o (octets (u32_of_bytes r)) -> 100 <= o) ->
      10 <= byte_at r 4 -> strlen full = 18).
Proof. apply ipv4_record_texts_eq. Qed.

(** 192.168.100.100/24: 18 characters, of which [inet_text] and
    [inet_abbrev] return 17. *)
Lemma ipv4_record_texts_witness :
  let r := [100; 100; 168; 192; 24; 2; 2; 0] in
  decode_cidr r 8 64 = Some (lit "192.168.100.100/24")
  /\ decode_inet r 8 64 = Some (lit "192.168.100.100/24")
  /\ inet_host r 8 64 = Some (lit "192.168.100.100")
  /\ inet_text r 8 64 = Some (lit "192.168.100.100/2")
  /\ inet_abbrev r 8 64 = Some (lit "192.168.100.100/2").
Proof.
  destruct (ipv4_record_texts [100; 100; 168; 192; 24; 2; 2; 0] 64
              eq_refl ltac:(lia)) as (A & B & C & D & E & _).
  exact (conj A (conj B (conj C (conj D E)))).
Defined.

(* ================================================================= *)
(** ** Reading back the text of an IPv6 record *)

Lemma format_ipv6_address_text (address : list Z) (n : Z) :
  40 <= n -> format_ipv6_address address n = ipv6_text address.
Proof.
  intros H. unfold format_ipv6_address.
  change (snprintf n (ipv6_text address) = ipv6_text address).
  apply snprintf_fits. change (Z.of_nat (List.length (ipv6_text address))) with 39.
  lia.
Qed.

Lemma hex_digit_facts (h : Z) :
  0 <= h < 16 ->
  xdigit_val (hex_digit h) = Some h
  /\ isspace (hex_digit h) = false
  /\ Ascii.eqb (hex_digit h) "-"%char = false
  /\ Ascii.eqb (hex_digit h) "+"%char = false
  /\ Ascii.eqb (hex_digit h) "x"%char = false
  /\ Ascii.eqb (hex_digit h) "X"%char = false
  /\ Ascii.eqb (hex_digit h) ":"%char = false
  /\ Ascii.eqb (hex_digit h) "."%char = false
  /\ Ascii.eqb (hex_digit h) "/"%char = false
  /\ Ascii.eqb (hex_digit h) NUL = false.
Proof.
  intros H.
  assert (A : forallb (fun q =>
                match xdigit_val (hex_digit q) with Some v => v =? q | None => false end
                && negb (isspace (hex_digit q))
                && negb (Ascii.eqb (hex_digit q) "-"%char)
                && negb (Ascii.eqb (hex_digit q) "+"%char)
                && negb (Ascii.eqb (hex_digit q) "x"%char)
                && negb (Ascii.eqb (hex_digit q) "X"%char)
                && negb (Ascii.eqb (hex_digit q) ":"%char)
                && negb (Ascii.eqb (hex_digit q) "."%char)
                && negb (Ascii.eqb (hex_digit q) "/"%char)
                && negb (Ascii.eqb (hex_digit q) NUL))
              (map Z.of_nat (seq 0 16)) = true)
    by (vm_compute; reflexivity).
  pose proof (forallb_range _ _ _ A h ltac:(lia)) as B. cbv beta in B.
  repeat (apply andb_prop in B; destruct B as [B ?]).
  repeat match goal with
         | K : negb _ = true |- _ => apply negb_true_iff in K
         end.
  destruct (xdigit_val (hex_digit h)) as [v|]; [|discriminate].
  apply Z.eqb_eq in B. subst v.
  repeat split; assumption.
Qed.

(** [strtoul] in base 16 on four hex digits followed by something that is
    no hex digit. *)
Lemma strtoul16_hex4 (h1 h2 h3 h4 : Z) (rest : cstring) :
  0 <= h1 < 16 -> 0 <= h2 < 16 -> 0 <= h3 < 16 -> 0 <= h4 < 16 ->
  starts_with_digit 16 rest = false ->
  strtoul ([hex_digit h1; hex_digit h2; hex_digit h3; hex_digit h4] ++ rest) 16
  = Some (((h1 * 16 + h2) * 16 + h3) * 16 + h4, rest).
Proof.
  intros H1 H2 H3 H4 Hr.
  destruct (hex_digit_facts h1 H1) as (V1 & Sp & Mi & Pl & _).
  destruct (hex_digit_facts h2 H2) as (V2 & _ & _ & _ & Lx & Ux & _).
  destruct (hex_digit_facts h3 H3) as (V3 & _).
  destruct (hex_digit_facts h4 H4) as (V4 & _).
  unfold strtoul. cbn [app skip_space]. rewrite Sp.
  unfold scan_sign. rewrite Mi, Pl. change (16 =? 16) with true. cbv iota.
  unfold skip_0x. rewrite Lx, Ux. rewrite andb_false_r. cbn [orb andb]. cbv iota.
  unfold starts_with_digit at 1. unfold digit_of at 1.
  change (16 =? 16) with true. cbv iota. rewrite V1.
  cbn [scan_digits]. unfold digit_of. change (16 =? 16) with true. cbv iota.
  rewrite V1, V2, V3, V4.
  assert (Sr : forall acc, scan_digits 16 rest acc = (acc, rest)).
  { intros acc. destruct rest as [|c t]; [reflexivity|].
    unfold starts_with_digit in Hr. cbn [scan_digits].
    destruct (digit_of 16 c); [discriminate | reflexivity]. }
  fold (digit_of 16). rewrite Sr.
  assert (((((0 * 16 + h1) * 16 + h2) * 16 + h3) * 16 + h4 >? ULONG_MAX) = false)
    as -> by (unfold ULONG_MAX; lia).
  assert (E : (((0 * 16 + h1) * 16 + h2) * 16 + h3) * 16 + h4
              = ((h1 * 16 + h2) * 16 + h3) * 16 + h4) by lia.
  rewrite E. reflexivity.
Qed.

(** A group of an IPv6 text: four characters, none a colon, a dot, a slash
    or a NUL, that [strtoul] reads as the two bytes of the group. *)
Lemma ipv6_group_facts (b1 b2 : Z) :
  0 <= b1 < 256 -> 0 <= b2 < 256 ->
  let g := fmt_02x b1 ++ fmt_02x b2 in
  (forall rest, starts_with_digit 16 rest = false ->
                strtoul (g ++ rest) 16 = Some (256 * b1 + b2, rest))
  /\ has_colon g = false /\ has_dot g = false /\ has_slash g = false
  /\ forallb (fun c => negb (Ascii.eqb c NUL)) g = true.
Proof.
  intros H1 H2 g.
  assert (R1 : 0 <= b1 / 16 < 16) by (Z.div_mod_to_equations; lia).
  assert (R2 : 0 <= b1 mod 16 < 16) by (Z.div_mod_to_equations; lia).
  assert (R3 : 0 <= b2 / 16 < 16) by (Z.div_mod_to_equations; lia).
  assert (R4 : 0 <= b2 mod 16 < 16) by (Z.div_mod_to_equations; lia).
  destruct (hex_digit_facts _ R1) as (_ & _ & _ & _ & _ & _ & C1 & D1 & S1 & N1).
  destruct (hex_digit_facts _ R2) as (_ & _ & _ & _ & _ & _ & C2 & D2 & S2 & N2).
  destruct (hex_digit_facts _ R3) as (_ & _ & _ & _ & _ & _ & C3 & D3 & S3 & N3).
  destruct (hex_digit_facts _ R4) as (_ & _ & _ & _ & _ & _ & C4 & D4 & S4 & N4).
  unfold g, fmt_02x. cbn [app].
  split; [|split; [|split; [|split]]].
  - intros rest Hr.
    change (hex_digit (b1 / 16) :: hex_digit (b1 mod 16) :: hex_digit (b2 / 16)
              :: hex_digit (b2 mod 16) :: rest)
      with ([hex_digit (b1 / 16); hex_digit (b1 mod 16); hex_digit (b2 / 16);
             hex_digit (b2 mod 16)] ++ rest).
    rewrite (strtoul16_hex4 _ _ _ _ rest R1 R2 R3 R4 Hr).
    assert (E : ((b1 / 16 * 16 + b1 mod 16) * 16 + b2 / 16) * 16 + b2 mod 16
                = 256 * b1 + b2) by (Z.div_mod_to_equations; lia).
    rewrite E. reflexivity.
  - unfold has_colon. cbn [existsb]. rewrite C1, C2, C3, C4. reflexivity.
  - unfold has_dot. cbn [existsb]. rewrite D1, D2, D3, D4. reflexivity.
  - unfold has_slash. cbn [existsb]. rewrite S1, S2, S3, S4. reflexivity.
  - cbn [forallb]. rewrite N1, N2, N3, N4. reflexivity.
Qed.

Lemma has_dot_skip_space (s : cstring) :
  has_dot s = false -> has_dot (skip_space s) = false.
Proof.
  induction s as [|c t IH]; intros H; [reflexivity|].
  cbn [skip_space]. destruct (isspace c); [|exact H].
  apply IH. simpl in H. apply orb_false_elim in H. apply H.
Qed.

Lemma has_dot_scan_digits (base : Z) (s : cstring) (acc : Z) :
  has_dot s = false -> has_dot (snd (scan_digits base s acc)) = false.
Proof.
  revert acc. induction s as [|c t IH]; intros acc H; [reflexivity|].
  cbn [scan_digits]. destruct (digit_of base c); [|exact H].
  apply IH. simpl in H. apply orb_false_elim in H. apply H.
Qed.

Lemma has_dot_scan_u (s e : cstring) (v : Z) :
  has_dot s = false -> scan_u s = Some (v, e) -> has_dot e = false.
Proof.
  intros H. unfold scan_u, strtoul.
  pose proof (has_dot_skip_space s H) as H1.
  destruct (skip_space s) as [|c t] eqn:Es.
  - cbn. discriminate.
  - assert (H2 : has_dot (snd (scan_sign (c :: t))) = false).
    { unfold scan_sign. simpl in H1. apply orb_false_elim in H1.
      destruct (Ascii.eqb c "-"%char); [apply H1|].
      destruct (Ascii.eqb c "+"%char); [apply H1|].
      simpl. rewrite (proj1 H1), (proj2 H1). reflexivity. }
    destruct (scan_sign (c :: t)) as [neg s1]. cbn [snd] in H2.
    change (10 =? 16) with false. cbv iota.
    destruct (starts_with_digit 10 s1); [|discriminate].
    pose proof (has_dot_scan_digits 10 s1 0 H2) as H3.
    destruct (scan_digits 10 s1 0) as [v0 e0]. cbn [snd] in H3.
    intros K. injection K as _ <-. exact H3.
Qed.

(** A text without a '.' is no IPv4 address. *)
Lemma parse_ipv4_no_dot (s : cstring) :
  has_dot s = false -> parse_ipv4_address s = None.
Proof.
  intros H. unfold parse_ipv4_address, sscanf_u_dot4.
  destruct (scan_u s) as [[a s1]|] eqn:E; [|reflexivity].
  pose proof (has_dot_scan_u s s1 a H E) as H1.
  destruct s1 as [|c t]; [reflexivity|].
  simpl in H1. apply orb_false_elim in H1. destruct H1 as [Hc _].
  cbn [scan_lit]. rewrite Hc. reflexivity.
Qed.

Lemma strstr_no_colon_prefix (g rest : cstring) :
  has_colon g = false ->
  strstr_double_colon (g ++ rest) =
    match strstr_double_colon rest with
    | Some (l, t) => Some (g ++ l, t)
    | None => None
    end.
Proof.
  induction g as [|c t IH]; intros H.
  - cbn [app]. destruct (strstr_double_colon rest) as [[l t]|]; reflexivity.
  - simpl in H. apply orb_false_elim in H. destruct H as [Hc Ht].
    cbn [app strstr_double_colon]. rewrite Hc. cbn [andb].
    rewrite (IH Ht).
    destruct (t ++ rest) as [|d r'] eqn:E.
    + destruct t; [|discriminate]. cbn [app] in E. rewrite E. reflexivity.
    + destruct (strstr_double_colon rest) as [[l u]|]; reflexivity.
Qed.

Lemma join_groups_head (gs : list cstring) (vs : list Z) :
  Forall2 hex_group gs vs -> gs <> [] ->
  exists c t, join_groups gs = c :: t /\ Ascii.eqb c ":"%char = false.
Proof.
  intros F Hn. destruct F as [|g v gs' vs' Hg F']; [contradiction|].
  destruct Hg as (Ne & _ & Hc & _).
  destruct g as [|c t]; [contradiction|].
  simpl in Hc. apply orb_false_elim in Hc. destruct Hc as [Hc _].
  destruct gs' as [|g2 r]; cbn [join_groups app]; eauto.
Qed.

Lemma strstr_cons_step (x c : ascii) (t : cstring) :
  Ascii.eqb c ":"%char = false ->
  strstr_double_colon (x :: c :: t) =
    match strstr_double_colon (c :: t) with
    | Some (l, u) => Some (x :: l, u)
    | None => None
    end.
Proof.
  intros H.
  assert (U : strstr_double_colon (x :: c :: t) =
              if Ascii.eqb x ":"%char && Ascii.eqb c ":"%char then Some ([], t)
              else match strstr_double_colon (c :: t) with
                   | Some (l, u) => Some (x :: l, u)
                   | None => None
                   end) by reflexivity.
  rewrite U, H, andb_false_r. reflexivity.
Qed.

(** A text of groups joined by single colons has no "::". *)
Lemma strstr_join_groups (gs : list cstring) (vs : list Z) :
  Forall2 hex_group gs vs -> strstr_double_colon (join_groups gs) = None.
Proof.
  intros F. induction F as [|g v gs' vs' Hg F' IH]; [reflexivity|].
  pose proof Hg as (Ne & _ & Hc & _).
  destruct gs' as [|g2 r].
  - cbn [join_groups]. rewrite <- (app_nil_r g).
    rewrite (strstr_no_colon_prefix g [] Hc). reflexivity.
  - change (join_groups (g :: g2 :: r)) with (g ++ colon ++ join_groups (g2 :: r)).
    rewrite (strstr_no_colon_prefix g _ Hc).
    destruct (join_groups_head (g2 :: r) vs' F' ltac:(discriminate))
      as (c & t & E & Ec).
    rewrite E in *. unfold colon. cbn [app].
    rewrite (strstr_cons_step _ c t Ec), IH. reflexivity.
Qed.

(** The group loop reads a text of at most [room] groups joined by colons
    into the values of the groups. *)
Lemma parse_groups_join (gs : list cstring) (vs : list Z) :
  Forall2 hex_group gs vs ->
  forall room acc, (List.length gs <= room)%nat ->
    parse_groups room (join_groups gs) acc = Some (acc ++ vs).
Proof.
  intros F. induction F as [|g v gs' vs' Hg F' IH]; intros room acc L.
  - destruct room; cbn; rewrite app_nil_r; reflexivity.
  - destruct room as [|room']; [simpl in L; lia|].
    pose proof Hg as (Ne & Rv & _ & _ & _ & _ & Hs).
    destruct gs' as [|g2 r].
    + inversion F'; subst. cbn [join_groups parse_groups].
      destruct g as [|c t]; [contradiction|].
      pose proof (Hs [] eq_refl) as S. rewrite app_nil_r in S. rewrite S.
      assert ((v >? 65535) = false) as -> by lia.
      rewrite Z.mod_small by lia. reflexivity.
    + change (join_groups (g :: g2 :: r))
        with (g ++ colon ++ join_groups (g2 :: r)).
      cbn [parse_groups].
      destruct g as [|c t]; [contradiction|].
      cbn [app].
      change (c :: t ++ colon ++ join_groups (g2 :: r))
        with ((c :: t) ++ ":"%char :: join_groups (g2 :: r)).
      rewrite (Hs (":"%char :: join_groups (g2 :: r)) eq_refl).
      assert ((v >? 65535) = false) as -> by lia.
      rewrite Z.mod_small by lia.
      change (Ascii.eqb ":"%char ":"%char) with true. cbv iota.
      rewrite (IH room' (acc ++ [v])) by (simpl in L |- *; lia).
      rewrite <- app_assoc. reflexivity.
Qed.

Lemma join_groups_plain (gs : list cstring) (vs : list Z) :
  Forall2 hex_group gs vs ->
  has_dot (join_groups gs) = false /\ has_slash (join_groups gs) = false
  /\ forallb (fun c => negb (Ascii.eqb c NUL)) (join_groups gs) = true.
Proof.
  intros F. induction F as [|g v gs' vs' Hg F' IH]; [repeat split|].
  destruct Hg as (_ & _ & _ & Hd & Hs & Hn & _).
  destruct IH as (I1 & I2 & I3).
  destruct gs' as [|g2 r]; [cbn [join_groups]; repeat split; assumption|].
  change (join_groups (g :: g2 :: r)) with (g ++ colon ++ join_groups (g2 :: r)).
  unfold has_dot, has_slash in *.
  rewrite !existsb_app, !forallb_app, Hd, Hs, Hn, I1, I2, I3. repeat split.
Qed.

Lemma split_u16 (hi lo : Z) :
  0 <= hi < 256 -> 0 <= lo < 256 ->
  Z.land (Z.shiftr (256 * hi + lo) 8) 255 = hi /\ Z.land (256 * hi + lo) 255 = lo.
Proof.
  intros H1 H2. change 255 with (Z.ones 8).
  rewrite !Z.land_ones, Z.shiftr_div_pow2 by lia. change (2 ^ 8) with 256.
  split; Z.div_mod_to_equations; lia.
Qed.

Lemma Forall2_map_same {A B C : Type} (P : B -> C -> Prop)
  (f : A -> B) (g : A -> C) (l : list A) :
  (forall x, In x l -> P (f x) (g x)) -> Forall2 P (map f l) (map g l).
Proof.
  induction l as [|x r IH]; intros H; simpl; constructor.
  - apply H. left. reflexivity.
  - apply IH. intros y Hy. apply H. right. exact Hy.
Qed.

(** The eight groups of the text of a 16-byte address, with their values. *)
Lemma ipv6_groups (address : list Z) :
  forallb is_byte address = true ->
  Forall2 hex_group
    (map (ipv6_group address) (seq 0 8))
    (map (fun i => 256 * byte_at address (2 * i) + byte_at address (2 * i + 1))
         (seq 0 8)).
Proof.
  intros B. apply Forall2_map_same. intros i _.
  pose proof (forallb_is_byte_nth address (2 * i) B) as R1.
  pose proof (forallb_is_byte_nth address (2 * i + 1) B) as R2.
  destruct (ipv6_group_facts _ _ R1 R2) as (S & C & D & Sl & N).
  unfold hex_group, ipv6_group.
  split; [discriminate|]. split; [lia|]. repeat split; assumption.
Qed.

Lemma store_groups_pairs (address : list Z) :
  List.length address = 16%nat -> forallb is_byte address = true ->
  store_groups (repeat 0 16) 0
    (map (fun i => 256 * byte_at address (2 * i) + byte_at address (2 * i + 1))
         (seq 0 8))
  = address.
Proof.
  intros L B.
  pose proof (fun i => forallb_is_byte_nth address i B) as R.
  pose proof (R 0%nat) as R0. pose proof (R 1%nat) as R1.
  pose proof (R 2%nat) as R2. pose proof (R 3%nat) as R3.
  pose proof (R 4%nat) as R4. pose proof (R 5%nat) as R5.
  pose proof (R 6%nat) as R6. pose proof (R 7%nat) as R7.
  pose proof (R 8%nat) as R8. pose proof (R 9%nat) as R9.
  pose proof (R 10%nat) as R10. pose proof (R 11%nat) as R11.
  pose proof (R 12%nat) as R12. pose proof (R 13%nat) as R13.
  pose proof (R 14%nat) as R14. pose proof (R 15%nat) as R15.
  clear R B.
  explode_list address L. unfold byte_at in *.
  cbn [nth map seq Nat.mul Nat.add] in *.
  cbn [store_groups upd repeat Nat.mul Nat.add].
  destruct (split_u16 _ _ R0 R1) as [-> ->].
  destruct (split_u16 _ _ R2 R3) as [-> ->].
  destruct (split_u16 _ _ R4 R5) as [-> ->].
  destruct (split_u16 _ _ R6 R7) as [-> ->].
  destruct (split_u16 _ _ R8 R9) as [-> ->].
  destruct (split_u16 _ _ R10 R11) as [-> ->].
  destruct (split_u16 _ _ R12 R13) as [-> ->].
  destruct (split_u16 _ _ R14 R15) as [-> ->].
  reflexivity.
Qed.

(** [parse_ipv6_address] reads the full text of a 16-byte address back. *)
Lemma parse_ipv6_text (address : list Z) :
  List.length address = 16%nat -> forallb is_byte address = true ->
  parse_ipv6_address (ipv6_text address) = Some address.
Proof.
  intros L B. pose proof (ipv6_groups address B) as F.
  unfold parse_ipv6_address, ipv6_text.
  rewrite (strstr_join_groups _ _ F).
  rewrite (parse_groups_join _ _ F 8 []) by (rewrite length_map; reflexivity).
  cbn [bind app]. rewrite length_map.
  change (negb (List.length (seq 0 8) =? 8)%nat) with false. cbv iota.
  rewrite (store_groups_pairs address L B). reflexivity.
Qed.

Lemma ipv6_text_plain (address : list Z) :
  forallb is_byte address = true ->
  has_dot (ipv6_text address) = false /\ has_slash (ipv6_text address) = false
  /\ forallb (fun c => negb (Ascii.eqb c NUL)) (ipv6_text address) = true
  /\ ipv6_text address <> [] /\ List.length (ipv6_text address) = 39%nat.
Proof.
  intros B. destruct (join_groups_plain _ _ (ipv6_groups address B)) as (D & S & N).
  repeat split; try assumption. discriminate.
Qed.

Lemma well_formed_ipv6_fields (r : list Z) :
  well_formed_ipv6 r = true ->
  exists address p fl,
    r = address ++ [p; 10; fl]
    /\ List.length address = 16%nat /\ forallb is_byte address = true
    /\ 0 <= p <= 128 /\ 0 <= fl < 256.
Proof.
  intros H. unfold well_formed_ipv6, sizeof_IPv6Network, AF_INET6_VAL,
    IPV6_MAX_PREFIXLEN in H.
  apply andb_prop in H. destruct H as [H Hp].
  apply andb_prop in H. destruct H as [H Hf].
  apply andb_prop in H. destruct H as [Hs Hb].
  assert (L : List.length r = 19%nat) by (unfold size in Hs; lia).
  pose proof (forallb_is_byte_nth r 16 Hb) as R16.
  pose proof (forallb_is_byte_nth r 18 Hb) as R18.
  rewrite <- (firstn_skipn 16 r) in Hb. rewrite forallb_app in Hb.
  apply andb_prop in Hb. destruct Hb as [Hb _].
  assert (E : skipn 16 r = [byte_at r 16; byte_at r 17; byte_at r 18]).
  { clear - L. explode_list r L. reflexivity. }
  exists (firstn 16 r), (byte_at r 16), (byte_at r 18).
  split; [|split; [|split; [|split]]].
  - rewrite <- (firstn_skipn 16 r) at 1. rewrite E. repeat f_equal. lia.
  - rewrite length_firstn. lia.
  - exact Hb.
  - lia.
  - lia.
Qed.

(** Round trip of the permissive IPv6 record: when byte 5 of the address is
    not 2 (so that the record is seen as IPv6), the text [decode_inet] renders
    for a well-formed IPv6 record with the permissive tag (eight groups of four
    hex digits, then '/' and the prefix length unless it is 128) is read back
    by [encode_inet] into the same record. *)
Theorem inet_ipv6_round_trip (pad : Z) (r : list Z) (buffer_size to_size : Z) :
  well_formed_ipv6 r = true -> byte_at r 5 <> 2 -> flags_of r = ADDR_FLAG_INET ->
  sizeof_IPv6Network <= buffer_size -> 64 <= to_size ->
  exists text,
    decode_inet r (size r) to_size = Some text
    /\ text = (if byte_at r 16 =? 128 then ipv6_text (firstn 16 r)
               else ipv6_text (firstn 16 r) ++ slash ++ fmt_u (byte_at r 16))
    /\ encode_inet pad buffer_size (string_of_list_ascii text) = Written r.
Proof.
  intros Hw H5 Hfl Hb Ht.
  destruct (well_formed_ipv6_fields r Hw) as (addr & p & fl & E & L & B & Hp & Hf).
  assert (F16 : firstn 16 r = addr)
    by (rewrite E, firstn_app, L, firstn_all2 by lia; cbn; apply app_nil_r).
  assert (P16 : byte_at r 16 = p)
    by (rewrite E; unfold byte_at; rewrite app_nth2 by lia; rewrite L; reflexivity).
  assert (P17 : byte_at r 17 = 10)
    by (rewrite E; unfold byte_at; rewrite app_nth2 by lia; rewrite L; reflexivity).
  assert (P18 : byte_at r 18 = fl)
    by (rewrite E; unfold byte_at; rewrite app_nth2 by lia; rewrite L; reflexivity).
  assert (Sz : size r = 19)
    by (rewrite E; unfold size; rewrite length_app, L; reflexivity).
  assert (Fl : fl = 2).
  { unfold flags_of in Hfl. rewrite Sz in Hfl.
    change (19 =? sizeof_IPv4Network) with false in Hfl. cbv iota in Hfl.
    unfold IPv6Network_of_bytes, v6_flags in Hfl. rewrite P18 in Hfl. exact Hfl. }
  destruct (ipv6_text_plain addr B) as (Td & Ts & Tn & Tne & Tl).
  destruct (fmt_u_byte p ltac:(lia)) as (Lp & _).
  destruct (fmt_u_plain p ltac:(lia)) as [Sp Np].
  rewrite F16, P16.
  set (text := if p =? 128 then ipv6_text addr
               else ipv6_text addr ++ slash ++ fmt_u p).
  assert (Lt : (List.length text <= 43)%nat).
  { unfold text. destruct (p =? 128); [lia|].
    unfold slash. rewrite !length_app. cbn [List.length]. lia. }
  exists text. split; [|split; [reflexivity|]].
  - rewrite Sz. unfold decode_inet, sizeof_IPv4Network, sizeof_IPv6Network,
      AF_INET_VAL, AF_INET6_VAL, IPV6_MAX_PREFIXLEN, kMaxIPv6String.
    change (19 <? 8) with false. cbv iota.
    assert ((byte_at r 5 =? 2) = false) as -> by lia. cbn [andb].
    change (19 >=? 19) with true. cbv iota. rewrite P17.
    change (10 =? 10) with true. cbv iota.
    unfold IPv6Network_of_bytes. cbn [v6_address v6_netmask].
    rewrite F16, P16. rewrite format_ipv6_address_text by lia.
    unfold text. unfold text in Lt.
    destruct (p =? 128).
    + rewrite snprintf_fits by lia. apply copy_out_fits. unfold strlen. lia.
    + rewrite snprintf_fits by lia. apply copy_out_fits. unfold strlen. lia.
  - unfold encode_inet, from_c_str, sizeof_IPv4Network, sizeof_IPv6Network in *.
    assert ((buffer_size <? 8) = false) as -> by lia.
    assert ((buffer_size <? 19) = false) as -> by lia.
    rewrite list_ascii_of_string_of_list_ascii.
    unfold IPV6_MAX_PREFIXLEN. unfold text.
    destruct (Z.eqb_spec p 128) as [E128|E128].
    + rewrite (c_str_all _ Tn).
      rewrite (sscanf_addr_netmask_bare _ Tne Ts) by lia.
      unfold strncpy63. rewrite firstn_all2 by lia.
      rewrite (parse_ipv4_no_dot _ Td), (parse_ipv6_text addr L B).
      change (-1 =? -1) with true. cbv iota.
      change ((128 <? 0) || (128 >? 128)) with false. cbv iota.
      unfold bytes_of_IPv6Network. cbn [v6_address v6_netmask v6_family v6_flags].
      rewrite firstn_all2 by lia. rewrite E, E128, Fl. reflexivity.
    + assert (Nf : forallb (fun c => negb (Ascii.eqb c NUL))
                     (ipv6_text addr ++ slash ++ fmt_u p) = true)
        by (rewrite !forallb_app, Tn, Np; reflexivity).
      rewrite (c_str_all _ Nf).
      change (ipv6_text addr ++ slash ++ fmt_u p)
        with (ipv6_text addr ++ "/"%char :: fmt_u p).
      assert (Sd : scan_d (fmt_u p) = Some (p, [])).
      { pose proof (proj2 (scan_fmt_u p [] ltac:(lia) eq_refl)) as S.
        rewrite app_nil_r in S. exact S. }
      rewrite (sscanf_addr_netmask_full (ipv6_text addr) (fmt_u p) [] p Tne Ts
                 ltac:(lia) Sd).
      rewrite (parse_ipv4_no_dot _ Td), (parse_ipv6_text addr L B).
      assert ((p =? -1) = false) as -> by lia.
      assert (((p <? 0) || (p >? 128)) = false) as -> by lia.
      rewrite (u8_small p) by lia.
      unfold bytes_of_IPv6Network. cbn [v6_address v6_netmask v6_family v6_flags].
      rewrite firstn_all2 by lia. rewrite E, Fl. reflexivity.
Qed.

Lemma inet_ipv6_round_trip_witness :
  let r := [32; 1; 13; 184; 0; 3; 0; 0; 0; 0; 0; 0; 0; 0; 0; 1; 64; 10; 2] in
  exists text,
    decode_inet r (size r) 64 = Some text
    /\ text = (if byte_at r 16 =? 128 then ipv6_text (firstn 16 r)
               else ipv6_text (firstn 16 r) ++ slash ++ fmt_u (byte_at r 16))
    /\ encode_inet 170 19 (string_of_list_ascii text) = Written r.
Proof.
  apply (inet_ipv6_round_trip 170
           [32; 1; 13; 184; 0; 3; 0; 0; 0; 0; 0; 0; 0; 0; 0; 1; 64; 10; 2] 19 64);
    try reflexivity; try (unfold sizeof_IPv6Network; lia).
  unfold byte_at. simpl. lia.
Defined.

(* ================================================================= *)
(** ** The abbreviated text of a strict record *)

Lemma cidr_abbrev_ipv4_eq (r : list Z) (to_size : Z) :
  well_formed_ipv4 r = true -> 64 <= to_size ->
  let shown := firstn (shown_octets (byte_at r 4)) (octets (u32_of_bytes r)) in
  let full := join_dots (map fmt_u shown) ++ slash ++ fmt_u (byte_at r 4) in
  cidr_abbrev r (size r) to_size = Some (firstn 17 full)
  /\ (byte_at r 4 <= 24 -> firstn 17 full = full)
  /\ (24 < byte_at r 4 ->
      full = ipv4_text (u32_of_bytes r) ++ slash ++ fmt_u (byte_at r 4)).
Proof.
  intros Hw Ht.
  destruct (well_formed_ipv4_fields r Hw)
    as (r0 & r1 & r2 & r3 & p & fl & pd & E & H0 & H1 & H2 & H3 & Hp & Hf & Hd).
  assert (P4 : byte_at r 4 = p) by (rewrite E; reflexivity).
  assert (Sz : size r = 8) by (rewrite E; reflexivity).
  assert (G : get_address_family r 8 = 2) by (rewrite E; reflexivity).
  rewrite Sz, P4.
  pose proof (land_255_range (Z.shiftr (u32_of_bytes r) 24)) as B0.
  pose proof (land_255_range (Z.shiftr (u32_of_bytes r) 16)) as B1.
  pose proof (land_255_range (Z.shiftr (u32_of_bytes r) 8)) as B2.
  pose proof (land_255_range (u32_of_bytes r)) as B3.
  destruct (fmt_u_byte _ ltac:(exact (conj (proj1 B0) (proj1 (Z.lt_le_pred _ _) (proj2 B0)))))
    as (L0 & _).
  destruct (fmt_u_byte _ ltac:(exact (conj (proj1 B1) (proj1 (Z.lt_le_pred _ _) (proj2 B1)))))
    as (L1 & _).
  destruct (fmt_u_byte _ ltac:(exact (conj (proj1 B2) (proj1 (Z.lt_le_pred _ _) (proj2 B2)))))
    as (L2 & _).
  destruct (fmt_u_byte _ ltac:(exact (conj (proj1 B3) (proj1 (Z.lt_le_pred _ _) (proj2 B3)))))
    as (L3 & _).
  destruct (fmt_u_byte p ltac:(lia)) as (Lp & _).
  unfold cidr_abbrev, shown_octets, sizeof_IPv4Network, AF_INET_VAL,
    kMaxIPv4String, IPv4Network_of_bytes.
  rewrite G. cbn [v4_address v4_netmask]. rewrite P4.
  change (8 <? 8) with false. change (2 =? 2) with true.
  change (8 >=? 8) with true. cbn [andb]. cbv iota zeta.
  set (o0 := Z.land (Z.shiftr (u32_of_bytes r) 24) 255) in *.
  set (o1 := Z.land (Z.shiftr (u32_of_bytes r) 16) 255) in *.
  set (o2 := Z.land (Z.shiftr (u32_of_bytes r) 8) 255) in *.
  set (o3 := Z.land (u32_of_bytes r) 255) in *.
  assert (Q : 8 * ((p + 7) / 8) <= p + 7 < 8 * ((p + 7) / 8) + 8)
    by (Z.div_mod_to_equations; lia).
  remember ((p + 7) / 8) as q eqn:Eq. clear Eq.
  assert (C : q = 0 \/ q = 1 \/ q = 2 \/ q = 3 \/ q = 4) by lia.
  unfold ipv4_text, octets. fold o0 o1 o2 o3.
  assert (T' : forall s : cstring,
              copy_out (snprintf 18 s) to_size = Some (firstn 17 s)).
  { intros s. unfold snprintf. change (Z.to_nat (18 - 1)) with 17%nat.
    apply copy_out_fits. unfold strlen. rewrite length_firstn. lia. }
  assert (F1 : firstn 1 [o0; o1; o2; o3] = [o0]) by reflexivity.
  assert (F2 : firstn 2 [o0; o1; o2; o3] = [o0; o1]) by reflexivity.
  assert (F3 : firstn 3 [o0; o1; o2; o3] = [o0; o1; o2]) by reflexivity.
  assert (F4 : firstn 4 [o0; o1; o2; o3] = [o0; o1; o2; o3]) by reflexivity.
  destruct C as [-> | [-> | [-> | [-> | ->]]]];
    [ change (Z.to_nat (Z.max 1 0)) with 1%nat; rewrite F1
    | change (Z.to_nat (Z.max 1 1)) with 1%nat; rewrite F1
    | change (Z.to_nat (Z.max 1 2)) with 2%nat; rewrite F2
    | change (Z.to_nat (Z.max 1 3)) with 3%nat; rewrite F3
    | change (Z.to_nat (Z.max 1 4)) with 4%nat; rewrite F4 ];
    cbn [Z.eqb Pos.eqb map join_dots];
    rewrite T';
    (rewrite (snprintf_fits 18 _)
       by (unfold dot; rewrite ?length_app; cbn [List.length]; lia));
    unfold slash, dot; rewrite <- ?app_assoc;
    (split; [reflexivity|]); (split; [|intros; try reflexivity; lia]);
    intros Hle; apply firstn_all2; rewrite ?length_app; cbn [List.length];
    rewrite ?length_app; cbn [List.length]; lia.
Qed.

(** The abbreviated text of a well-formed IPv4 record (8 bytes, passed with
    the length 8): [cidr_abbrev] shows as
    many octets as the prefix length covers (its eighth rounded up, at least
    one), joined by dots, then '/' and the prefix length; the octets beyond are
    dropped whatever their value. The text is built in a buffer of 18 bytes:
    up to a prefix length of 24 it fits, beyond that it is the full text cut to
    17 characters, as [inet_text] gives it. *)
Theorem cidr_abbrev_ipv4 (r : list Z) (to_size : Z) :
  well_formed_ipv4 r = true -> 64 <= to_size ->
  let shown := firstn (shown_octets (byte_at r 4)) (octets (u32_of_bytes r)) in
  let full := join_dots (map fmt_u shown) ++ slash ++ fmt_u (byte_at r 4) in
  cidr_abbrev r (size r) to_size = Some (firstn 17 full)
  /\ (byte_at r 4 <= 24 -> cidr_abbrev r (size r) to_size = Some full)
  /\ (24 < byte_at r 4 ->
      cidr_abbrev r (size r) to_size = inet_text r (size r) to_size).
Proof.
  intros Hw Ht shown full.
  destruct (cidr_abbrev_ipv4_eq r to_size Hw Ht) as (A & B & C).
  fold shown in A, B, C. fold full in A, B, C.
  split; [exact A|]. split.
  - intros H. rewrite A, (B H). reflexivity.
  - intros H. rewrite A, (C H).
    destruct (ipv4_record_texts_eq r to_size Hw Ht) as (_ & _ & _ & I & _).
    rewrite I. reflexivity.
Qed.

(** 10.1.2.3/16 and 192.168.100.100/24. *)
Lemma cidr_abbrev_ipv4_witness :
  cidr_abbrev [3; 2; 1; 10; 16; 2; 1; 0] 8 64 = Some (lit "10.1/16")
  /\ cidr_abbrev [100; 100; 168; 192; 24; 2; 1; 0] 8 64
     = Some (lit "192.168.100/24").
Proof.
  split.
  - exact (proj1 (proj2 (cidr_abbrev_ipv4 [3; 2; 1; 10; 16; 2; 1; 0] 64
                           eq_refl ltac:(lia))) ltac:(unfold byte_at; simpl; lia)).
  - exact (proj1 (proj2 (cidr_abbrev_ipv4 [100; 100; 168; 192; 24; 2; 1; 0] 64
                           eq_refl ltac:(lia))) ltac:(unfold byte_at; simpl; lia)).
Defined.

(* ================================================================= *)
(** ** Round trip of the strict IPv6 record *)

Lemma map_all_zero_inv (f : nat -> Z) (l : list nat) :
  map f l = repeat 0 (List.length l) -> forall i, In i l -> f i = 0.
Proof.
  induction l as [|x r IH]; intros H i Hi; [destruct Hi|].
  cbn [map List.length repeat] in H.
  assert (H1 : f x = 0) by congruence.
  assert (H2 : map f r = repeat 0 (List.length r)) by congruence.
  destruct Hi as [<-|Hi]; [exact H1 | exact (IH H2 i Hi)].
Qed.

(** The strict validator of IPv6 accepts every address of bytes without host
    bits, and every address under the prefix length 0. *)
Lemma validate_cidr_network_ipv6_complete (address : list Z) (p : Z) :
  forallb is_byte address = true -> 0 <= p <= 128 ->
  (p <> 0 -> host_bits_ipv6 address p = repeat 0 16) ->
  validate_cidr_network_ipv6 address p = Some true.
Proof.
  intros B Hp Hh. unfold validate_cidr_network_ipv6, IPV6_MAX_PREFIXLEN.
  assert ((p >? 128) = false) as -> by lia.
  destruct (Z.eqb_spec p 0) as [E0|E0]; [reflexivity|].
  pose proof (map_all_zero_inv _ (seq 0 16) (Hh E0)) as Z0. cbv beta in Z0.
  pose proof (fun i => forallb_is_byte_nth address i B) as R.
  pose proof (Z.div_mod p 8 ltac:(lia)) as D.
  pose proof (Z.mod_pos_bound p 8 ltac:(lia)) as M.
  assert (F : Z.of_nat (Z.to_nat (p / 8)) = p / 8)
    by (apply Z2Nat.id; apply Z.div_pos; lia).
  set (fb := Z.to_nat (p / 8)) in *. set (rem := p mod 8) in *.
  assert (T : forall i, (i < 16)%nat -> 8 * (Z.of_nat i + 1) - p >= 8 ->
              byte_at address i = 0).
  { intros i Hi Hc. pose proof (Z0 i ltac:(apply in_seq; lia)) as Zi.
    unfold host_bit_count in Zi.
    replace (Z.min 8 (Z.max 0 (8 * (Z.of_nat i + 1) - p))) with 8 in Zi by lia.
    pose proof (R i) as Ri. change (2 ^ 8) with 256 in Zi.
    rewrite Z.mod_small in Zi by lia. exact Zi. }
  destruct (Z.gtb_spec rem 0) as [Hr|Hr].
  - unfold shl_int.
    assert (((0 <=? 8 - rem) && (8 - rem <? 32)) = true) as -> by lia.
    unfold bind.
    assert (Zf : Z.land (byte_at address fb)
                   (Z.lnot (u8 (Z.shiftl 255 (8 - rem)))) = 0).
    { pose proof (Z0 fb ltac:(apply in_seq; lia)) as Zi.
      unfold host_bit_count in Zi.
      replace (Z.min 8 (Z.max 0 (8 * (Z.of_nat fb + 1) - p))) with (8 - rem)
        in Zi by lia.
      assert (A : forallb (fun q =>
                    forallb (fun b =>
                      implb (b mod 2 ^ (8 - q) =? 0)
                            (Z.land b (Z.lnot (u8 (Z.shiftl 255 (8 - q)))) =? 0))
                      (map Z.of_nat (seq 0 256)))
                    (map Z.of_nat (seq 1 7)) = true) by (vm_compute; reflexivity).
      pose proof (forallb_range _ _ _ A rem ltac:(lia)) as A1. cbv beta in A1.
      pose proof (forallb_range _ _ _ A1 (byte_at address fb)
                    ltac:(pose proof (R fb); lia)) as A2. cbv beta in A2.
      rewrite Zi in A2. change (0 =? 0) with true in A2. cbn [implb] in A2.
      apply Z.eqb_eq. exact A2. }
    rewrite Zf. change (negb (0 =? 0)) with false. cbv iota.
    f_equal. unfold remaining_bytes_zero. apply forallb_forall.
    intros i Hi. apply in_seq in Hi. apply Z.eqb_eq. apply T; lia.
  - f_equal. unfold remaining_bytes_zero. apply forallb_forall.
    intros i Hi. apply in_seq in Hi. apply Z.eqb_eq. apply T; lia.
Qed.

(** Round trip of the strict IPv6 record: when byte 5 of the address is not 2
    (so that the record is seen as IPv6), the text [decode_cidr] renders for a
    well-formed IPv6 record with the strict tag (eight groups of four hex
    digits, '/' and the prefix length) is read back by [encode_cidr] into the
    same record, provided the record has no host bit or its prefix length
    is 0. *)
Theorem cidr_ipv6_round_trip (pad : Z) (r : list Z) (buffer_size to_size : Z) :
  well_formed_ipv6 r = true -> byte_at r 5 <> 2 -> flags_of r = ADDR_FLAG_CIDR ->
  (byte_at r 16 <> 0 ->
   host_bits_ipv6 (firstn 16 r) (byte_at r 16) = repeat 0 16) ->
  sizeof_IPv6Network <= buffer_size -> 64 <= to_size ->
  exists text,
    decode_cidr r (size r) to_size = Some text
    /\ text = ipv6_text (firstn 16 r) ++ slash ++ fmt_u (byte_at r 16)
    /\ encode_cidr pad buffer_size (string_of_list_ascii text) = Written r.
Proof.
  intros Hw H5 Hfl Hh Hb Ht.
  destruct (well_formed_ipv6_fields r Hw) as (addr & p & fl & E & L & B & Hp & Hf).
  assert (F16 : firstn 16 r = addr)
    by (rewrite E, firstn_app, L, firstn_all2 by lia; cbn; apply app_nil_r).
  assert (P16 : byte_at r 16 = p)
    by (rewrite E; unfold byte_at; rewrite app_nth2 by lia; rewrite L; reflexivity).
  assert (P17 : byte_at r 17 = 10)
    by (rewrite E; unfold byte_at; rewrite app_nth2 by lia; rewrite L; reflexivity).
  assert (P18 : byte_at r 18 = fl)
    by (rewrite E; unfold byte_at; rewrite app_nth2 by lia; rewrite L; reflexivity).
  assert (Sz : size r = 19)
    by (rewrite E; unfold size; rewrite length_app, L; reflexivity).
  assert (Fl : fl = 1).
  { unfold flags_of in Hfl. rewrite Sz in Hfl.
    change (19 =? sizeof_IPv4Network) with false in Hfl. cbv iota in Hfl.
    unfold IPv6Network_of_bytes, v6_flags in Hfl. rewrite P18 in Hfl. exact Hfl. }
  destruct (ipv6_text_plain addr B) as (Td & Ts & Tn & Tne & Tl).
  destruct (fmt_u_byte p ltac:(lia)) as (Lp & _).
  destruct (fmt_u_plain p ltac:(lia)) as [Sp Np].
  rewrite F16, P16 in *.
  set (text := ipv6_text addr ++ slash ++ fmt_u p).
  assert (Lt : (List.length text <= 43)%nat).
  { unfold text, slash. rewrite !length_app. cbn [List.length]. lia. }
  exists text. split; [|split; [reflexivity|]].
  - rewrite Sz. unfold decode_cidr, sizeof_IPv4Network, sizeof_IPv6Network,
      AF_INET_VAL, AF_INET6_VAL, kMaxIPv6String.
    change (19 <? 8) with false. cbv iota.
    assert ((byte_at r 5 =? 2) = false) as -> by lia. cbn [andb].
    change (19 >=? 19) with true. cbv iota. rewrite P17.
    change (10 =? 10) with true. cbv iota.
    unfold IPv6Network_of_bytes. cbn [v6_address v6_netmask].
    rewrite F16, P16. rewrite format_ipv6_address_text by lia.
    fold text. rewrite snprintf_fits by lia.
    apply copy_out_fits. unfold strlen. lia.
  - unfold encode_cidr, from_c_str, sizeof_IPv4Network, sizeof_IPv6Network in *.
    assert ((buffer_size <? 8) = false) as -> by lia.
    assert ((buffer_size <? 19) = false) as -> by lia.
    rewrite list_ascii_of_string_of_list_ascii.
    unfold IPV6_MAX_PREFIXLEN. unfold text.
    assert (Nf : forallb (fun c => negb (Ascii.eqb c NUL))
                   (ipv6_text addr ++ slash ++ fmt_u p) = true)
      by (rewrite !forallb_app, Tn, Np; reflexivity).
    rewrite (c_str_all _ Nf).
    change (ipv6_text addr ++ slash ++ fmt_u p)
      with (ipv6_text addr ++ "/"%char :: fmt_u p).
    assert (Sd : scan_d (fmt_u p) = Some (p, [])).
    { pose proof (proj2 (scan_fmt_u p [] ltac:(lia) eq_refl)) as S.
      rewrite app_nil_r in S. exact S. }
    rewrite (sscanf_addr_netmask_full (ipv6_text addr) (fmt_u p) [] p Tne Ts
               ltac:(lia) Sd).
    rewrite (parse_ipv4_no_dot _ Td), (parse_ipv6_text addr L B).
    assert (((p <? 0) || (p >? 128)) = false) as -> by lia.
    cbn [v6_address v6_netmask].
    rewrite (u8_small p) by lia.
    rewrite (validate_cidr_network_ipv6_complete addr p B Hp Hh).
    unfold bytes_of_IPv6Network. cbn [v6_address v6_netmask v6_family v6_flags].
    rewrite firstn_all2 by lia. rewrite E, Fl. reflexivity.
Qed.

Lemma cidr_ipv6_round_trip_witness :
  let r := [32; 1; 13; 184; 0; 3; 0; 0; 0; 0; 0; 0; 0; 0; 0; 0; 64; 10; 1] in
  exists text,
    decode_cidr r (size r) 64 = Some text
    /\ text = ipv6_text (firstn 16 r) ++ slash ++ fmt_u (byte_at r 16)
    /\ encode_cidr 170 19 (string_of_list_ascii text) = Written r.
Proof.
  apply (cidr_ipv6_round_trip 170
           [32; 1; 13; 184; 0; 3; 0; 0; 0; 0; 0; 0; 0; 0; 0; 0; 64; 10; 1] 19 64);
    try reflexivity; try (unfold sizeof_IPv6Network; lia).
  unfold byte_at. simpl. lia.
Defined.

(* ================================================================= *)
(** ** Host bits of the strict records the code writes *)

Lemma Written_inj (a b : list Z) : Written a = Written b -> a = b.
Proof. intros H. congruence. Qed.

Lemma scan_u_range (s : cstring) (v : Z) (e : cstring) :
  scan_u s = Some (v, e) -> 0 <= v < 2 ^ 32.
Proof.
  unfold scan_u. destruct (strtoul s 10) as [[w e']|]; [|discriminate].
  intros H. assert (E : u32 w = v) by congruence. rewrite <- E.
  unfold u32. apply Z.mod_pos_bound. lia.
Qed.

Lemma sscanf_u_dot4_range (s : cstring) :
  Forall (fun x => 0 <= x < 2 ^ 32) (sscanf_u_dot4 s).
Proof.
  unfold sscanf_u_dot4.
  destruct (scan_u s) as [[a s1]|] eqn:Ea; [|apply Forall_nil].
  pose proof (scan_u_range _ _ _ Ea) as Ra.
  destruct (scan_lit "."%char s1) as [s2|];
    [|repeat (apply Forall_cons; [assumption|]); apply Forall_nil].
  destruct (scan_u s2) as [[b s3]|] eqn:Eb;
    [|repeat (apply Forall_cons; [assumption|]); apply Forall_nil].
  pose proof (scan_u_range _ _ _ Eb) as Rb.
  destruct (scan_lit "."%char s3) as [s4|];
    [|repeat (apply Forall_cons; [assumption|]); apply Forall_nil].
  destruct (scan_u s4) as [[c s5]|] eqn:Ec;
    [|repeat (apply Forall_cons; [assumption|]); apply Forall_nil].
  pose proof (scan_u_range _ _ _ Ec) as Rc.
  destruct (scan_lit "."%char s5) as [s6|];
    [|repeat (apply Forall_cons; [assumption|]); apply Forall_nil].
  destruct (scan_u s6) as [[d s7]|] eqn:Ed;
    [|repeat (apply Forall_cons; [assumption|]); apply Forall_nil].
  pose proof (scan_u_range _ _ _ Ed) as Rd.
  repeat (apply Forall_cons; [assumption|]); apply Forall_nil.
Qed.

(** What [parse_ipv4_address] stores is a 32-bit value. *)
Lemma parse_ipv4_address_range (s : cstring) (address : Z) :
  parse_ipv4_address s = Some address -> 0 <= address < 2 ^ 32.
Proof.
  unfold parse_ipv4_address. pose proof (sscanf_u_dot4_range s) as F.
  destruct (sscanf_u_dot4 s) as [|a [|b [|c [|d [|x t]]]]]; try discriminate.
  inversion F as [|? ? Ra F1]. inversion F1 as [|? ? Rb F2].
  inversion F2 as [|? ? Rc F3]. inversion F3 as [|? ? Rd F4]. subst.
  destruct ((a >? 255) || (b >? 255) || (c >? 255) || (d >? 255)) eqn:G;
    [discriminate|].
  unfold shl_u32. cbn [andb Z.leb Z.ltb Z.compare Pos.compare Pos.compare_cont].
  intros H.
  assert (E : Z.lor (Z.lor (Z.lor (u32 (Z.shiftl a 24)) (u32 (Z.shiftl b 16)))
                     (u32 (Z.shiftl c 8))) d = address) by congruence.
  rewrite <- E.
  rewrite lor_of_octets by lia. change (2 ^ 32) with 4294967296. lia.
Qed.

Lemma length_and_bytes16 (a m : list Z) : List.length (and_bytes16 a m) = 16%nat.
Proof. unfold and_bytes16. rewrite length_map. reflexivity. Qed.

(** The bytes of an IPv6 record a function writes. *)
Lemma ipv6_record_fields (address : list Z) (p fl : Z) :
  List.length address = 16%nat ->
  let b := bytes_of_IPv6Network (mkIPv6Network address p AF_INET6_VAL fl) in
  size b = 19 /\ firstn 16 b = address /\ byte_at b 16 = p
  /\ byte_at b 17 = AF_INET6_VAL /\ flags_of b = fl.
Proof.
  intros L b. unfold b, bytes_of_IPv6Network.
  cbn [v6_address v6_netmask v6_family v6_flags].
  rewrite (firstn_all2 address) by lia.
  assert (S : size (address ++ [p; AF_INET6_VAL; fl]) = 19)
    by (unfold size; rewrite length_app, L; reflexivity).
  split; [exact S|]. split.
  - rewrite firstn_app, L, firstn_all2 by lia. cbn. apply app_nil_r.
  - unfold flags_of. rewrite S.
    change (19 =? sizeof_IPv4Network) with false. cbv iota.
    unfold IPv6Network_of_bytes, v6_flags, byte_at.
    rewrite !app_nth2 by lia. rewrite L. repeat split.
Qed.

(** What the strict encoder writes: an IPv4 or an IPv6 record with the
    strict tag, of an address and a prefix length that the validator of the
    family accepted. *)
Lemma encode_cidr_written (pad buffer_size : Z) (from : string) (out : list Z) :
  encode_cidr pad buffer_size from = Written out ->
  (exists address p,
      out = bytes_of_IPv4Network
              (mkIPv4Network address p AF_INET_VAL ADDR_FLAG_CIDR) pad
      /\ 0 <= address < 2 ^ 32 /\ 0 <= p <= 32
      /\ validate_cidr_network address p = Some true)
  \/ (exists address p,
      out = bytes_of_IPv6Network
              (mkIPv6Network address p AF_INET6_VAL ADDR_FLAG_CIDR)
      /\ List.length address = 16%nat /\ 0 <= p <= 128
      /\ validate_cidr_network_ipv6 address p = Some true).
Proof.
  unfold encode_cidr, IPV4_MAX_PREFIXLEN, IPV6_MAX_PREFIXLEN.
  destruct (buffer_size <? sizeof_IPv4Network); [discriminate|].
  destruct (sscanf_addr_netmask (from_c_str from)) as [|?|addr_str netmask];
    try discriminate.
  destruct (parse_ipv4_address addr_str) as [address|] eqn:P4.
  - destruct ((netmask <? 0) || (netmask >? 32)) eqn:R; [discriminate|].
    assert (U : u8 netmask = netmask) by (apply u8_small; lia).
    cbv zeta. unfold v4_address, v4_netmask. rewrite U.
    destruct (validate_cidr_network address netmask) as [[|]|] eqn:V;
      try discriminate.
    intros H. left. exists address, netmask.
    split; [congruence|]. split; [exact (parse_ipv4_address_range _ _ P4)|].
    split; [lia | exact V].
  - destruct (buffer_size <? sizeof_IPv6Network); [discriminate|].
    destruct (parse_ipv6_address addr_str) as [address|] eqn:P6; [|discriminate].
    destruct ((netmask <? 0) || (netmask >? 128)) eqn:R; [discriminate|].
    assert (U : u8 netmask = netmask) by (apply u8_small; lia).
    cbv zeta. unfold v6_address, v6_netmask. rewrite U.
    destruct (validate_cidr_network_ipv6 address netmask) as [[|]|] eqn:V;
      try discriminate.
    intros H. right. exists address, netmask.
    split; [congruence|].
    split; [exact (proj1 (parse_ipv6_address_bytes _ _ P6))|].
    split; [lia | exact V].
Qed.

(** A record the strict encoder writes carries the strict tag and is either
    an IPv4 record (8 bytes, family tag 2 at offset 5, prefix length at most
    32) or an IPv6 record (19 bytes, family tag 10 at offset 17, prefix length
    at most 128); unless its prefix length is 0, its address has no bit set
    beyond the prefix length. *)
Theorem encode_cidr_strict_invariant
  (pad buffer_size : Z) (from : string) (out : list Z) :
  encode_cidr pad buffer_size from = Written out ->
  flags_of out = ADDR_FLAG_CIDR
  /\ ((size out = 8 /\ byte_at out 5 = AF_INET_VAL /\ 0 <= byte_at out 4 <= 32
       /\ (byte_at out 4 <> 0 ->
           host_bits_ipv4 (u32_of_bytes out) (byte_at out 4) = 0))
      \/ (size out = 19 /\ byte_at out 17 = AF_INET6_VAL
          /\ 0 <= byte_at out 16 <= 128
          /\ (byte_at out 16 <> 0 ->
              host_bits_ipv6 (firstn 16 out) (byte_at out 16) = repeat 0 16))).
Proof.
  intros H.
  destruct (encode_cidr_written _ _ _ _ H)
    as [(a & p & -> & Ra & Rp & V) | (a & p & -> & L & Rp & V)].
  - destruct (ipv4_record_fields a p ADDR_FLAG_CIDR pad Ra)
      as (F5 & F4 & Fa & Fs & F6 & _).
    split; [reflexivity|]. left.
    rewrite F4, Fa. repeat split; try assumption; try lia.
    intros N. apply validate_cidr_network_host_bits; [lia | exact V].
  - destruct (ipv6_record_fields a p ADDR_FLAG_CIDR L) as (Fs & Fa & Fp & Ff & Fl).
    split; [exact Fl|]. right.
    rewrite Fa, Fp. repeat split; try assumption; try lia.
    intros N. apply validate_cidr_network_ipv6_host_bits; [lia | exact V].
Qed.

(** 192.168.1.0/24 is stored: 8 bytes, the strict tag, no host bit. *)
Lemma encode_cidr_strict_invariant_witness :
  encode_cidr 170 19 "192.168.1.0/24" = Written [0; 1; 168; 192; 24; 2; 1; 170]
  /\ flags_of [0; 1; 168; 192; 24; 2; 1; 170] = ADDR_FLAG_CIDR
  /\ host_bits_ipv4 (u32_of_bytes [0; 1; 168; 192; 24; 2; 1; 170]) 24 = 0.
Proof.
  assert (E : encode_cidr 170 19 "192.168.1.0/24"
              = Written [0; 1; 168; 192; 24; 2; 1; 170])
    by (vm_compute; reflexivity).
  destruct (encode_cidr_strict_invariant 170 19 "192.168.1.0/24" _ E)
    as (F & [(_ & _ & _ & Hh) | (S & _)]).
  - exact (conj E (conj F (Hh ltac:(unfold byte_at; simpl; lia)))).
  - exfalso. revert S. unfold size. simpl. lia.
Defined.

(** A record that network extraction writes from a buffer of bytes carries
    the strict tag and the prefix length of its input, is an IPv4 record of 8
    bytes or an IPv6 record of 19, and its address has no bit set beyond the
    prefix length: the function clears the host bits itself and does not rely
    on its input. *)
Theorem inet_network_strict_invariant (pad : Z) (buffer out : list Z) :
  forallb is_byte buffer = true ->
  inet_network pad buffer (size buffer) = Written out ->
  flags_of out = ADDR_FLAG_CIDR
  /\ ((size out = 8 /\ byte_at out 5 = AF_INET_VAL
       /\ byte_at out 4 = byte_at buffer 4
       /\ (byte_at out 4 <= 32 ->
           host_bits_ipv4 (u32_of_bytes out) (byte_at out 4) = 0))
      \/ (size out = 19 /\ byte_at out 17 = AF_INET6_VAL
          /\ byte_at out 16 = byte_at buffer 16
          /\ (byte_at out 16 <= 128 ->
              host_bits_ipv6 (firstn 16 out) (byte_at out 16) = repeat 0 16))).
Proof.
  intros B. unfold inet_network.
  destruct (size buffer <? sizeof_IPv4Network); [discriminate|].
  destruct ((get_address_family buffer (size buffer) =? AF_INET_VAL)
            && (size buffer >=? sizeof_IPv4Network)).
  - unfold IPv4Network_of_bytes, v4_address, v4_netmask.
    pose proof (forallb_is_byte_nth buffer 4 B) as P.
    pose proof (u32_of_bytes_range buffer B) as Ra.
    destruct (prefix_to_netmask_ipv4 (byte_at buffer 4)) as [m|] eqn:M;
      [|discriminate].
    intros H. apply Written_inj in H. subst out.
    pose proof (land_range (u32_of_bytes buffer) m 32 ltac:(lia) Ra) as Rl.
    destruct (ipv4_record_fields (Z.land (u32_of_bytes buffer) m)
                (byte_at buffer 4) ADDR_FLAG_CIDR pad Rl)
      as (F5 & F4 & Fa & Fs & F6 & _).
    split; [reflexivity|]. left. rewrite F4, Fa.
    repeat split; try assumption.
    intros N. apply netmask_ipv4_clears_host_bits; [lia | exact M].
  - destruct ((get_address_family buffer (size buffer) =? AF_INET6_VAL)
              && (size buffer >=? sizeof_IPv6Network)); [|discriminate].
    unfold IPv6Network_of_bytes, v6_address, v6_netmask.
    pose proof (forallb_is_byte_nth buffer 16 B) as P.
    destruct (prefix_to_netmask_ipv6 (byte_at buffer 16)) as [m|] eqn:M;
      [|discriminate].
    intros H. apply Written_inj in H. subst out.
    destruct (ipv6_record_fields (and_bytes16 (firstn 16 buffer) m)
                (byte_at buffer 16) ADDR_FLAG_CIDR (length_and_bytes16 _ _))
      as (Fs & Fa & Fp & Ff & Fl).
    split; [exact Fl|]. right. rewrite Fa, Fp.
    repeat split; try assumption.
    intros N. apply netmask_ipv6_clears_host_bits; [lia | exact M].
Qed.

(** 192.168.1.5/24 gives 192.168.1.0/24 with the strict tag. *)
Lemma inet_network_strict_invariant_witness :
  inet_network 170 [5; 1; 168; 192; 24; 2; 2; 0] 8
  = Written [0; 1; 168; 192; 24; 2; 1; 170]
  /\ flags_of [0; 1; 168; 192; 24; 2; 1; 170] = ADDR_FLAG_CIDR
  /\ host_bits_ipv4 (u32_of_bytes [0; 1; 168; 192; 24; 2; 1; 170]) 24 = 0.
Proof.
  assert (E : inet_network 170 [5; 1; 168; 192; 24; 2; 2; 0]
                (size [5; 1; 168; 192; 24; 2; 2; 0])
              = Written [0; 1; 168; 192; 24; 2; 1; 170])
    by (vm_compute; reflexivity).
  destruct (inet_network_strict_invariant 170 [5; 1; 168; 192; 24; 2; 2; 0] _
              eq_refl E)
    as (F & [(_ & _ & _ & Hh) | (S & _)]).
  - exact (conj E (conj F (Hh ltac:(unfold byte_at; simpl; lia)))).
  - exfalso. revert S. unfold size. simpl. lia.
Defined.

(** A record that the strict prefix rewrite writes carries the strict tag
    and the new prefix length, which is within the range of the family; it is
    an IPv4 record of 8 bytes or an IPv6 record of 19, and its address has no
    bit set beyond the new prefix length. *)
Theorem cidr_set_masklen_strict_invariant
  (pad : Z) (buffer : list Z) (new_masklen : Z) (out : list Z) :
  forallb is_byte buffer = true ->
  cidr_set_masklen pad buffer (size buffer) new_masklen = Written out ->
  flags_of out = ADDR_FLAG_CIDR
  /\ ((size out = 8 /\ byte_at out 5 = AF_INET_VAL
       /\ byte_at out 4 = new_masklen /\ 0 <= new_masklen <= 32
       /\ host_bits_ipv4 (u32_of_bytes out) new_masklen = 0)
      \/ (size out = 19 /\ byte_at out 17 = AF_INET6_VAL
          /\ byte_at out 16 = new_masklen /\ 0 <= new_masklen <= 128
          /\ host_bits_ipv6 (firstn 16 out) new_masklen = repeat 0 16)).
Proof.
  intros B. unfold cidr_set_masklen.
  destruct (size buffer <? sizeof_IPv4Network); [discriminate|].
  destruct ((get_address_family buffer (size buffer) =? AF_INET_VAL)
            && (size buffer >=? sizeof_IPv4Network)).
  - destruct ((new_masklen <? 0) || (new_masklen >? 32)) eqn:R; [discriminate|].
    assert (U : u8 new_masklen = new_masklen) by (apply u8_small; lia).
    rewrite U.
    pose proof (u32_of_bytes_range buffer B) as Ra.
    unfold IPv4Network_of_bytes, v4_address.
    destruct (prefix_to_netmask_ipv4 new_masklen) as [m|] eqn:M; [|discriminate].
    intros H. apply Written_inj in H. subst out.
    pose proof (land_range (u32_of_bytes buffer) m 32 ltac:(lia) Ra) as Rl.
    destruct (ipv4_record_fields (Z.land (u32_of_bytes buffer) m)
                new_masklen ADDR_FLAG_CIDR pad Rl)
      as (F5 & F4 & Fa & Fs & F6 & _).
    split; [reflexivity|]. left. rewrite Fa.
    repeat split; try assumption; try lia.
    apply netmask_ipv4_clears_host_bits; [lia | exact M].
  - destruct ((get_address_family buffer (size buffer) =? AF_INET6_VAL)
              && (size buffer >=? sizeof_IPv6Network)); [|discriminate].
    destruct ((new_masklen <? 0) || (new_masklen >? 128)) eqn:R; [discriminate|].
    assert (U : u8 new_masklen = new_masklen) by (apply u8_small; lia).
    rewrite U.
    unfold IPv6Network_of_bytes, v6_address.
    destruct (prefix_to_netmask_ipv6 new_masklen) as [m|] eqn:M; [|discriminate].
    intros H. apply Written_inj in H. subst out.
    destruct (ipv6_record_fields (and_bytes16 (firstn 16 buffer) m)
                new_masklen ADDR_FLAG_CIDR (length_and_bytes16 _ _))
      as (Fs & Fa & Fp & Ff & Fl).
    split; [exact Fl|]. right. rewrite Fa.
    repeat split; try assumption; try lia.
    apply netmask_ipv6_clears_host_bits; [lia | exact M].
Qed.

(** 192.168.1.0/24 rewritten to /16 gives 192.168.0.0/16. *)
Lemma cidr_set_masklen_strict_invariant_witness :
  cidr_set_masklen 170 [0; 1; 168; 192; 24; 2; 1; 0] 8 16
  = Written [0; 0; 168; 192; 16; 2; 1; 170]
  /\ flags_of [0; 0; 168; 192; 16; 2; 1; 170] = ADDR_FLAG_CIDR
  /\ host_bits_ipv4 (u32_of_bytes [0; 0; 168; 192; 16; 2; 1; 170]) 16 = 0.
Proof.
  assert (E : cidr_set_masklen 170 [0; 1; 168; 192; 24; 2; 1; 0]
                (size [0; 1; 168; 192; 24; 2; 1; 0]) 16
              = Written [0; 0; 168; 192; 16; 2; 1; 170])
    by (vm_compute; reflexivity).
  destruct (cidr_set_masklen_strict_invariant 170 [0; 1; 168; 192; 24; 2; 1; 0]
              16 _ eq_refl E)
    as (F & [(_ & _ & _ & _ & Hh) | (S & _)]).
  - exact (conj E (conj F Hh)).
  - exfalso. revert S. unfold size. simpl. lia.
Defined.

(* ================================================================= *)
(** ** The prefix length as written and as stored *)

Lemma digit_val_range (c : ascii) (d : Z) :
  digit_val c = Some d -> 0 <= d <= 9.
Proof.
  destruct c as [b0 b1 b2 b3 b4 b5 b6 b7].
  destruct b0, b1, b2, b3, b4, b5, b6, b7; vm_compute; intros H;
    try discriminate H; injection H as <-; split; discriminate.
Qed.

Lemma dec_value_nonneg (ds : cstring) (acc : Z) :
  0 <= acc -> 0 <= dec_value ds acc.
Proof.
  revert acc. induction ds as [|c r IH]; intros acc H; [exact H|].
  unfold dec_value. cbn [fold_left]. apply IH.
  destruct (digit_val c) as [d|] eqn:E; [|lia].
  pose proof (digit_val_range c d E). lia.
Qed.

(** [strtol] in base 10 on a run of digits: the number they spell, clamped
    at [LONG_MAX]. *)
Lemma strtol10_digits_clamp (c : ascii) (ds rest : cstring) :
  forallb is_digit (c :: ds) = true -> starts_with_digit 10 rest = false ->
  strtol10 ((c :: ds) ++ rest)
  = Some (Z.min LONG_MAX (dec_value (c :: ds) 0), rest).
Proof.
  intros Hd Hr.
  assert (Hc : is_digit c = true) by (simpl in Hd; apply andb_prop in Hd; apply Hd).
  destruct (digit_char_facts c Hc) as (Sp & Mi & Pl & _ & _).
  unfold strtol10. cbn [app skip_space]. rewrite Sp.
  unfold scan_sign. rewrite Mi, Pl.
  assert (St : starts_with_digit 10 (c :: ds ++ rest) = true).
  { unfold starts_with_digit, digit_of. change (10 =? 16) with false. cbv iota.
    unfold is_digit in Hc. destruct (digit_val c); [reflexivity | discriminate]. }
  rewrite St.
  change (c :: ds ++ rest) with ((c :: ds) ++ rest).
  rewrite (scan_digits10_app _ _ 0 Hd Hr). reflexivity.
Qed.

Lemma encode_prefix_number_eq (pad buffer_size a : Z) (digits : cstring) :
  sizeof_IPv4Network <= buffer_size -> 0 <= a < 2 ^ 32 ->
  digits <> [] -> forallb is_digit digits = true ->
  let n := to_int (Z.min LONG_MAX (dec_value digits 0)) in
  let text := string_of_list_ascii (ipv4_text a ++ slash ++ digits) in
  sscanf_addr_netmask (ipv4_text a ++ slash ++ digits) = Scanned2 (ipv4_text a) n
  /\ encode_cidr pad buffer_size text
     = (if (n <? 0) || (n >? 32) then Invalid
        else match validate_cidr_network a n with
             | None => Undefined
             | Some false => Invalid
             | Some true =>
                 Written (bytes_of_IPv4Network
                            (mkIPv4Network a n AF_INET_VAL ADDR_FLAG_CIDR) pad)
             end)
  /\ encode_inet pad buffer_size text
     = (if n =? -1
        then Written (bytes_of_IPv4Network
                        (mkIPv4Network a 32 AF_INET_VAL ADDR_FLAG_INET) pad)
        else if (n <? 0) || (n >? 32) then Invalid
        else Written (bytes_of_IPv4Network
                        (mkIPv4Network a n AF_INET_VAL ADDR_FLAG_INET) pad)).
Proof.
  intros Hb Ha Hne Hd n text.
  destruct digits as [|c ds]; [contradiction|].
  assert (Sd : scan_d (c :: ds) = Some (n, [])).
  { unfold scan_d.
    pose proof (strtol10_digits_clamp c ds [] Hd eq_refl) as S.
    rewrite app_nil_r in S. rewrite S. reflexivity. }
  destruct (ipv4_text_plain a) as (Sl & Nu & Ne).
  pose proof (length_ipv4_text a) as La.
  destruct (digits_plain _ Hd) as [Sp Np].
  assert (Sc : sscanf_addr_netmask (ipv4_text a ++ slash ++ c :: ds)
               = Scanned2 (ipv4_text a) n).
  { change (ipv4_text a ++ slash ++ c :: ds)
      with (ipv4_text a ++ "/"%char :: c :: ds).
    apply (sscanf_addr_netmask_full (ipv4_text a) (c :: ds) [] n Ne Sl
             ltac:(lia) Sd). }
  assert (Nf : forallb (fun x => negb (Ascii.eqb x NUL))
                 (ipv4_text a ++ slash ++ c :: ds) = true)
    by (rewrite !forallb_app, Nu, Np; reflexivity).
  split; [exact Sc|].
  unfold encode_cidr, encode_inet, from_c_str, text, sizeof_IPv4Network in *.
  assert ((buffer_size <? 8) = false) as -> by lia.
  rewrite list_ascii_of_string_of_list_ascii.
  rewrite (c_str_all _ Nf), Sc, (parse_ipv4_text a Ha).
  unfold IPV4_MAX_PREFIXLEN. cbn [v4_address v4_netmask]. split.
  - destruct ((n <? 0) || (n >? 32)) eqn:R; [reflexivity|].
    rewrite (u8_small n) by lia. reflexivity.
  - destruct (Z.eqb_spec n (-1)) as [E|E].
    + reflexivity.
    + destruct ((n <? 0) || (n >? 32)) eqn:R; [reflexivity|].
      rewrite (u8_small n) by lia. reflexivity.
Qed.

(** The prefix length of a text is tested as stored, not as written. For a
    text made of a dotted IPv4 address, '/' and a run of decimal digits that
    spell the number N, [sscanf] stores in the [int] the number N clamped at
    [LONG_MAX] and cut to 32 bits, and the encoders test that [int]. So a
    number from 33 to [INT_MAX] is marked invalid by both encoders; but a
    number that is at most 32 modulo 2^32 is stored with that prefix length,
    by the permissive encoder always and by the strict encoder when the
    address has no host bit under it (or it is 0), and a number that is
    2^32 - 1 modulo 2^32, or that is above [LONG_MAX], is stored by the
    permissive encoder with the prefix length 32. *)
Theorem encode_prefix_number (pad buffer_size a : Z) (digits : cstring) :
  sizeof_IPv4Network <= buffer_size -> 0 <= a < 2 ^ 32 ->
  digits <> [] -> forallb is_digit digits = true ->
  let N := dec_value digits 0 in
  let text := string_of_list_ascii (ipv4_text a ++ slash ++ digits) in
  let inet p :=
    Written (bytes_of_IPv4Network
               (mkIPv4Network a p AF_INET_VAL ADDR_FLAG_INET) pad) in
  (32 < N <= 2147483647 ->
   encode_cidr pad buffer_size text = Invalid
   /\ encode_inet pad buffer_size text = Invalid)
  /\ (N <= LONG_MAX -> N mod 2 ^ 32 <= 32 ->
      (N mod 2 ^ 32 <> 0 -> host_bits_ipv4 a (N mod 2 ^ 32) = 0) ->
      encode_cidr pad buffer_size text
      = Written (bytes_of_IPv4Network
                   (mkIPv4Network a (N mod 2 ^ 32) AF_INET_VAL ADDR_FLAG_CIDR)
                   pad))
  /\ (N <= LONG_MAX -> N mod 2 ^ 32 <= 32 ->
      encode_inet pad buffer_size text = inet (N mod 2 ^ 32))
  /\ (N mod 2 ^ 32 = 2 ^ 32 - 1 \/ LONG_MAX < N ->
      encode_inet pad buffer_size text = inet 32).
Proof.
  intros Hb Ha Hne Hd N text inet.
  destruct (encode_prefix_number_eq pad buffer_size a digits Hb Ha Hne Hd)
    as (_ & C & I).
  fold N in C, I. fold text in C, I.
  pose proof (dec_value_nonneg digits 0 ltac:(lia)) as N0. fold N in N0.
  set (n := to_int (Z.min LONG_MAX N)) in *.
  assert (T1 : 32 < N <= 2147483647 -> n = N).
  { intros H. unfold n, to_int, LONG_MAX. rewrite Z.min_r by lia.
    rewrite Z.mod_small by lia. lia. }
  assert (T2 : N <= LONG_MAX -> N mod 2 ^ 32 < 2 ^ 31 -> n = N mod 2 ^ 32).
  { intros H1 H2. unfold n, to_int. rewrite Z.min_r by lia.
    change (2 ^ 32) with 4294967296 in *. change (2 ^ 31) with 2147483648 in *.
    Z.div_mod_to_equations. lia. }
  assert (T3 : N mod 2 ^ 32 = 2 ^ 32 - 1 \/ LONG_MAX < N -> n = -1).
  { intros [H|H]; unfold n, to_int.
    - assert (K : Z.min LONG_MAX N mod 2 ^ 32 = 2 ^ 32 - 1).
      { destruct (Z.le_gt_cases N LONG_MAX) as [G|G].
        - rewrite Z.min_r by lia. exact H.
        - rewrite Z.min_l by lia. reflexivity. }
      revert K. generalize (Z.min LONG_MAX N). intros x K.
      change (2 ^ 32) with 4294967296 in *. change (2 ^ 31) with 2147483648 in *.
      Z.div_mod_to_equations. lia.
    - rewrite Z.min_l by lia. reflexivity. }
  split; [|split; [|split]].
  - intros H. rewrite C, I, (T1 H).
    assert ((N =? -1) = false) as -> by lia.
    assert (((N <? 0) || (N >? 32)) = true) as -> by lia.
    split; reflexivity.
  - intros H1 H2 H3.
    rewrite C, (T2 H1 ltac:(change (2 ^ 31) with 2147483648; lia)).
    pose proof (Z.mod_pos_bound N (2 ^ 32) ltac:(lia)) as M.
    assert (((N mod 2 ^ 32 <? 0) || (N mod 2 ^ 32 >? 32)) = false) as -> by lia.
    rewrite (validate_cidr_network_complete a (N mod 2 ^ 32) ltac:(lia) H3).
    reflexivity.
  - intros H1 H2. rewrite I, (T2 H1 ltac:(change (2 ^ 31) with 2147483648; lia)).
    pose proof (Z.mod_pos_bound N (2 ^ 32) ltac:(lia)) as M.
    assert ((N mod 2 ^ 32 =? -1) = false) as -> by lia.
    assert (((N mod 2 ^ 32 <? 0) || (N mod 2 ^ 32 >? 32)) = false) as -> by lia.
    reflexivity.
  - intros H. rewrite I, (T3 H). reflexivity.
Qed.

(** "192.168.1.0/33" is marked invalid by both encoders; "192.168.1.0/"
    followed by 2^32 + 24 is stored as /24 by both encoders, and followed by
    2^32 - 1 it is stored as /32 by the permissive encoder. *)
Lemma encode_prefix_number_witness :
  encode_cidr 0 19 "192.168.1.0/33" = Invalid
  /\ encode_inet 0 19 "192.168.1.0/33" = Invalid
  /\ encode_cidr 0 19 "192.168.1.0/4294967320"
     = Written [0; 1; 168; 192; 24; 2; 1; 0]
  /\ encode_inet 0 19 "192.168.1.0/4294967320"
     = Written [0; 1; 168; 192; 24; 2; 2; 0]
  /\ encode_inet 0 19 "192.168.1.0/4294967295"
     = Written [0; 1; 168; 192; 32; 2; 2; 0].
Proof.
  assert (B : sizeof_IPv4Network <= 19) by (unfold sizeof_IPv4Network; lia).
  assert (A : 0 <= 3232235776 < 2 ^ 32) by (change (2 ^ 32) with 4294967296; lia).
  destruct (encode_prefix_number 0 19 3232235776 (lit "33") B A
              ltac:(discriminate) eq_refl) as (W1 & _).
  destruct (encode_prefix_number 0 19 3232235776 (lit "4294967320") B A
              ltac:(discriminate) eq_refl) as (_ & W2 & W3 & _).
  destruct (encode_prefix_number 0 19 3232235776 (lit "4294967295") B A
              ltac:(discriminate) eq_refl) as (_ & _ & _ & W4).
  destruct (W1 ltac:(vm_compute; split; [reflexivity | intro; discriminate]))
    as [W1a W1b].
  exact (conj W1a (conj W1b
           (conj (W2 ltac:(vm_compute; intro; discriminate)
                     ltac:(vm_compute; intro; discriminate)
                     ltac:(intros _; vm_compute; reflexivity))
              (conj (W3 ltac:(vm_compute; intro; discriminate)
                        ltac:(vm_compute; intro; discriminate))
                    (W4 (or_introl eq_refl)))))).
Defined.
